(** * Task manager (requests / tasks / subtasks): model and verification

    A shallow embedding of [src/index.ts] (class [TaskManagerServer] and
    the [manage_subtasks] tool handler with its Zod schema), followed by
    the properties of the lifecycle engine.

    Conventions of the embedding.
    - JavaScript strings are [string]; the text is taken to be ASCII, so
      [toLowerCase] only folds [A-Z] and [trim] only strips the ASCII
      white space characters.
    - JavaScript numbers that are integers by construction (counters,
      task numbers) are [Z]; the one place where the program divides,
      [calculateCompletionPercentage], is computed in IEEE-754 binary64
      with [SpecFloat].  A [Z] and the program's binary64 number agree
      as long as the integer is below 2^53, the range in which binary64
      holds every integer exactly; a property that depends on a number
      read back from a stored identifier states this bound.
    - Every public method starts with [loadTasks()], which overwrites
      [this.data] and both counters from the persisted document, and
      every mutating method ends with [saveTasks()].  The state that
      survives from one call to the next is therefore the persisted
      document, a [TaskManagerFile]; an absent file is the empty document
      (the counters are then still at their initial value 0).
    - [new Date().toISOString()] is a parameter [now] of the call.
    - The human-readable [message] field of a result (progress tables,
      formatted sentences) is not modelled, except where a constant
      message is the only discriminator of an error. *)

From Stdlib Require Import ZArith NArith Ascii String SpecFloat.
From Stdlib Require Import Decimal DecimalString DecimalPos DecimalFacts.
From stdpp Require Import base tactics option list strings sorting.

#[local] Open Scope Z_scope.

(* ===================================================================== *)
(** * JavaScript primitives used by the program *)
(* ===================================================================== *)

Module JS.

(** ** Characters *)

Definition is_digit (c : ascii) : bool :=
  let n := nat_of_ascii c in ((48 <=? n) && (n <=? 57))%nat.

(** White space removed by [String.prototype.trim] and skipped by
    [parseInt]: TAB, LF, VT, FF, CR and SPACE. *)
Definition is_space (c : ascii) : bool :=
  let n := nat_of_ascii c in (((9 <=? n) && (n <=? 13)) || (n =? 32))%nat.

Definition lower_char (c : ascii) : ascii :=
  let n := nat_of_ascii c in
  if ((65 <=? n) && (n <=? 90))%nat then ascii_of_nat (n + 32) else c.

(** Value of a character as a digit in a radix up to 36. *)
Definition digit_value (c : ascii) : option N :=
  let n := N_of_ascii c in
  if ((48 <=? n) && (n <=? 57))%N then Some (n - 48)%N
  else if ((97 <=? n) && (n <=? 122))%N then Some (n - 87)%N
  else if ((65 <=? n) && (n <=? 90))%N then Some (n - 55)%N
  else None.

(** ** Strings *)

Definition strlen (s : string) : nat := String.length s.

(** [s] is falsy exactly when it is the empty string. *)
Definition truthy (s : string) : bool :=
  match s with EmptyString => false | String _ _ => true end.

Fixpoint toLowerCase (s : string) : string :=
  match s with
  | EmptyString => EmptyString
  | String c s' => String (lower_char c) (toLowerCase s')
  end.

Fixpoint trimStart (s : string) : string :=
  match s with
  | EmptyString => EmptyString
  | String c s' => if is_space c then trimStart s' else s
  end.

Fixpoint trimEnd (s : string) : string :=
  match s with
  | EmptyString => EmptyString
  | String c s' =>
      match trimEnd s' with
      | EmptyString => if is_space c then EmptyString else String c EmptyString
      | t => String c t
      end
  end.

Definition trim (s : string) : string := trimEnd (trimStart s).

(** [strip_prefix p s] is the rest of [s] after [p] when [s] starts with [p]. *)
Fixpoint strip_prefix (p s : string) : option string :=
  match p with
  | EmptyString => Some s
  | String a p' =>
      match s with
      | EmptyString => None
      | String b s' => if Ascii.eqb a b then strip_prefix p' s' else None
      end
  end.

Definition startsWith (s p : string) : bool :=
  match strip_prefix p s with Some _ => true | None => false end.

(** [s.split(sep)] for a non-empty separator: scan from the left, cut at
    every occurrence of [sep], resume after it.  [skip] counts the
    characters of a separator that are still to be passed over. *)
Fixpoint split_go (sep : string) (skip : nat) (piece : string) (s : string)
  : list string :=
  match s with
  | EmptyString => [piece]
  | String c s' =>
      match skip with
      | S k => split_go sep k piece s'
      | O =>
          if startsWith s sep
          then piece :: split_go sep (strlen sep - 1) EmptyString s'
          else split_go sep 0 (piece +:+ String c EmptyString) s'
      end
  end.

Definition split (s sep : string) : list string :=
  split_go sep 0 EmptyString s.

(** [s.replace(pat, by)] with a string pattern: the first occurrence only. *)
Fixpoint replace (s pat by_ : string) : string :=
  match strip_prefix pat s with
  | Some rest => by_ +:+ rest
  | None =>
      match s with
      | EmptyString => EmptyString
      | String c s' => String c (replace s' pat by_)
      end
  end.

Fixpoint all_digits (s : string) : bool :=
  match s with
  | EmptyString => true
  | String c s' => is_digit c && all_digits s'
  end.

(** [s.match(/<marker>(\d+)$/)]: the capture group of the leftmost match,
    that is, a non-empty run of digits that ends the string and is
    preceded by [marker]. *)
Fixpoint match_suffix_digits (marker s : string) : option string :=
  let here :=
    match strip_prefix marker s with
    | Some rest => if truthy rest && all_digits rest then Some rest else None
    | None => None
    end in
  match here with
  | Some d => Some d
  | None =>
      match s with
      | EmptyString => None
      | String _ s' => match_suffix_digits marker s'
      end
  end.

(** [arr.join(sep)]. *)
Fixpoint join (sep : string) (l : list string) : string :=
  match l with
  | [] => EmptyString
  | [x] => x
  | x :: rest => x +:+ sep +:+ join sep rest
  end.

(** ** Numbers *)

(** Template-literal conversion of an integer to a string. *)
Definition Number_toString (z : Z) : string :=
  NilEmpty.string_of_int (Z.to_int z).

(** The longest prefix of radix-[R] digits; [None] when there is none. *)
Fixpoint parse_digits (R : N) (acc : option N) (s : string) : option N :=
  match s with
  | EmptyString => acc
  | String c s' =>
      match digit_value c with
      | Some v =>
          if (v <? R)%N
          then parse_digits R (Some (R * default 0%N acc + v)%N) s'
          else acc
      | None => acc
      end
  end.

(** [parseInt(s, radix)]; [None] is [NaN].  Without a radix (or with
    radix 16) a leading [0x] selects base 16. *)
Definition parseInt (s : string) (radix : option N) : option Z :=
  let s1 := trimStart s in
  let '(neg, s2) :=
    match s1 with
    | String "-" r => (true, r)
    | String "+" r => (false, r)
    | _ => (false, s1)
    end in
  let R0 := default 0%N radix in
  if negb (R0 =? 0)%N && ((R0 <? 2)%N || (36 <? R0)%N) then None
  else
    let strip := (R0 =? 0)%N || (R0 =? 16)%N in
    let '(R, s3) :=
      match s2 with
      | String "0" (String x r) =>
          if strip && (Ascii.eqb x "x" || Ascii.eqb x "X")
          then (16%N, r)
          else ((if (R0 =? 0)%N then 10%N else R0), s2)
      | _ => ((if (R0 =? 0)%N then 10%N else R0), s2)
      end in
    match parse_digits R None s3 with
    | Some n => Some (if neg then - Z.of_N n else Z.of_N n)
    | None => None
    end.

(** [x || 0] for a number: [NaN] and [0] both give [0]. *)
Definition or_zero (x : option Z) : Z := default 0 x.

(** [Math.max(...l)] guarded by [l.length > 0] in the program. *)
Definition Math_max (l : list Z) : Z :=
  match l with
  | [] => 0
  | x :: rest => fold_left Z.max rest x
  end.

(** ** IEEE-754 binary64 arithmetic *)

Definition prec : Z := 53.
Definition emax : Z := 1024.

Definition Number_of_nat (n : nat) : spec_float :=
  binary_normalize prec emax (Z.of_nat n) 0 false.

Definition fdiv (x y : spec_float) : spec_float := SFdiv prec emax x y.
Definition fmul (x y : spec_float) : spec_float := SFmul prec emax x y.

(** [Math.round(x)] = floor(x + 1/2), computed exactly on the value
    [(-1)^s * m * 2^e] of a finite double.  The program only rounds
    quotients of a count by a positive length times 100, which are finite;
    the other cases are mapped to 0. *)
Definition Math_round (x : spec_float) : Z :=
  match x with
  | S754_finite s m e =>
      let v := if s then Z.neg m else Z.pos m in
      if 0 <=? e then v * 2 ^ e
      else (2 * v + 2 ^ (- e)) / 2 ^ (1 - e)
  | _ => 0
  end.

End JS.

(* ===================================================================== *)
(** * Data model ([interface Subtask], [Task], [RequestEntry],
      [TaskManagerFile]) *)
(* ===================================================================== *)

Inductive Status : Set := pending | in_progress | completed | cancelled.

#[global] Instance Status_eq_dec : EqDecision Status.
Proof. solve_decision. Defined.

Definition Status_toString (s : Status) : string :=
  match s with
  | pending => "pending"
  | in_progress => "in_progress"
  | completed => "completed"
  | cancelled => "cancelled"
  end.

Record Subtask : Set := mkSubtask {
  sub_id : string;
  sub_content : string;
  sub_status : Status;
  sub_createdAt : string;
  sub_completedAt : option string
}.

Record Task : Set := mkTask {
  task_id : string;
  task_title : string;
  task_description : string;
  task_done : bool;
  task_approved : bool;
  task_completedDetails : string;
  task_subtasks : option (list Subtask);
  task_completionPercentage : option Z
}.

Record RequestEntry : Set := mkRequest {
  req_requestId : string;
  req_originalRequest : string;
  req_splitDetails : string;
  req_tasks : list Task;
  req_completed : bool
}.

Record TaskManagerFile : Set := mkFile { requests : list RequestEntry }.

(** The in-memory fields of [class TaskManagerServer]. *)
Record TaskManagerServer : Set := mkServer {
  requestCounter : Z;
  taskCounter : Z;
  data : TaskManagerFile
}.

(** Arguments of the tools. *)
Record TaskDef : Set := mkTaskDef { def_title : string; def_description : string }.

Record SubtaskSpec : Set := mkSpec {
  spec_id : option string;
  spec_content : string;
  spec_status : option Status
}.

Record Updates : Set := mkUpdates {
  upd_content : option string;
  upd_status : option Status
}.

Inductive Action : Set :=
  A_create | A_update | A_complete | A_delete | A_break_down.

Record Params : Set := mkParams {
  p_taskId : string;
  p_action : Action;
  p_subtasks : option (list SubtaskSpec);
  p_subtaskId : option string;
  p_updates : option Updates
}.

(** Result objects, one constructor per shape returned by the program. *)
Inductive Result : Set :=
| Planned (requestId : string) (totalTasks : nat)
          (tasks : list (string * string * string))
| Error (message : string)
| ErrorCode (code : string) (errors : list string)
| SchemaValidationFailed
| AlreadyCompleted
| AllTasksDone
| NoNextTask
| NextTask (id : string) (displayNumber : option Z) (title description : string)
| AlreadyDone
| SubtasksIncomplete (completionPercentage : Z) (remainingSubtasks : nat)
| TaskMarkedDone (requestId : string) (task : Task)
| AlreadyApproved
| TaskApproved (requestId : string) (task : Task)
| RequestApprovedComplete (requestId : string)
| TaskDetails (request : RequestEntry) (task : Task)
| TaskNotFound
| RequestsListed (summary : list (string * string * nat * nat * nat))
| TasksAdded (newTasks : list (string * option Z * string * string))
| TaskUpdated (task : Task)
| TaskDeleted
| AllTasksCleared (clearedRequests clearedTasks : nat)
| SubtasksCreated (subtasks : list Subtask) (completionPercentage : Z)
                  (totalSubtasks : nat)
| SubtaskUpdated (subtask : Subtask) (completionPercentage : Z)
| SubtaskCompleted (subtask : Subtask) (completionPercentage : Z)
                   (remainingSubtasks : nat)
| SubtaskDeleted (deletedSubtask : Subtask) (completionPercentage : Z)
                 (remainingSubtasks : nat)
| TaskBrokenDown (subtasks : list Subtask) (completionPercentage : Z).

(** The [status] discriminator of a result object. *)
Definition status (r : Result) : string :=
  match r with
  | Planned _ _ _ => "planned"
  | Error _ | ErrorCode _ _ | SchemaValidationFailed => "error"
  | AlreadyCompleted => "already_completed"
  | AllTasksDone => "all_tasks_done"
  | NoNextTask => "no_next_task"
  | NextTask _ _ _ _ => "next_task"
  | AlreadyDone => "already_done"
  | SubtasksIncomplete _ _ => "subtasks_incomplete"
  | TaskMarkedDone _ _ => "task_marked_done"
  | AlreadyApproved => "already_approved"
  | TaskApproved _ _ => "task_approved"
  | RequestApprovedComplete _ => "request_approved_complete"
  | TaskDetails _ _ => "task_details"
  | TaskNotFound => "task_not_found"
  | RequestsListed _ => "requests_listed"
  | TasksAdded _ => "tasks_added"
  | TaskUpdated _ => "task_updated"
  | TaskDeleted => "task_deleted"
  | AllTasksCleared _ _ => "all_tasks_cleared"
  | SubtasksCreated _ _ _ => "subtasks_created"
  | SubtaskUpdated _ _ => "subtask_updated"
  | SubtaskCompleted _ _ _ => "subtask_completed"
  | SubtaskDeleted _ _ _ => "subtask_deleted"
  | TaskBrokenDown _ _ => "task_broken_down"
  end.

(** ** Field updates (the program assigns to fields of shared objects;
       here each assignment rebuilds the record) *)

Definition set_tasks (r : RequestEntry) (ts : list Task) : RequestEntry :=
  mkRequest (req_requestId r) (req_originalRequest r) (req_splitDetails r)
            ts (req_completed r).

Definition set_completed (r : RequestEntry) (b : bool) : RequestEntry :=
  mkRequest (req_requestId r) (req_originalRequest r) (req_splitDetails r)
            (req_tasks r) b.

Definition set_done (t : Task) (details : string) : Task :=
  mkTask (task_id t) (task_title t) (task_description t) true
         (task_approved t) details (task_subtasks t)
         (task_completionPercentage t).

Definition set_approved (t : Task) : Task :=
  mkTask (task_id t) (task_title t) (task_description t) (task_done t)
         true (task_completedDetails t) (task_subtasks t)
         (task_completionPercentage t).

Definition set_title (t : Task) (s : string) : Task :=
  mkTask (task_id t) s (task_description t) (task_done t)
         (task_approved t) (task_completedDetails t) (task_subtasks t)
         (task_completionPercentage t).

Definition set_description (t : Task) (s : string) : Task :=
  mkTask (task_id t) (task_title t) s (task_done t)
         (task_approved t) (task_completedDetails t) (task_subtasks t)
         (task_completionPercentage t).

(** [targetTask.subtasks = subs; targetTask.completionPercentage = pct]. *)
Definition set_subtasks (t : Task) (subs : list Subtask) (pct : Z) : Task :=
  mkTask (task_id t) (task_title t) (task_description t) (task_done t)
         (task_approved t) (task_completedDetails t) (Some subs) (Some pct).

(** [this.data.requests[i].tasks[j] = t]. *)
Definition set_task (d : TaskManagerFile) (i j : nat) (t : Task)
  : TaskManagerFile :=
  mkFile (alter (fun r => set_tasks r (<[j := t]> (req_tasks r))) i (requests d)).

Definition set_request (d : TaskManagerFile) (i : nat) (r : RequestEntry)
  : TaskManagerFile :=
  mkFile (<[i := r]> (requests d)).

(** [s || fallback] on an optional string. *)
Definition or_string (s : option string) (fallback : string) : string :=
  match s with
  | Some x => if JS.truthy x then x else fallback
  | None => fallback
  end.

Definition isCompleted (st : Subtask) : bool :=
  bool_decide (sub_status st = completed).

(** [/-task-(\d+)$/] followed by [parseInt]. *)
Definition taskDisplayNumber (id : string) : option Z :=
  match JS.match_suffix_digits "-task-" id with
  | Some d => JS.parseInt d None
  | None => None
  end.

(** [task.subtasks && task.subtasks.length > 0 ? task.subtasks : []]. *)
Definition subtasks_of (t : Task) : list Subtask := default [] (task_subtasks t).

(** [task.completionPercentage || 0]. *)
Definition percentage_or_zero (t : Task) : Z := JS.or_zero (task_completionPercentage t).

(* ===================================================================== *)
(** * [class TaskManagerServer] *)
(* ===================================================================== *)

(** ** [loadTasks] and [saveTasks] *)

Definition requestNumber (req : RequestEntry) : option Z :=
  JS.parseInt (JS.replace (req_requestId req) "req-" EmptyString) (Some 10%N).

(** The number after the last [-subtask-] of a subtask identifier, as
    [loadTasks] reads it; the program's [parseInt] gives this integer
    exactly when it is below 2^53. *)
Definition subtaskNumber (st : Subtask) : option Z :=
  match JS.match_suffix_digits "-subtask-" (sub_id st) with
  | Some d => JS.parseInt d (Some 10%N)
  | None => None
  end.

Definition allRequestIds (d : TaskManagerFile) : list Z :=
  omap requestNumber (requests d).

Definition allTaskIds (d : TaskManagerFile) : list Z :=
  flat_map (fun req =>
    flat_map (fun t => omap subtaskNumber (subtasks_of t)) (req_tasks req))
    (requests d).

(** Both counters are recomputed from the document that was read. *)
Definition loadTasks (file : TaskManagerFile) : TaskManagerServer :=
  mkServer
    (match allRequestIds file with [] => 0 | l => JS.Math_max l end)
    (match allTaskIds file with [] => 0 | l => JS.Math_max l end)
    file.

(** [saveTasks] writes [this.data]; the new persisted document. *)
Definition saveTasks (d : TaskManagerFile) : TaskManagerFile := d.

Definition find_request (requestId : string) (d : TaskManagerFile)
  : option (nat * RequestEntry) :=
  list_find (fun r => req_requestId r = requestId) (requests d).

Definition find_task (taskId : string) (ts : list Task) : option (nat * Task) :=
  list_find (fun t => task_id t = taskId) ts.

(** ** [requestPlanning] *)

Definition new_task (id : string) (taskDef : TaskDef) : Task :=
  mkTask id (def_title taskDef) (def_description taskDef)
         false false EmptyString None None.

(** The loop [for (const taskDef of tasks)] with its running task number. *)
Fixpoint number_tasks (requestId : string) (k : Z) (tasks : list TaskDef)
  : list Task :=
  match tasks with
  | [] => []
  | taskDef :: rest =>
      new_task ("req-" +:+ requestId +:+ "-task-" +:+ JS.Number_toString k) taskDef
      :: number_tasks requestId (k + 1) rest
  end.

Definition requestPlanning (originalRequest : string) (tasks : list TaskDef)
    (splitDetails : option string) (file : TaskManagerFile)
  : Result * TaskManagerFile :=
  let this := loadTasks file in
  let requestCounter' := requestCounter this + 1 in
  let requestId := "req-" +:+ JS.Number_toString requestCounter' in
  let newTasks := number_tasks requestId 1 tasks in
  let data' :=
    mkFile (requests (data this) ++
            [mkRequest requestId originalRequest
                       (or_string splitDetails originalRequest)
                       newTasks false]) in
  (Planned requestId (length newTasks)
           (map (fun t => (task_id t, task_title t, task_description t)) newTasks),
   saveTasks data').

(** ** [getNextTask] *)

Definition getNextTask (requestId : string) (file : TaskManagerFile)
  : Result * TaskManagerFile :=
  let this := loadTasks file in
  match find_request requestId (data this) with
  | None => (Error "Request not found", file)
  | Some (_, req) =>
      if req_completed req then (AlreadyCompleted, file)
      else
        match List.find (fun t => negb (task_done t)) (req_tasks req) with
        | None =>
            let allDone := forallb task_done (req_tasks req) in
            if allDone && negb (req_completed req) then (AllTasksDone, file)
            else (NoNextTask, file)
        | Some nextTask =>
            (NextTask (task_id nextTask) (taskDisplayNumber (task_id nextTask))
                      (task_title nextTask) (task_description nextTask),
             file)
        end
  end.

(** ** [markTaskDone] *)

Definition markTaskDone (requestId taskId : string)
    (completedDetails : option string) (file : TaskManagerFile)
  : Result * TaskManagerFile :=
  let this := loadTasks file in
  match find_request requestId (data this) with
  | None => (Error "Request not found", file)
  | Some (i, req) =>
      match find_task taskId (req_tasks req) with
      | None => (Error "Task not found", file)
      | Some (j, task) =>
          if task_done task then (AlreadyDone, file)
          else
            let subtasks := subtasks_of task in
            if (0 <? length subtasks)%nat && negb (forallb isCompleted subtasks)
            then
              (SubtasksIncomplete
                 (percentage_or_zero task)
                 (length (List.filter (fun st => negb (isCompleted st)) subtasks)),
               file)
            else
              let task' := set_done task (or_string completedDetails EmptyString) in
              (TaskMarkedDone (req_requestId req) task',
               saveTasks (set_task (data this) i j task'))
      end
  end.

(** ** [approveTaskCompletion] *)

Definition approveTaskCompletion (requestId taskId : string)
    (file : TaskManagerFile) : Result * TaskManagerFile :=
  let this := loadTasks file in
  match find_request requestId (data this) with
  | None => (Error "Request not found", file)
  | Some (i, req) =>
      match find_task taskId (req_tasks req) with
      | None => (Error "Task not found", file)
      | Some (j, task) =>
          if negb (task_done task) then (Error "Task not done yet.", file)
          else if task_approved task then (AlreadyApproved, file)
          else
            let task' := set_approved task in
            (TaskApproved (req_requestId req) task',
             saveTasks (set_task (data this) i j task'))
      end
  end.

(** ** [approveRequestCompletion] *)

Definition approveRequestCompletion (requestId : string)
    (file : TaskManagerFile) : Result * TaskManagerFile :=
  let this := loadTasks file in
  match find_request requestId (data this) with
  | None => (Error "Request not found", file)
  | Some (i, req) =>
      let allDone := forallb task_done (req_tasks req) in
      if negb allDone then (Error "Not all tasks are done.", file)
      else
        let allApproved :=
          forallb (fun t => task_done t && task_approved t) (req_tasks req) in
        if negb allApproved then (Error "Not all done tasks are approved.", file)
        else
          (RequestApprovedComplete (req_requestId req),
           saveTasks (set_request (data this) i (set_completed req true)))
  end.

(** ** [openTaskDetails] *)

Fixpoint openTaskDetails_loop (taskId : string) (reqs : list RequestEntry)
  : Result :=
  match reqs with
  | [] => TaskNotFound
  | req :: rest =>
      match List.find (fun t => bool_decide (task_id t = taskId)) (req_tasks req) with
      | Some target => TaskDetails req target
      | None => openTaskDetails_loop taskId rest
      end
  end.

Definition openTaskDetails (taskId : string) (file : TaskManagerFile)
  : Result * TaskManagerFile :=
  let this := loadTasks file in
  (openTaskDetails_loop taskId (requests (data this)), file).

(** ** [listRequests] *)

Definition listRequests (file : TaskManagerFile) : Result * TaskManagerFile :=
  let this := loadTasks file in
  (RequestsListed
     (map (fun req =>
             (req_requestId req, req_originalRequest req,
              length (req_tasks req),
              length (List.filter task_done (req_tasks req)),
              length (List.filter task_approved (req_tasks req))))
          (requests (data this))),
   file).

(** ** [addTasksToRequest] *)

(** [parseInt(t.id.split('-task-')[1]) || 0]; a missing second piece is
    [undefined], which [parseInt] reads as [NaN]. *)
Definition taskNumberOf (id : string) : Z :=
  match JS.split id "-task-" !! 1%nat with
  | Some piece => JS.or_zero (JS.parseInt piece None)
  | None => 0
  end.

Definition taskNumber (t : Task) : Z := taskNumberOf (task_id t).

Definition maxTaskNum (existingTasks : list Task) : Z :=
  match existingTasks with
  | [] => 0
  | _ => JS.Math_max (map taskNumber existingTasks)
  end.

Definition addTasksToRequest (requestId : string) (tasks : list TaskDef)
    (file : TaskManagerFile) : Result * TaskManagerFile :=
  let this := loadTasks file in
  match find_request requestId (data this) with
  | None => (Error "Request not found", file)
  | Some (i, req) =>
      if req_completed req
      then (Error "Cannot add tasks to completed request", file)
      else
        let nextTaskNum := maxTaskNum (req_tasks req) + 1 in
        let newTasks := number_tasks requestId nextTaskNum tasks in
        let req' := set_tasks req (req_tasks req ++ newTasks) in
        (TasksAdded
           (map (fun t => (task_id t, taskDisplayNumber (task_id t),
                           task_title t, task_description t)) newTasks),
         saveTasks (set_request (data this) i req'))
  end.

(** ** [updateTask] *)

Definition updateTask (requestId taskId : string)
    (title description : option string) (file : TaskManagerFile)
  : Result * TaskManagerFile :=
  let this := loadTasks file in
  match find_request requestId (data this) with
  | None => (Error "Request not found", file)
  | Some (i, req) =>
      match find_task taskId (req_tasks req) with
      | None => (Error "Task not found", file)
      | Some (j, task) =>
          if task_done task then (Error "Cannot update completed task", file)
          else
            let task1 := set_title task (or_string title (task_title task)) in
            let task2 :=
              set_description task1 (or_string description (task_description task1)) in
            (TaskUpdated task2, saveTasks (set_task (data this) i j task2))
      end
  end.

(** ** [deleteTask] *)

Definition deleteTask (requestId taskId : string) (file : TaskManagerFile)
  : Result * TaskManagerFile :=
  let this := loadTasks file in
  match find_request requestId (data this) with
  | None => (Error "Request not found", file)
  | Some (i, req) =>
      match find_task taskId (req_tasks req) with
      | None => (Error "Task not found", file)
      | Some (taskIndex, task) =>
          if task_done task then (Error "Cannot delete completed task", file)
          else
            let req' := set_tasks req (delete taskIndex (req_tasks req)) in
            (TaskDeleted, saveTasks (set_request (data this) i req'))
      end
  end.

(** ** [clearAllTasks] *)

Definition clearAllTasks (file : TaskManagerFile) : Result * TaskManagerFile :=
  let this := loadTasks file in
  let totalRequests := length (requests (data this)) in
  let totalTasks :=
    fold_left (fun sum req => (sum + length (req_tasks req))%nat)
              (requests (data this)) 0%nat in
  (AllTasksCleared totalRequests totalTasks, saveTasks (mkFile [])).

(** ** Subtask helpers *)

(** [Math.round((completedCount / subtasks.length) * 100)], in binary64. *)
Definition calculateCompletionPercentage (subtasks : list Subtask) : Z :=
  match subtasks with
  | [] => 0
  | _ =>
      let completedCount := length (List.filter isCompleted subtasks) in
      JS.Math_round
        (JS.fmul (JS.fdiv (JS.Number_of_nat completedCount)
                          (JS.Number_of_nat (length subtasks)))
                 (JS.Number_of_nat 100))
  end.

(** [this.taskCounter += 1; return `${taskId}-subtask-${this.taskCounter}`];
    the counter is threaded explicitly.  It is the program's counter as
    long as it is below 2^53; from there on the binary64 addition of the
    program no longer counts. *)
Definition generateSubtaskId (taskId : string) (counter : Z) : string * Z :=
  let counter' := counter + 1 in
  (taskId +:+ "-subtask-" +:+ JS.Number_toString counter', counter').

(** The table [validTransitions]. *)
Definition getValidTransitions (currentStatus : Status) : list Status :=
  match currentStatus with
  | pending => [in_progress; cancelled]
  | in_progress => [completed; pending; cancelled]
  | completed => [pending]
  | cancelled => [pending]
  end.

Definition validateStatusTransition (currentStatus newStatus : Status) : bool :=
  bool_decide (newStatus ∈ getValidTransitions currentStatus).

(** [excludeId] is [None] when the argument is omitted: [st.id !== undefined]
    then holds for every subtask. *)
Definition validateUniqueContent (subtasks : list Subtask) (newContent : string)
    (excludeId : option string) : bool :=
  negb (existsb
          (fun st =>
             bool_decide (JS.toLowerCase (sub_content st) = JS.toLowerCase newContent)
             && negb (bool_decide (Some (sub_id st) = excludeId)))
          subtasks).

(** The list of errors; [valid] is [errors.length === 0].  The status of
    the argument is typed, so "Invalid status value" cannot be produced. *)
Definition validateSubtaskData (content : option string) (st : option Status)
  : list string :=
  match content with
  | Some c =>
      if JS.truthy c then
        (if (JS.strlen c <? 1)%nat then ["Subtask content cannot be empty"] else [])
        ++ (if (500 <? JS.strlen c)%nat
            then ["Subtask content cannot exceed 500 characters"] else [])
        ++ (if (JS.strlen (JS.trim c) =? 0)%nat
            then ["Subtask content cannot be only whitespace"] else [])
      else ["Subtask content is required"]
  | None => ["Subtask content is required"]
  end.

Definition is_nil {A} (l : list A) : bool :=
  match l with [] => true | _ => false end.

Definition dquote : string := String (ascii_of_nat 34) EmptyString.

Definition item_label (i : nat) : string :=
  "Subtask " +:+ JS.Number_toString (Z.of_nat i + 1) +:+ ": ".

Definition invalid_item_error (i : nat) (errors : list string) : string :=
  item_label i +:+ JS.join ", " errors.

Definition duplicate_item_error (i : nat) (content : string) : string :=
  item_label i +:+ "Duplicate content " +:+ dquote +:+ content +:+ dquote.

Definition duplicate_update_error (content : string) : string :=
  "Content " +:+ dquote +:+ content +:+ dquote +:+ " already exists in another subtask".

Definition transition_error (from to : Status) : string :=
  "Cannot change status from " +:+ dquote +:+ Status_toString from +:+ dquote
  +:+ " to " +:+ dquote +:+ Status_toString to +:+ dquote
  +:+ ". Valid transitions: "
  +:+ JS.join ", " (map Status_toString (getValidTransitions from)).

(** [subtask.id || this.generateSubtaskId(taskId)]. *)
Definition subtask_id_or_generate (sid : option string) (taskId : string)
    (counter : Z) : string * Z :=
  match sid with
  | Some s => if JS.truthy s then (s, counter) else generateSubtaskId taskId counter
  | None => generateSubtaskId taskId counter
  end.

Definition build_subtask (subtask : SubtaskSpec) (sid now : string) : Subtask :=
  mkSubtask sid (spec_content subtask) (default pending (spec_status subtask))
            now None.

(** The validation loop of [create]; [existing] is [targetTask.subtasks || []],
    which the loop does not modify. *)
Fixpoint create_loop (existing : list Subtask) (taskId now : string)
    (i : nat) (subtasks : list SubtaskSpec)
    (counter : Z) (validationErrors : list string) (validatedSubtasks : list Subtask)
  : Z * list string * list Subtask :=
  match subtasks with
  | [] => (counter, validationErrors, validatedSubtasks)
  | subtask :: rest =>
      let errors := validateSubtaskData (Some (spec_content subtask)) (spec_status subtask) in
      if negb (is_nil errors) then
        create_loop existing taskId now (S i) rest counter
          (validationErrors ++ [invalid_item_error i errors]) validatedSubtasks
      else if negb (validateUniqueContent existing (spec_content subtask) None) then
        create_loop existing taskId now (S i) rest counter
          (validationErrors ++ [duplicate_item_error i (spec_content subtask)])
          validatedSubtasks
      else
        let '(sid, counter') := subtask_id_or_generate (spec_id subtask) taskId counter in
        create_loop existing taskId now (S i) rest counter' validationErrors
          (validatedSubtasks ++ [build_subtask subtask sid now])
  end.

(** The validation loop of [break_down]: no comparison with existing subtasks. *)
Fixpoint break_down_loop (taskId now : string)
    (i : nat) (subtasks : list SubtaskSpec)
    (counter : Z) (validationErrors : list string) (validatedSubtasks : list Subtask)
  : Z * list string * list Subtask :=
  match subtasks with
  | [] => (counter, validationErrors, validatedSubtasks)
  | subtask :: rest =>
      let errors := validateSubtaskData (Some (spec_content subtask)) (spec_status subtask) in
      if negb (is_nil errors) then
        break_down_loop taskId now (S i) rest counter
          (validationErrors ++ [invalid_item_error i errors]) validatedSubtasks
      else
        let '(sid, counter') := subtask_id_or_generate (spec_id subtask) taskId counter in
        break_down_loop taskId now (S i) rest counter' validationErrors
          (validatedSubtasks ++ [build_subtask subtask sid now])
  end.

(** [validatedSubtasks.filter((st, index) =>
       validatedSubtasks.findIndex(other => lower(other.content) === lower(st.content))
       !== index)]. *)
Definition first_index_same_content (l : list Subtask) (st : Subtask) : option nat :=
  fst <$> list_find
    (fun other => JS.toLowerCase (sub_content other) = JS.toLowerCase (sub_content st)) l.

Definition duplicateContents (validatedSubtasks : list Subtask) : list Subtask :=
  omap (fun '(index, st) =>
          if bool_decide (first_index_same_content validatedSubtasks st = Some index)
          then None else Some st)
       (imap (fun index st => (index, st)) validatedSubtasks).

(** The search loop at the head of [manageSubtasks]: the first request, in
    stored order, that holds a task with the given id. *)
Fixpoint locate_task (taskId : string) (i : nat) (reqs : list RequestEntry)
  : option (nat * nat * Task) :=
  match reqs with
  | [] => None
  | req :: rest =>
      match find_task taskId (req_tasks req) with
      | Some (taskIdx, targetTask) => Some (i, taskIdx, targetTask)
      | None => locate_task taskId (S i) rest
      end
  end.

Definition find_subtask (subtaskId : string) (subtasks : list Subtask)
  : option (nat * Subtask) :=
  list_find (fun st => sub_id st = subtaskId) subtasks.

Definition set_content (st : Subtask) (c : string) : Subtask :=
  mkSubtask (sub_id st) c (sub_status st) (sub_createdAt st) (sub_completedAt st).

(** The status assignment of [update] with its [completedAt] bookkeeping. *)
Definition set_status (st : Subtask) (newStatus : Status) (now : string) : Subtask :=
  let oldStatus := sub_status st in
  let completedAt :=
    if bool_decide (newStatus = completed) && negb (bool_decide (oldStatus = completed))
    then Some now
    else if negb (bool_decide (newStatus = completed)) && bool_decide (oldStatus = completed)
    then None
    else sub_completedAt st in
  mkSubtask (sub_id st) (sub_content st) newStatus (sub_createdAt st) completedAt.

(** [subtask.status = "completed"; subtask.completedAt = now] of [complete]. *)
Definition set_completed_now (st : Subtask) (now : string) : Subtask :=
  mkSubtask (sub_id st) (sub_content st) completed (sub_createdAt st) (Some now).

Definition option_truthy (s : option string) : bool :=
  match s with Some x => JS.truthy x | None => false end.

(** ** [manageSubtasks], one definition per [case] of the [switch]

    [createBackup]/[rollbackToBackup] only act when an exception escapes
    the [try] block; no statement of the block throws on well-typed
    arguments, so the [catch] path is not part of the model. *)

Definition manage_create (now : string) (params : Params) (this : TaskManagerServer)
    (requestIndex taskIndex : nat) (targetTask : Task) (file : TaskManagerFile)
  : Result * TaskManagerFile :=
  match p_subtasks params with
  | None | Some [] => (ErrorCode "MISSING_SUBTASKS" [], file)
  | Some subtasks =>
      let existing := default [] (task_subtasks targetTask) in
      let '(_, validationErrors, validatedSubtasks) :=
        create_loop existing (p_taskId params) now 0 subtasks
                    (taskCounter this) [] [] in
      if negb (is_nil validationErrors)
      then (ErrorCode "VALIDATION_FAILED" validationErrors, file)
      else
        let subtasks' := existing ++ validatedSubtasks in
        let pct := calculateCompletionPercentage subtasks' in
        (SubtasksCreated validatedSubtasks pct (length subtasks'),
         saveTasks (set_task (data this) requestIndex taskIndex
                             (set_subtasks targetTask subtasks' pct)))
  end.

(** The errors collected by [update] before anything is changed. *)
Definition update_validation (subtasks : list Subtask) (subtask : Subtask)
    (subtaskId : string) (updates : Updates) : list string :=
  (match upd_content updates with
   | Some content =>
       if JS.truthy content then
         let errors := validateSubtaskData (Some content) None in
         if negb (is_nil errors) then errors
         else if negb (validateUniqueContent subtasks content (Some subtaskId))
         then [duplicate_update_error content]
         else []
       else []
   | None => []
   end)
  ++
  (match upd_status updates with
   | Some newStatus =>
       if negb (validateStatusTransition (sub_status subtask) newStatus)
       then [transition_error (sub_status subtask) newStatus]
       else []
   | None => []
   end).

(** "Apply updates": the two guarded assignments on the subtask object. *)
Definition apply_updates (subtask : Subtask) (updates : Updates) (now : string)
  : Subtask :=
  let subtask1 :=
    match upd_content updates with
    | Some content => if JS.truthy content then set_content subtask content else subtask
    | None => subtask
    end in
  match upd_status updates with
  | Some newStatus => set_status subtask1 newStatus now
  | None => subtask1
  end.

Definition manage_update (now : string) (params : Params) (this : TaskManagerServer)
    (requestIndex taskIndex : nat) (targetTask : Task) (file : TaskManagerFile)
  : Result * TaskManagerFile :=
  if negb (option_truthy (p_subtaskId params))
  then (ErrorCode "MISSING_SUBTASK_ID" [], file)
  else
    let subtaskId := default EmptyString (p_subtaskId params) in
    match p_updates params with
    | None => (ErrorCode "MISSING_UPDATES" [], file)
    | Some updates =>
        if negb (option_truthy (upd_content updates))
           && negb (bool_decide (is_Some (upd_status updates)))
        then (ErrorCode "MISSING_UPDATES" [], file)
        else
          match task_subtasks targetTask with
          | None => (ErrorCode "NO_SUBTASKS" [], file)
          | Some subtasks =>
              match find_subtask subtaskId subtasks with
              | None => (ErrorCode "SUBTASK_NOT_FOUND" [], file)
              | Some (subtaskIndex, subtask) =>
                  let validationErrors :=
                    update_validation subtasks subtask subtaskId updates in
                  if negb (is_nil validationErrors)
                  then (ErrorCode "UPDATE_VALIDATION_FAILED" validationErrors, file)
                  else
                    let subtask' := apply_updates subtask updates now in
                    let subtasks' := <[subtaskIndex := subtask']> subtasks in
                    let pct := calculateCompletionPercentage subtasks' in
                    (SubtaskUpdated subtask' pct,
                     saveTasks (set_task (data this) requestIndex taskIndex
                                         (set_subtasks targetTask subtasks' pct)))
              end
          end
    end.

Definition manage_complete (now : string) (params : Params) (this : TaskManagerServer)
    (requestIndex taskIndex : nat) (targetTask : Task) (file : TaskManagerFile)
  : Result * TaskManagerFile :=
  if negb (option_truthy (p_subtaskId params))
  then (ErrorCode "MISSING_SUBTASK_ID" [], file)
  else
    let subtaskId := default EmptyString (p_subtaskId params) in
    match task_subtasks targetTask with
    | None => (ErrorCode "NO_SUBTASKS" [], file)
    | Some subtasks =>
        match find_subtask subtaskId subtasks with
        | None => (ErrorCode "SUBTASK_NOT_FOUND" [], file)
        | Some (subtaskIndex, subtask) =>
            if bool_decide (sub_status subtask = completed)
            then (ErrorCode "ALREADY_COMPLETED" [], file)
            else if negb (validateStatusTransition (sub_status subtask) completed)
            then (ErrorCode "INVALID_TRANSITION" [], file)
            else
              let subtask' := set_completed_now subtask now in
              let subtasks' := <[subtaskIndex := subtask']> subtasks in
              let pct := calculateCompletionPercentage subtasks' in
              (SubtaskCompleted subtask' pct
                 (length (List.filter (fun st => negb (isCompleted st)) subtasks')),
               saveTasks (set_task (data this) requestIndex taskIndex
                                   (set_subtasks targetTask subtasks' pct)))
        end
    end.

Definition manage_delete (params : Params) (this : TaskManagerServer)
    (requestIndex taskIndex : nat) (targetTask : Task) (file : TaskManagerFile)
  : Result * TaskManagerFile :=
  if negb (option_truthy (p_subtaskId params))
  then (ErrorCode "MISSING_SUBTASK_ID" [], file)
  else
    let subtaskId := default EmptyString (p_subtaskId params) in
    match task_subtasks targetTask with
    | None => (ErrorCode "NO_SUBTASKS" [], file)
    | Some subtasks =>
        match find_subtask subtaskId subtasks with
        | None => (ErrorCode "SUBTASK_NOT_FOUND" [], file)
        | Some (subtaskIndex, deletedSubtask) =>
            if bool_decide (sub_status deletedSubtask = completed)
            then (ErrorCode "CANNOT_DELETE_COMPLETED" [], file)
            else
              let subtasks' := delete subtaskIndex subtasks in
              let pct := calculateCompletionPercentage subtasks' in
              (SubtaskDeleted deletedSubtask pct (length subtasks'),
               saveTasks (set_task (data this) requestIndex taskIndex
                                   (set_subtasks targetTask subtasks' pct)))
        end
    end.

Definition manage_break_down (now : string) (params : Params) (this : TaskManagerServer)
    (requestIndex taskIndex : nat) (targetTask : Task) (file : TaskManagerFile)
  : Result * TaskManagerFile :=
  match p_subtasks params with
  | None | Some [] => (ErrorCode "MISSING_SUBTASKS" [], file)
  | Some subtasks =>
      if (50 <? length subtasks)%nat
      then (ErrorCode "TOO_MANY_SUBTASKS" [], file)
      else
        let '(_, validationErrors, validatedSubtasks) :=
          break_down_loop (p_taskId params) now 0 subtasks (taskCounter this) [] [] in
        if negb (is_nil validationErrors)
        then (ErrorCode "VALIDATION_FAILED" validationErrors, file)
        else if negb (is_nil (duplicateContents validatedSubtasks))
        then (ErrorCode "DUPLICATE_CONTENT" [], file)
        else
          let pct := calculateCompletionPercentage validatedSubtasks in
          (TaskBrokenDown validatedSubtasks pct,
           saveTasks (set_task (data this) requestIndex taskIndex
                               (set_subtasks targetTask validatedSubtasks pct)))
  end.

Definition manageSubtasks (now : string) (params : Params) (file : TaskManagerFile)
  : Result * TaskManagerFile :=
  let this := loadTasks file in
  match locate_task (p_taskId params) 0 (requests (data this)) with
  | None => (ErrorCode "TASK_NOT_FOUND" [], file)
  | Some (requestIndex, taskIndex, targetTask) =>
      match p_action params with
      | A_create => manage_create now params this requestIndex taskIndex targetTask file
      | A_update => manage_update now params this requestIndex taskIndex targetTask file
      | A_complete => manage_complete now params this requestIndex taskIndex targetTask file
      | A_delete => manage_delete params this requestIndex taskIndex targetTask file
      | A_break_down => manage_break_down now params this requestIndex taskIndex targetTask file
      end
  end.

(* ===================================================================== *)
(** * The [manage_subtasks] tool: [ManageSubtasksSchema] then [manageSubtasks] *)
(* ===================================================================== *)

(** [z.string().min(1).max(500).trim()]: the two length checks read the
    string as given, then the value is replaced by its trimmed form. *)
Definition content_schema (c : string) : option string :=
  if ((1 <=? JS.strlen c) && (JS.strlen c <=? 500))%nat then Some (JS.trim c) else None.

(** [SubtaskSchema]: the content checks, the refinement on the trimmed
    content, and the default status. *)
Definition SubtaskSchema (s : SubtaskSpec) : option SubtaskSpec :=
  match content_schema (spec_content s) with
  | Some c =>
      if (0 <? JS.strlen c)%nat
      then Some (mkSpec (spec_id s) c (Some (default pending (spec_status s))))
      else None
  | None => None
  end.

Definition UpdatesSchema (u : Updates) : option Updates :=
  match upd_content u with
  | Some c =>
      match content_schema c with
      | Some c' => Some (mkUpdates (Some c') (upd_status u))
      | None => None
      end
  | None => Some u
  end.

(** The action-specific [refine] on the parsed object. *)
Definition action_refinement (d : Params) : bool :=
  match p_action d with
  | A_create | A_break_down =>
      match p_subtasks d with
      | None | Some [] => false
      | Some _ => true
      end
  | A_update =>
      option_truthy (p_subtaskId d)
      && match p_updates d with
         | Some u => option_truthy (upd_content u) || bool_decide (is_Some (upd_status u))
         | None => false
         end
  | A_complete | A_delete => option_truthy (p_subtaskId d)
  end.

Definition parse_optional {A B} (f : A -> option B) (x : option A)
  : option (option B) :=
  match x with
  | None => Some None
  | Some a => match f a with Some b => Some (Some b) | None => None end
  end.

(** [ManageSubtasksSchema.safeParse(args)]; [None] when [success] is false. *)
Definition ManageSubtasksSchema (args : Params) : option Params :=
  if negb (1 <=? JS.strlen (p_taskId args))%nat then None
  else
    match parse_optional
            (fun l => if (length l <=? 50)%nat then mapM SubtaskSchema l else None)
            (p_subtasks args),
          parse_optional UpdatesSchema (p_updates args) with
    | Some subtasks, Some updates =>
        let d := mkParams (p_taskId args) (p_action args) subtasks
                          (p_subtaskId args) updates in
        if action_refinement d then Some d else None
    | _, _ => None
    end.

Definition manage_subtasks_tool (now : string) (args : Params) (file : TaskManagerFile)
  : Result * TaskManagerFile :=
  match ManageSubtasksSchema args with
  | None => (SchemaValidationFailed, file)
  | Some parsed => manageSubtasks now parsed file
  end.

(* ===================================================================== *)
(** * Tool calls and reachable documents *)
(* ===================================================================== *)

(** The twelve tools of the [CallToolRequestSchema] handler.  The schemas
    of the first eleven only check argument types. *)
Inductive Call : Set :=
| request_planning (originalRequest : string) (tasks : list TaskDef)
                   (splitDetails : option string)
| get_next_task (requestId : string)
| mark_task_done (requestId taskId : string) (completedDetails : option string)
| approve_task_completion (requestId taskId : string)
| approve_request_completion (requestId : string)
| open_task_details (taskId : string)
| list_requests
| add_tasks_to_request (requestId : string) (tasks : list TaskDef)
| update_task (requestId taskId : string) (title description : option string)
| delete_task (requestId taskId : string)
| clear_all_tasks
| manage_subtasks (now : string) (args : Params).

Definition call (c : Call) (file : TaskManagerFile) : Result * TaskManagerFile :=
  match c with
  | request_planning o ts sd => requestPlanning o ts sd file
  | get_next_task r => getNextTask r file
  | mark_task_done r t d => markTaskDone r t d file
  | approve_task_completion r t => approveTaskCompletion r t file
  | approve_request_completion r => approveRequestCompletion r file
  | open_task_details t => openTaskDetails t file
  | list_requests => listRequests file
  | add_tasks_to_request r ts => addTasksToRequest r ts file
  | update_task r t ti de => updateTask r t ti de file
  | delete_task r t => deleteTask r t file
  | clear_all_tasks => clearAllTasks file
  | manage_subtasks now args => manage_subtasks_tool now args file
  end.

Definition empty_file : TaskManagerFile := mkFile [].

(** The document after a sequence of calls, and the results on the way. *)
Fixpoint run (cs : list Call) (file : TaskManagerFile) : TaskManagerFile :=
  match cs with
  | [] => file
  | c :: rest => run rest (snd (call c file))
  end.

Fixpoint results (cs : list Call) (file : TaskManagerFile) : list Result :=
  match cs with
  | [] => []
  | c :: rest => fst (call c file) :: results rest (snd (call c file))
  end.

Inductive reachable : TaskManagerFile -> Prop :=
| reachable_empty : reachable empty_file
| reachable_call c file : reachable file -> reachable (snd (call c file)).

(* ===================================================================== *)
(** * Notions used to state the properties *)
(* ===================================================================== *)

(** A task as seen when the approval flag is ignored. *)
Definition forget_approved (t : Task) : Task :=
  mkTask (task_id t) (task_title t) (task_description t) (task_done t)
         false (task_completedDetails t) (task_subtasks t)
         (task_completionPercentage t).

(** The number of subtasks whose status is not [completed]. *)
Definition unfinished (subtasks : list Subtask) : nat :=
  length (List.filter (fun st => negb (isCompleted st)) subtasks).

(** "The task has one or more subtasks and at least one of them is not
    completed." *)
Definition has_unfinished_subtask (t : Task) : Prop :=
  exists st, st ∈ subtasks_of t /\ sub_status st <> completed.

(** The answer of [getNextTask] on a request that is not completed, as a
    function of its task list. *)
Definition next_of (ts : list Task) : Result :=
  match List.find (fun t => negb (task_done t)) ts with
  | None => if forallb task_done ts then AllTasksDone else NoNextTask
  | Some nextTask =>
      NextTask (task_id nextTask) (taskDisplayNumber (task_id nextTask))
               (task_title nextTask) (task_description nextTask)
  end.

(** ** Sample documents and arguments, used to instantiate the theorems *)

Definition sample_def (title : string) : TaskDef := mkTaskDef title "details".

Definition sample_spec (content : string) (st : option Status) : SubtaskSpec :=
  mkSpec None content st.

(** One request with two tasks; the first is done but not approved. *)
Definition file_two_tasks : TaskManagerFile :=
  run [request_planning "ship" [sample_def "a"; sample_def "b"] None;
       mark_task_done "req-1" "req-req-1-task-1" None] empty_file.

Definition task_a_done : Task :=
  mkTask "req-req-1-task-1" "a" "details" true false EmptyString None None.

Definition task_b : Task :=
  mkTask "req-req-1-task-2" "b" "details" false false EmptyString None None.

Definition request_two_tasks : RequestEntry :=
  mkRequest "req-1" "ship" "ship" [task_a_done; task_b] false.

(** One request with one task that has four subtasks, one of them completed. *)
Definition file_four_subtasks : TaskManagerFile :=
  run [request_planning "app" [sample_def "Build Mobile App"] None;
       manage_subtasks "2024-01-01T00:00:00.000Z"
         (mkParams "req-req-1-task-1" A_break_down
            (Some [sample_spec "design" (Some completed);
                   sample_spec "login" (Some in_progress);
                   sample_spec "crud" None;
                   sample_spec "ui" (Some cancelled)])
            None None)] empty_file.

Definition subtask_design : Subtask :=
  mkSubtask "req-req-1-task-1-subtask-1" "design" completed
            "2024-01-01T00:00:00.000Z" None.

Definition four_subtasks : list Subtask :=
  [subtask_design;
   mkSubtask "req-req-1-task-1-subtask-2" "login" in_progress
             "2024-01-01T00:00:00.000Z" None;
   mkSubtask "req-req-1-task-1-subtask-3" "crud" pending
             "2024-01-01T00:00:00.000Z" None;
   mkSubtask "req-req-1-task-1-subtask-4" "ui" cancelled
             "2024-01-01T00:00:00.000Z" None].

Definition task_four_subtasks : Task :=
  mkTask "req-req-1-task-1" "Build Mobile App" "details" false false EmptyString
         (Some four_subtasks) (Some 25).

Definition request_four_subtasks : RequestEntry :=
  mkRequest "req-1" "app" "app" [task_four_subtasks] false.

(** The transition table of the specification:
    pending -> in_progress | cancelled,
    in_progress -> completed | pending | cancelled,
    completed -> pending, cancelled -> pending. *)
Definition spec_transition_table (s t : Status) : Prop :=
  match s, t with
  | pending, in_progress | pending, cancelled => True
  | in_progress, completed | in_progress, pending | in_progress, cancelled => True
  | completed, pending => True
  | cancelled, pending => True
  | _, _ => False
  end.

Definition update_status_params (taskId subtaskId : string)
    (content : option string) (t : Status) : Params :=
  mkParams taskId A_update None (Some subtaskId) (Some (mkUpdates content (Some t))).

Definition complete_params (taskId subtaskId : string) : Params :=
  mkParams taskId A_complete None (Some subtaskId) None.

(** "Every one of the request's tasks is done and approved." *)
Definition all_done_and_approved (req : RequestEntry) : Prop :=
  forall t, t ∈ req_tasks req -> task_done t = true /\ task_approved t = true.

(** One request whose only task is done and approved; the request itself
    has not been approved yet. *)
Definition file_ready_for_approval : TaskManagerFile :=
  run [request_planning "ship" [sample_def "a"] None;
       mark_task_done "req-1" "req-req-1-task-1" None;
       approve_task_completion "req-1" "req-req-1-task-1"] empty_file.

Definition request_ready_for_approval : RequestEntry :=
  mkRequest "req-1" "ship" "ship"
    [mkTask "req-req-1-task-1" "a" "details" true true EmptyString None None] false.

(** round(100 * completed / total), computed exactly, halves rounded up. *)
Definition spec_percentage (completedCount total : nat) : Z :=
  (200 * Z.of_nat completedCount + Z.of_nat total) / (2 * Z.of_nat total).

(** One request with one task and no subtask. *)
Definition file_one_task : TaskManagerFile :=
  run [request_planning "ship" [sample_def "a"] None] empty_file.

(** Forty subtask specifications with pairwise different contents; the
    first twenty-three have status [completed]. *)
Definition specs_23_of_40 : list SubtaskSpec :=
  map (fun i => sample_spec ("step " +:+ JS.Number_toString (Z.of_nat i))
                            (if (i <? 23)%nat then Some completed else None))
      (seq 0 40).

Definition break_down_23_of_40 : Call :=
  manage_subtasks "2024-01-01T00:00:00.000Z"
    (mkParams "req-req-1-task-1" A_break_down (Some specs_23_of_40) None None).

Definition create_completed : Call :=
  manage_subtasks "2024-01-01T00:00:00.000Z"
    (mkParams "req-req-1-task-1" A_create
       (Some [sample_spec "already finished" (Some completed)]) None None).

Definition break_down_completed : Call :=
  manage_subtasks "2024-01-01T00:00:00.000Z"
    (mkParams "req-req-1-task-1" A_break_down
       (Some [sample_spec "already finished" (Some completed)]) None None).

(** The subtasks stored in a document, over all requests and tasks. *)
Definition all_subtasks (file : TaskManagerFile) : list Subtask :=
  flat_map (fun req => flat_map subtasks_of (req_tasks req)) (requests file).

(** "completedAt is present if and only if the status is completed." *)
Definition completedAt_consistent (st : Subtask) : Prop :=
  is_Some (sub_completedAt st) <-> sub_status st = completed.

(** "A task whose done flag is true and whose subtask list is non-empty
    has all of its subtasks completed" (an empty list satisfies the
    condition on the subtasks). *)
Definition done_task_complete (t : Task) : Prop :=
  task_done t = true -> Forall (fun st => sub_status st = completed) (subtasks_of t).

Definition done_invariant (file : TaskManagerFile) : Prop :=
  Forall (fun req => Forall done_task_complete (req_tasks req)) (requests file).

(** The calls that the amended form of the invariant claim leaves out: a
    subtask [create], [update] or [break_down] whose target task is
    already done. *)
Definition edits_subtasks_of_done_task (c : Call) (file : TaskManagerFile) : Prop :=
  match c with
  | manage_subtasks _ args =>
      (p_action args = A_create \/ p_action args = A_update
       \/ p_action args = A_break_down)
      /\ exists ri ti t,
           locate_task (p_taskId args) 0 (requests file) = Some (ri, ti, t)
           /\ task_done t = true
  | _ => False
  end.

(** Plan one task, mark it done, then add a pending subtask to it. *)
Definition calls_subtask_after_done : list Call :=
  [request_planning "ship" [sample_def "a"] None;
   mark_task_done "req-1" "req-req-1-task-1" None;
   manage_subtasks "2024-01-01T00:00:00.000Z"
     (mkParams "req-req-1-task-1" A_create (Some [sample_spec "late" None]) None None)].

(** One request with one done task whose only subtask is completed. *)
Definition file_done_with_subtask : TaskManagerFile :=
  run [request_planning "ship" [sample_def "a"] None;
       break_down_completed;
       mark_task_done "req-1" "req-req-1-task-1" None] empty_file.

Definition delete_first_subtask : Call :=
  manage_subtasks "2024-01-02T00:00:00.000Z"
    (mkParams "req-req-1-task-1" A_delete None (Some "req-req-1-task-1-subtask-1") None).

Definition create_args (taskId : string) (specs : list SubtaskSpec) : Params :=
  mkParams taskId A_create (Some specs) None None.

Definition update_content_args (taskId subtaskId content : string)
    (newStatus : option Status) : Params :=
  mkParams taskId A_update None (Some subtaskId)
           (Some (mkUpdates (Some content) newStatus)).

(** One request with one task that has the subtask "Fix bug". *)
Definition file_fix_bug : TaskManagerFile :=
  run [request_planning "ship" [sample_def "a"] None;
       manage_subtasks "2024-01-01T00:00:00.000Z"
         (create_args "req-req-1-task-1" [sample_spec "Fix bug" None])] empty_file.

Definition subtask_fix_bug : Subtask :=
  mkSubtask "req-req-1-task-1-subtask-1" "Fix bug" pending
            "2024-01-01T00:00:00.000Z" None.

Definition task_fix_bug : Task :=
  mkTask "req-req-1-task-1" "a" "details" false false EmptyString
         (Some [subtask_fix_bug]) (Some 0).

(** One request with one task that has two subtasks with the same,
    caller-supplied, id. *)
Definition file_same_ids : TaskManagerFile :=
  run [request_planning "ship" [sample_def "a"] None;
       manage_subtasks "2024-01-01T00:00:00.000Z"
         (create_args "req-req-1-task-1"
            [mkSpec (Some "mine") "Write tests" None;
             mkSpec (Some "mine") "Fix bug" None])] empty_file.

(** ** Identifiers and task numbers *)

(** The value read by [parse_digits] on the digits of [d], from [acc]. *)
Fixpoint uint_value (d : uint) (acc : N) : N :=
  match d with
  | Nil => acc
  | D0 d => uint_value d (10 * acc + 0)
  | D1 d => uint_value d (10 * acc + 1)
  | D2 d => uint_value d (10 * acc + 2)
  | D3 d => uint_value d (10 * acc + 3)
  | D4 d => uint_value d (10 * acc + 4)
  | D5 d => uint_value d (10 * acc + 5)
  | D6 d => uint_value d (10 * acc + 6)
  | D7 d => uint_value d (10 * acc + 7)
  | D8 d => uint_value d (10 * acc + 8)
  | D9 d => uint_value d (10 * acc + 9)
  end%N.

(** The template [`req-${requestId}-task-${k}`]. *)
Definition task_id_of (requestId : string) (k : Z) : string :=
  "req-" +:+ requestId +:+ "-task-" +:+ JS.Number_toString k.

(** The template [`req-${n}`]. *)
Definition request_id_of (n : Z) : string := "req-" +:+ JS.Number_toString n.

(** [start, start + 1, ..., start + n - 1]. *)
Fixpoint consecutive (start : Z) (n : nat) : list Z :=
  match n with
  | O => []
  | S m => start :: consecutive (start + 1) m
  end.

Definition task_numbers (req : RequestEntry) : list Z :=
  map taskNumber (req_tasks req).

(** The shape of the identifiers of a request built by the program. *)
Definition numbered_request (req : RequestEntry) : Prop :=
  (exists n, req_requestId req = request_id_of n)
  /\ exists ks,
       map task_id (req_tasks req) = map (task_id_of (req_requestId req)) ks
       /\ StronglySorted Z.lt ks
       /\ Forall (fun k => 0 < k) ks.

Definition numbered (file : TaskManagerFile) : Prop :=
  Forall numbered_request (requests file).

(** How one call can change the document. *)
Inductive transition (file : TaskManagerFile) : TaskManagerFile -> Prop :=
| tr_none : transition file file
| tr_task i j req told t' :
    requests file !! i = Some req ->
    req_tasks req !! j = Some told ->
    task_id t' = task_id told ->
    task_subtasks t' = task_subtasks told ->
    task_completionPercentage t' = task_completionPercentage told ->
    transition file (set_task file i j t')
| tr_subtasks i j req told subtasks :
    requests file !! i = Some req ->
    req_tasks req !! j = Some told ->
    transition file
      (set_task file i j
         (set_subtasks told subtasks (calculateCompletionPercentage subtasks)))
| tr_completed i req :
    requests file !! i = Some req ->
    transition file (set_request file i (set_completed req true))
| tr_plan n o sd defs :
    transition file
      (mkFile (requests file
               ++ [mkRequest (request_id_of n) o sd
                             (number_tasks (request_id_of n) 1 defs) false]))
| tr_add i req defs :
    requests file !! i = Some req ->
    transition file
      (set_request file i
         (set_tasks req
            (req_tasks req
             ++ number_tasks (req_requestId req)
                             (maxTaskNum (req_tasks req) + 1) defs)))
| tr_delete i req j :
    requests file !! i = Some req ->
    transition file (set_request file i (set_tasks req (delete j (req_tasks req))))
| tr_clear : transition file (mkFile []).

(** The identifiers given to newly created tasks by one call, read off
    its result, and the task numbers given by a sequence of calls. *)
Definition assigned_ids (r : Result) : list string :=
  match r with
  | Planned _ _ tasks => map (fun x => fst (fst x)) tasks
  | TasksAdded newTasks => map (fun x => fst (fst (fst x))) newTasks
  | _ => []
  end.

Definition assigned_numbers (cs : list Call) (file : TaskManagerFile) : list Z :=
  map taskNumberOf (flat_map assigned_ids (results cs file)).

(** Plan two tasks, delete the second, add one task. *)
Definition calls_delete_then_add : list Call :=
  [request_planning "ship" [sample_def "a"; sample_def "b"] None;
   delete_task "req-1" "req-req-1-task-2";
   add_tasks_to_request "req-1" [sample_def "c"]].

(** Plan three tasks, delete the third and the second: the request keeps
    the task numbered 1. *)
Definition calls_delete_two : list Call :=
  [request_planning "ship" [sample_def "a"; sample_def "b"; sample_def "c"] None;
   delete_task "req-1" "req-req-1-task-3";
   delete_task "req-1" "req-req-1-task-2"].

Definition request_one_of_three : RequestEntry :=
  mkRequest "req-1" "ship" "ship"
    [mkTask "req-req-1-task-1" "a" "details" false false EmptyString None None] false.

(** The largest task number present in a request, [0] when it has no task;
    the numbers being increasing in stored order, it is the last one. *)
Definition largest_number (req : RequestEntry) : Z :=
  default 0 (last (task_numbers req)).

(** "The completion percentage of a task is the one computed from its
    subtasks" (and absent as long as the task never had subtasks). *)
Definition percentage_recomputed (t : Task) : Prop :=
  task_completionPercentage t
  = calculateCompletionPercentage <$> task_subtasks t.

(** Whether the stored percentage is round(100 * completed / total) for
    every count of completed subtasks among [total] subtasks. *)
Definition exact_for_total (total : nat) : bool :=
  forallb (fun c =>
             Z.eqb (JS.Math_round
                      (JS.fmul (JS.fdiv (JS.Number_of_nat c) (JS.Number_of_nat total))
                               (JS.Number_of_nat 100)))
                   (spec_percentage c total))
          (seq 0 (S total)).

(** Content that [validateSubtaskData] accepts: between 1 and 500
    characters, not only white space. *)
Definition content_ok (c : string) : Prop :=
  (1 <= JS.strlen c <= 500)%nat /\ (0 < JS.strlen (JS.trim c))%nat.

(** What [update] requires of a content that comes with the update: a
    content that is absent or empty is ignored; any other content must be
    valid and differ, up to letter case, from the content of every subtask
    of the task that has another identifier. *)
Definition content_accepted (subtasks : list Subtask) (subtaskId : string)
    (content : option string) : Prop :=
  match content with
  | Some c =>
      JS.truthy c = true ->
      content_ok c
      /\ forall sibling,
           sibling ∈ subtasks -> sub_id sibling <> subtaskId ->
           JS.toLowerCase (sub_content sibling) <> JS.toLowerCase c
  | None => True
  end.

(** One request with one task that has two subtasks; the first was
    completed by the [complete] action and so has its completion time. *)
Definition file_completed_subtask : TaskManagerFile :=
  run [request_planning "app" [sample_def "Build Mobile App"] None;
       manage_subtasks "2024-01-01T00:00:00.000Z"
         (mkParams "req-req-1-task-1" A_break_down
            (Some [sample_spec "design" (Some in_progress); sample_spec "login" None])
            None None);
       manage_subtasks "2024-01-02T00:00:00.000Z"
         (complete_params "req-req-1-task-1" "req-req-1-task-1-subtask-1")] empty_file.

Definition subtask_design_completed : Subtask :=
  mkSubtask "req-req-1-task-1-subtask-1" "design" completed
            "2024-01-01T00:00:00.000Z" (Some "2024-01-02T00:00:00.000Z").

Definition subtask_login_pending : Subtask :=
  mkSubtask "req-req-1-task-1-subtask-2" "login" pending
            "2024-01-01T00:00:00.000Z" None.

Definition task_completed_subtask : Task :=
  mkTask "req-req-1-task-1" "Build Mobile App" "details" false false EmptyString
         (Some [subtask_design_completed; subtask_login_pending]) (Some 50).

(* ===================================================================== *)
(** * Notions used for the properties of the remaining operations *)
(* ===================================================================== *)

(** A subtask that [manageSubtasks] stores either keeps the content of a
    subtask that the task had, or has content that [validateSubtaskData]
    accepts. *)
Definition kept_or_valid (told : Task) (st : Subtask) : Prop :=
  (exists st0, st0 ∈ subtasks_of told /\ sub_content st = sub_content st0)
  \/ validateSubtaskData (Some (sub_content st)) None = [].

(** The four ways in which a stored task is modified in place:
    [markTaskDone], [approveTaskCompletion], [updateTask] and the
    successful cases of [manageSubtasks], each with the checks that the
    method makes before the assignment. *)
Inductive task_edit (told : Task) : Task -> Prop :=
| edit_done details :
    task_done told = false ->
    ~ has_unfinished_subtask told ->
    task_edit told (set_done told details)
| edit_approved :
    task_done told = true ->
    task_approved told = false ->
    task_edit told (set_approved told)
| edit_text title description :
    task_done told = false ->
    task_edit told (set_description (set_title told title) description)
| edit_subtasks subtasks :
    Forall (kept_or_valid told) subtasks ->
    task_edit told (set_subtasks told subtasks (calculateCompletionPercentage subtasks)).

(** The change that one call other than [clear_all_tasks] makes to the
    document, with the conditions under which each kind of change is
    made. *)
Inductive edit (file : TaskManagerFile) : TaskManagerFile -> Prop :=
| ed_none : edit file file
| ed_task i j req told t' :
    requests file !! i = Some req ->
    req_tasks req !! j = Some told ->
    task_edit told t' ->
    edit file (set_task file i j t')
| ed_completed i req :
    requests file !! i = Some req ->
    all_done_and_approved req ->
    edit file (set_request file i (set_completed req true))
| ed_plan o sd defs :
    edit file
      (mkFile (requests file
               ++ [mkRequest (request_id_of (requestCounter (loadTasks file) + 1)) o sd
                     (number_tasks (request_id_of (requestCounter (loadTasks file) + 1))
                                   1 defs)
                     false]))
| ed_add i req defs :
    requests file !! i = Some req ->
    req_completed req = false ->
    edit file
      (set_request file i
         (set_tasks req
            (req_tasks req
             ++ number_tasks (req_requestId req)
                             (maxTaskNum (req_tasks req) + 1) defs)))
| ed_delete i req j t :
    requests file !! i = Some req ->
    req_tasks req !! j = Some t ->
    task_done t = false ->
    edit file (set_request file i (set_tasks req (delete j (req_tasks req)))).

(** The effect of one call on the document. *)
Inductive effect (file : TaskManagerFile) : TaskManagerFile -> Prop :=
| eff_edit file' : edit file file' -> effect file file'
| eff_clear : effect file (mkFile []).

(** "An approved task is done." *)
Definition approved_is_done (t : Task) : Prop :=
  task_approved t = true -> task_done t = true.

(** "A completed request has only done and approved tasks." *)
Definition completed_is_final (req : RequestEntry) : Prop :=
  req_completed req = true -> all_done_and_approved req.

(** The whole workflow on one request with one task. *)
Definition calls_full_workflow : list Call :=
  [request_planning "ship" [sample_def "a"] None;
   mark_task_done "req-1" "req-req-1-task-1" (Some "shipped");
   approve_task_completion "req-1" "req-req-1-task-1";
   approve_request_completion "req-1"].

(** One request with one task that is done and not yet approved. *)
Definition file_done_not_approved : TaskManagerFile :=
  run [request_planning "ship" [sample_def "a"] None;
       mark_task_done "req-1" "req-req-1-task-1" None] empty_file.

Definition request_done_not_approved : RequestEntry :=
  mkRequest "req-1" "ship" "ship" [task_a_done] false.

(** The results that are returned after [saveTasks] was called; every
    other result is returned on a path of the source that never saves. *)
Definition saved (r : Result) : bool :=
  match r with
  | Planned _ _ _ | TaskMarkedDone _ _ | TaskApproved _ _
  | RequestApprovedComplete _ | TasksAdded _ | TaskUpdated _ | TaskDeleted
  | AllTasksCleared _ _ | SubtasksCreated _ _ _ | SubtaskUpdated _ _
  | SubtaskCompleted _ _ _ | SubtaskDeleted _ _ _ | TaskBrokenDown _ _ => true
  | _ => false
  end.

Definition request_one_task : RequestEntry :=
  mkRequest "req-1" "ship" "ship"
    [mkTask "req-req-1-task-1" "a" "details" false false EmptyString None None] false.

(** The request identifiers of a document are [req-1], [req-2], ... in
    stored order. *)
Definition sequential (file : TaskManagerFile) : Prop :=
  map req_requestId (requests file)
  = map request_id_of (consecutive 1 (length (requests file))).

(** The subtask that [create] and [break_down] build from one item of the
    request: content and status as given ([pending] when absent), created
    now, never with a completion time, under the identifier given with the
    item when there is one. *)
Definition built_from (now : string) (spec : SubtaskSpec) (st : Subtask) : Prop :=
  sub_content st = spec_content spec
  /\ sub_status st = default pending (spec_status spec)
  /\ sub_createdAt st = now
  /\ sub_completedAt st = None
  /\ (option_truthy (spec_id spec) = true -> Some (sub_id st) = spec_id spec).

Definition break_down_args (taskId : string) (specs : list SubtaskSpec) : Params :=
  mkParams taskId A_break_down (Some specs) None None.

Definition lower_content (st : Subtask) : string := JS.toLowerCase (sub_content st).

(** The template [`${taskId}-subtask-${n}`] of [generateSubtaskId]. *)
Definition subtask_id_of (taskId : string) (n : Z) : string :=
  taskId +:+ "-subtask-" +:+ JS.Number_toString n.

(** The subtasks that a result reports as newly stored. *)
Definition new_subtasks (r : Result) : list Subtask :=
  match r with
  | SubtasksCreated l _ _ | TaskBrokenDown l _ => l
  | _ => []
  end.

Definition no_id_given (spec : SubtaskSpec) : Prop := option_truthy (spec_id spec) = false.

(** Two tasks that differ at most in their subtasks and percentage. *)
Definition same_but_subtasks (t t' : Task) : Prop :=
  mkTask (task_id t') (task_title t') (task_description t') (task_done t')
         (task_approved t') (task_completedDetails t')
         (task_subtasks t) (task_completionPercentage t)
  = t.

(** The full workflow followed by one more call on the completed request. *)
Definition file_completed : TaskManagerFile := run calls_full_workflow empty_file.

Definition request_completed : RequestEntry :=
  mkRequest "req-1" "ship" "ship"
    [mkTask "req-req-1-task-1" "a" "details" true true "shipped" None None] true.

(** The error codes that a [manage_subtasks] tool call can produce. *)
Definition tool_error_codes : list string :=
  ["TASK_NOT_FOUND"; "VALIDATION_FAILED"; "NO_SUBTASKS"; "SUBTASK_NOT_FOUND";
   "UPDATE_VALIDATION_FAILED"; "ALREADY_COMPLETED"; "INVALID_TRANSITION";
   "CANNOT_DELETE_COMPLETED"; "DUPLICATE_CONTENT"].

Definition is_duplicate_item_error (e : string) : Prop :=
  exists i content, e = duplicate_item_error i content.

Definition is_update_error (e : string) : Prop :=
  (exists content, e = duplicate_update_error content)
  \/ exists from to, e = transition_error from to.

(** What [ManageSubtasksSchema] guarantees about the value it returns. *)
Definition schema_checked (d : Params) : Prop :=
  action_refinement d = true
  /\ (forall l, p_subtasks d = Some l ->
        (length l <= 50)%nat
        /\ Forall (fun s => validateSubtaskData (Some (spec_content s)) (spec_status s) = [])
                  l)
  /\ (forall u c, p_updates d = Some u -> upd_content u = Some c -> JS.truthy c = true ->
        validateSubtaskData (Some c) None = []).

(** [Math.round((c / n) * 100)] in binary64, as [calculateCompletionPercentage]
    computes it from the two counts. *)
Definition percentage_of (c n : nat) : Z :=
  JS.Math_round (JS.fmul (JS.fdiv (JS.Number_of_nat c) (JS.Number_of_nat n))
                         (JS.Number_of_nat 100)).

(** For [n] subtasks: the percentage lies between 0 and 100, is 100 only
    when all are completed and 0 only when none is. *)
Definition extremes_ok (n : nat) : bool :=
  forallb (fun c => (0 <=? percentage_of c n) && (percentage_of c n <=? 100)
                    && Bool.eqb (percentage_of c n =? 100) (c =? n)%nat
                    && Bool.eqb (percentage_of c n =? 0) (c =? 0)%nat)
          (seq 0 (S n)).

Definition delete_args (taskId subtaskId : string) : Params :=
  mkParams taskId A_delete None (Some subtaskId) None.

(* ===================================================================== *)
(** * Basic facts *)
(* ===================================================================== *)

(** Open the body of a method: its first statement is [loadTasks()], after
    which [this.data] is the document that was read. *)
Ltac enter method :=
  unfold method; cbv zeta; change (data (loadTasks ?f)) with f.

Lemma data_loadTasks file : data (loadTasks file) = file.
Proof. reflexivity. Qed.

Lemma isCompleted_true st : isCompleted st = true <-> sub_status st = completed.
Proof. unfold isCompleted. apply bool_decide_eq_true. Qed.

Lemma isCompleted_false st : isCompleted st = false <-> sub_status st <> completed.
Proof. unfold isCompleted. apply bool_decide_eq_false. Qed.

Lemma forallb_isCompleted_false subtasks :
  forallb isCompleted subtasks = false <->
  exists st, st ∈ subtasks /\ sub_status st <> completed.
Proof.
  induction subtasks as [|st l IH]; simpl.
  - split; [discriminate|]. intros (st & Hin & _). inversion Hin.
  - rewrite andb_false_iff, IH, isCompleted_false. split.
    + intros [H|(x & Hx & Hs)].
      * exists st. split; [left|done].
      * exists x. split; [by right|done].
    + intros (x & Hx & Hs). apply elem_of_cons in Hx as [->|Hx]; [by left|].
      right. by exists x.
Qed.

Lemma find_first_not_done pre t post :
  Forall (fun u => task_done u = true) pre ->
  task_done t = false ->
  List.find (fun u => negb (task_done u)) (pre ++ t :: post) = Some t.
Proof.
  intros Hpre Ht. induction Hpre as [|u pre Hu _ IH]; simpl.
  - by rewrite Ht.
  - by rewrite Hu.
Qed.

Lemma find_not_done_all_done ts :
  Forall (fun u => task_done u = true) ts ->
  List.find (fun u => negb (task_done u)) ts = None /\ forallb task_done ts = true.
Proof.
  induction 1 as [|u ts Hu _ [IH1 IH2]]; simpl; [done|].
  by rewrite Hu, IH1, IH2.
Qed.

Lemma next_of_forget_approved ts ts' :
  map forget_approved ts = map forget_approved ts' -> next_of ts = next_of ts'.
Proof.
  unfold next_of. revert ts'.
  induction ts as [|t ts IH]; intros [|t' ts'] Heq; simpl in *; try done.
  inversion Heq as [[Hi Hti Hde Hd Hcd Hs Hp Hts]].
  destruct (task_done t), (task_done t'); try discriminate; simpl.
  - by apply IH.
  - by rewrite Hi, Hti, Hde.
Qed.

(* ===================================================================== *)
(** * getNextTask *)
(* ===================================================================== *)

(** C10.  On an existing request whose [completed] flag is false,
    [getNextTask] changes nothing and returns the first task, in stored
    order, whose [done] flag is false (or [all_tasks_done] when there is
    none); the answer is the same for any two task lists that differ only
    in their [approved] flags, so a task that is done but not approved is
    passed over like any other done task. *)
Theorem getNextTask_first_not_done requestId file i req :
  find_request requestId file = Some (i, req) ->
  req_completed req = false ->
  snd (getNextTask requestId file) = file
  /\ (forall pre t post,
        req_tasks req = pre ++ t :: post ->
        Forall (fun u => task_done u = true) pre ->
        task_done t = false ->
        fst (getNextTask requestId file)
        = NextTask (task_id t) (taskDisplayNumber (task_id t))
                   (task_title t) (task_description t))
  /\ (Forall (fun u => task_done u = true) (req_tasks req) ->
      fst (getNextTask requestId file) = AllTasksDone)
  /\ (forall file' i' req',
        find_request requestId file' = Some (i', req') ->
        req_completed req' = false ->
        map forget_approved (req_tasks req') = map forget_approved (req_tasks req) ->
        fst (getNextTask requestId file') = fst (getNextTask requestId file)).
Proof.
  intros Hfind Hc.
  assert (Hshape : forall f j r, find_request requestId f = Some (j, r) ->
            req_completed r = false ->
            getNextTask requestId f = (next_of (req_tasks r), f)).
  { intros f j r Hf Hr. unfold getNextTask, next_of. cbv zeta.
    rewrite data_loadTasks, Hf, Hr.
    destruct (List.find _ (req_tasks r)); [done|].
    by destruct (forallb task_done (req_tasks r)). }
  rewrite (Hshape _ _ _ Hfind Hc). simpl. repeat split.
  - intros pre t post Hts Hpre Ht. unfold next_of.
    by rewrite Hts, (find_first_not_done pre t post Hpre Ht).
  - intros Hall. unfold next_of.
    by destruct (find_not_done_all_done _ Hall) as [-> ->].
  - intros file' i' req' Hf' Hc' Hmap.
    rewrite (Hshape _ _ _ Hf' Hc'). simpl. by apply next_of_forget_approved.
Qed.

Lemma getNextTask_first_not_done_witness :
  find_request "req-1" file_two_tasks = Some (0%nat, request_two_tasks)
  /\ req_completed request_two_tasks = false
  /\ req_tasks request_two_tasks = [task_a_done] ++ task_b :: []
  /\ task_done task_a_done = true /\ task_approved task_a_done = false
  /\ task_done task_b = false
  /\ fst (getNextTask "req-1" file_two_tasks)
     = NextTask "req-req-1-task-2" (Some 2) "b" "details".
Proof.
  assert (Hf : find_request "req-1" file_two_tasks = Some (0%nat, request_two_tasks))
    by (vm_compute; reflexivity).
  repeat (split; [first [exact Hf | reflexivity]|]).
  exact (proj1 (proj2 (getNextTask_first_not_done "req-1" file_two_tasks 0%nat
                         request_two_tasks Hf eq_refl))
           [task_a_done] task_b [] eq_refl
           ltac:(repeat constructor) eq_refl).
Defined.

(* ===================================================================== *)
(** * markTaskDone *)
(* ===================================================================== *)

Lemma has_unfinished_subtask_test t :
  has_unfinished_subtask t <->
  (0 <? length (subtasks_of t))%nat && negb (forallb isCompleted (subtasks_of t)) = true.
Proof.
  unfold has_unfinished_subtask.
  rewrite andb_true_iff, negb_true_iff, forallb_isCompleted_false. split.
  - intros (st & Hin & Hs). split; [|by exists st].
    destruct (subtasks_of t); [inversion Hin|done].
  - by intros [_ H].
Qed.

(** C1.  For a task found by [markTaskDone]: when its [done] flag is
    already true the answer is [already_done] and nothing changes; when it
    is false, the call fails if and only if the task has a subtask whose
    status is not [completed], the failure is [subtasks_incomplete] with
    the task's completion percentage and the number of subtasks that are
    not completed, and it changes nothing; otherwise the task is marked
    done. *)
Theorem markTaskDone_outcomes requestId taskId details file i req j task :
  find_request requestId file = Some (i, req) ->
  find_task taskId (req_tasks req) = Some (j, task) ->
  (task_done task = true ->
     markTaskDone requestId taskId details file = (AlreadyDone, file))
  /\ (task_done task = false ->
      (has_unfinished_subtask task <->
         status (fst (markTaskDone requestId taskId details file))
         <> "task_marked_done")
      /\ (has_unfinished_subtask task ->
            markTaskDone requestId taskId details file
            = (SubtasksIncomplete (percentage_or_zero task)
                                  (unfinished (subtasks_of task)),
               file))
      /\ (~ has_unfinished_subtask task ->
            markTaskDone requestId taskId details file
            = (TaskMarkedDone (req_requestId req)
                              (set_done task (or_string details EmptyString)),
               set_task file i j (set_done task (or_string details EmptyString))))).
Proof.
  intros Hreq Htask. unfold markTaskDone. cbv zeta.
  rewrite data_loadTasks, Hreq, Htask. split.
  - by intros ->.
  - intros ->. rewrite has_unfinished_subtask_test.
    destruct ((0 <? length (subtasks_of task))%nat
              && negb (forallb isCompleted (subtasks_of task))) eqn:E; simpl.
    + split; [|split]; [split; [discriminate|done]|done|intros []; done].
    + split; [|split]; [split; [discriminate|]|discriminate|done].
      intros H. by destruct H.
Qed.

Lemma markTaskDone_outcomes_witness :
  find_request "req-1" file_four_subtasks = Some (0%nat, request_four_subtasks)
  /\ find_task "req-req-1-task-1" (req_tasks request_four_subtasks)
     = Some (0%nat, task_four_subtasks)
  /\ task_done task_four_subtasks = false
  /\ has_unfinished_subtask task_four_subtasks
  /\ markTaskDone "req-1" "req-req-1-task-1" None file_four_subtasks
     = (SubtasksIncomplete 25 3, file_four_subtasks).
Proof.
  assert (Hf : find_request "req-1" file_four_subtasks
               = Some (0%nat, request_four_subtasks)) by (vm_compute; reflexivity).
  assert (Ht : find_task "req-req-1-task-1" (req_tasks request_four_subtasks)
               = Some (0%nat, task_four_subtasks)) by (vm_compute; reflexivity).
  assert (Hu : has_unfinished_subtask task_four_subtasks).
  { eexists. split; [apply list_elem_of_further, list_elem_of_here|discriminate]. }
  repeat (split; [first [exact Hf | exact Ht | exact Hu | reflexivity]|]).
  exact (proj1 (proj2 (proj2 (markTaskDone_outcomes "req-1" "req-req-1-task-1" None
                         file_four_subtasks 0%nat request_four_subtasks 0%nat
                         task_four_subtasks Hf Ht) eq_refl)) Hu).
Defined.

(* ===================================================================== *)
(** * Status transitions of a subtask *)
(* ===================================================================== *)

Lemma truthy_strlen s : JS.truthy s = true <-> (1 <= JS.strlen s)%nat.
Proof. destruct s; unfold JS.strlen; cbn; split; intros H; first [done | lia]. Qed.

Lemma validateUniqueContent_false subtasks content excludeId :
  validateUniqueContent subtasks content excludeId = false <->
  exists sibling, sibling ∈ subtasks
    /\ JS.toLowerCase (sub_content sibling) = JS.toLowerCase content
    /\ Some (sub_id sibling) <> excludeId.
Proof.
  unfold validateUniqueContent. rewrite negb_false_iff, existsb_exists. split.
  - intros (x & Hin & Hx). apply andb_true_iff in Hx as [H1 H2].
    apply bool_decide_eq_true in H1. apply negb_true_iff, bool_decide_eq_false in H2.
    exists x. split; [by apply list_elem_of_In|done].
  - intros (x & Hin & H1 & H2). exists x. split; [by apply list_elem_of_In|].
    apply andb_true_iff. split; [by apply bool_decide_eq_true|].
    by apply negb_true_iff, bool_decide_eq_false.
Qed.

Lemma validateSubtaskData_nil c s :
  validateSubtaskData (Some c) s = [] <-> content_ok c.
Proof.
  unfold validateSubtaskData, content_ok.
  destruct (JS.truthy c) eqn:Et.
  - apply truthy_strlen in Et.
    destruct (JS.strlen c <? 1)%nat eqn:E1; [apply Nat.ltb_lt in E1; lia|].
    destruct (500 <? JS.strlen c)%nat eqn:E2;
      [apply Nat.ltb_lt in E2|apply Nat.ltb_ge in E2].
    { split; [done|lia]. }
    destruct (JS.strlen (JS.trim c) =? 0)%nat eqn:E3;
      [apply Nat.eqb_eq in E3|apply Nat.eqb_neq in E3]; cbn [app].
    + split; [done|lia].
    + split; [lia|done].
  - split; [done|]. intros [[H1 _] _]. apply truthy_strlen in H1. congruence.
Qed.

Lemma validateUniqueContent_true subtasks content subtaskId :
  validateUniqueContent subtasks content (Some subtaskId) = true <->
  forall sibling,
    sibling ∈ subtasks -> sub_id sibling <> subtaskId ->
    JS.toLowerCase (sub_content sibling) <> JS.toLowerCase content.
Proof.
  pose proof (validateUniqueContent_false subtasks content (Some subtaskId)) as Hf.
  destruct (validateUniqueContent subtasks content (Some subtaskId)); split.
  - intros _ sibling Hin Hne Heq.
    assert (Hex : exists sibling, sibling ∈ subtasks
                    /\ JS.toLowerCase (sub_content sibling) = JS.toLowerCase content
                    /\ Some (sub_id sibling) <> Some subtaskId).
    { exists sibling. split; [done|]. split; [done|]. congruence. }
    apply Hf in Hex. discriminate Hex.
  - done.
  - done.
  - intros H. destruct (proj1 Hf eq_refl) as (x & Hin & Heq & Hne).
    destruct (H x Hin); [|done]. intros Hid. apply Hne. by rewrite Hid.
Qed.

Lemma validateStatusTransition_table s t :
  validateStatusTransition s t = true <-> spec_transition_table s t.
Proof. destruct s, t; vm_compute; intuition congruence. Qed.

Lemma validateStatusTransition_not_table s t :
  validateStatusTransition s t = false <-> ~ spec_transition_table s t.
Proof.
  rewrite <- validateStatusTransition_table.
  destruct (validateStatusTransition s t); intuition discriminate.
Qed.

Lemma table_irreflexive s : ~ spec_transition_table s s.
Proof. destruct s; intros []. Qed.

Lemma table_to_completed s :
  spec_transition_table s completed <-> s = in_progress.
Proof. destruct s; simpl; intuition discriminate. Qed.

(** C4 (as amended).  For a subtask [st] found by id under a task found
    by id:
    - an [update] that only carries a new status [t] is applied exactly
      when [(status st, t)] is in the table; the stored subtask then has
      status [t], its [completedAt] is cleared when it leaves [completed]
      and set when it enters it; a pair outside the table (in particular
      every pair with equal statuses, and completed -> in_progress) is
      rejected and nothing changes, whatever content comes with it;
    - an [update] with a pair of the table that also carries a content is
      applied exactly when that content is accepted (it is empty, or it is
      valid and no subtask with another identifier has it up to letter
      case); it then stores the status [t] and the content given, and is
      otherwise rejected without any change, the status included;
    - [complete] is applied exactly when [(status st, completed)] is in
      the table, and is rejected without any change otherwise. *)
Theorem subtask_status_transitions now taskId subtaskId file ri ti task subtasks k st :
  locate_task taskId 0 (requests file) = Some (ri, ti, task) ->
  task_subtasks task = Some subtasks ->
  JS.truthy subtaskId = true ->
  find_subtask subtaskId subtasks = Some (k, st) ->
  (forall t,
      (spec_transition_table (sub_status st) t ->
       let st' := set_status st t now in
       let subtasks' := <[k := st']> subtasks in
       let pct := calculateCompletionPercentage subtasks' in
       manageSubtasks now (update_status_params taskId subtaskId None t) file
       = (SubtaskUpdated st' pct,
          set_task file ri ti (set_subtasks task subtasks' pct))
       /\ sub_status st' = t
       /\ (sub_status st = completed -> sub_completedAt st' = None)
       /\ (t = completed -> sub_completedAt st' = Some now))
      /\ (~ spec_transition_table (sub_status st) t ->
          manageSubtasks now (update_status_params taskId subtaskId None t) file
          = (ErrorCode "UPDATE_VALIDATION_FAILED" [transition_error (sub_status st) t],
             file))
      /\ (forall content,
            ~ spec_transition_table (sub_status st) t ->
            status (fst (manageSubtasks now
                           (update_status_params taskId subtaskId content t) file))
            = "error"
            /\ snd (manageSubtasks now
                      (update_status_params taskId subtaskId content t) file) = file)
      /\ (forall content,
            spec_transition_table (sub_status st) t ->
            (content_accepted subtasks subtaskId content ->
             let st' := apply_updates st (mkUpdates content (Some t)) now in
             let subtasks' := <[k := st']> subtasks in
             let pct := calculateCompletionPercentage subtasks' in
             manageSubtasks now (update_status_params taskId subtaskId content t) file
             = (SubtaskUpdated st' pct,
                set_task file ri ti (set_subtasks task subtasks' pct))
             /\ sub_status st' = t
             /\ sub_content st'
                = match content with
                  | Some (String a c) => String a c
                  | _ => sub_content st
                  end)
            /\ (~ content_accepted subtasks subtaskId content ->
                status (fst (manageSubtasks now
                               (update_status_params taskId subtaskId content t) file))
                = "error"
                /\ snd (manageSubtasks now
                          (update_status_params taskId subtaskId content t) file)
                   = file)))
  /\ (spec_transition_table (sub_status st) completed ->
      let st' := set_completed_now st now in
      let subtasks' := <[k := st']> subtasks in
      let pct := calculateCompletionPercentage subtasks' in
      manageSubtasks now (complete_params taskId subtaskId) file
      = (SubtaskCompleted st' pct (unfinished subtasks'),
         set_task file ri ti (set_subtasks task subtasks' pct))
      /\ sub_status st' = completed /\ sub_completedAt st' = Some now)
  /\ (~ spec_transition_table (sub_status st) completed ->
      status (fst (manageSubtasks now (complete_params taskId subtaskId) file)) = "error"
      /\ snd (manageSubtasks now (complete_params taskId subtaskId) file) = file)
  /\ (forall s, ~ spec_transition_table s s)
  /\ ~ spec_transition_table completed in_progress
  /\ spec_transition_table completed pending.
Proof.
  intros Hloc Hsubs Htruthy Hfind.
  assert (Hupd : forall content t,
    manageSubtasks now (update_status_params taskId subtaskId content t) file
    = let errs := update_validation subtasks st subtaskId (mkUpdates content (Some t)) in
      if negb (is_nil errs) then (ErrorCode "UPDATE_VALIDATION_FAILED" errs, file)
      else
        let st' := apply_updates st (mkUpdates content (Some t)) now in
        let subtasks' := <[k := st']> subtasks in
        let pct := calculateCompletionPercentage subtasks' in
        (SubtaskUpdated st' pct, set_task file ri ti (set_subtasks task subtasks' pct))).
  { intros content t. unfold manageSubtasks, update_status_params. cbv zeta.
    cbn [p_taskId p_action]. rewrite data_loadTasks, Hloc.
    unfold manage_update. cbv zeta. cbn [p_subtaskId p_updates p_taskId].
    cbn [option_truthy]. rewrite Htruthy. cbn [negb].
    change (default EmptyString (Some subtaskId)) with subtaskId.
    cbn [upd_status]. rewrite bool_decide_eq_true_2 by (by eexists).
    rewrite andb_false_r. rewrite Hsubs, Hfind. by rewrite data_loadTasks. }
  assert (Hcmp :
    manageSubtasks now (complete_params taskId subtaskId) file
    = if bool_decide (sub_status st = completed)
      then (ErrorCode "ALREADY_COMPLETED" [], file)
      else if negb (validateStatusTransition (sub_status st) completed)
      then (ErrorCode "INVALID_TRANSITION" [], file)
      else
        let st' := set_completed_now st now in
        let subtasks' := <[k := st']> subtasks in
        let pct := calculateCompletionPercentage subtasks' in
        (SubtaskCompleted st' pct (unfinished subtasks'),
         set_task file ri ti (set_subtasks task subtasks' pct))).
  { unfold manageSubtasks, complete_params. cbv zeta.
    cbn [p_taskId p_action]. rewrite data_loadTasks, Hloc.
    unfold manage_complete. cbv zeta. cbn [p_subtaskId p_taskId].
    cbn [option_truthy]. rewrite Htruthy. cbn [negb].
    change (default EmptyString (Some subtaskId)) with subtaskId.
    rewrite Hsubs, Hfind. by rewrite data_loadTasks. }
  split; [|split; [|split; [|split; [|split]]]].
  - intros t. split; [|split; [|split]].
    + intros Htab. cbv zeta. rewrite Hupd. cbv zeta.
      unfold update_validation. cbn [upd_content upd_status].
      rewrite (proj2 (validateStatusTransition_table _ _) Htab). cbn.
      split; [done|]. split; [done|]. split.
      * intros Hs. unfold set_status. cbn. rewrite Hs in Htab |- *.
        destruct t; try done.
      * intros ->. unfold set_status. cbn.
        destruct (sub_status st); try done.
    + intros Htab. rewrite Hupd. cbv zeta.
      unfold update_validation. cbn [upd_content upd_status].
      by rewrite (proj2 (validateStatusTransition_not_table _ _) Htab).
    + intros content Htab. rewrite Hupd. cbv zeta.
      unfold update_validation. cbn [upd_content upd_status].
      rewrite (proj2 (validateStatusTransition_not_table _ _) Htab). cbn [negb].
      match goal with |- context [negb (is_nil (?a ++ [?b]))] =>
        assert (Hnn : negb (is_nil (a ++ [b])) = true) by (by destruct a) end.
      by rewrite Hnn.
    + intros content Htab. split.
      * intros Hacc. cbv zeta. rewrite Hupd. cbv zeta.
        assert (Hnil : update_validation subtasks st subtaskId
                         (mkUpdates content (Some t)) = []).
        { unfold update_validation. cbn [upd_content upd_status].
          rewrite (proj2 (validateStatusTransition_table _ _) Htab). cbn [negb].
          rewrite app_nil_r. destruct content as [c|]; [|done].
          destruct (JS.truthy c) eqn:Et; [|done].
          destruct (Hacc Et) as [Hv Hu].
          apply (validateSubtaskData_nil c None) in Hv.
          apply validateUniqueContent_true in Hu. by rewrite Hv, Hu. }
        rewrite Hnil. cbn [is_nil negb]. split; [done|].
        unfold apply_updates. cbn [upd_content upd_status]. split; [done|].
        by destruct content as [[|a c]|].
      * intros Hnacc. rewrite Hupd. cbv zeta.
        assert (Hne : negb (is_nil (update_validation subtasks st subtaskId
                                      (mkUpdates content (Some t)))) = true).
        { unfold update_validation. cbn [upd_content upd_status].
          destruct content as [c|]; [|by destruct Hnacc].
          destruct (JS.truthy c) eqn:Et;
            [|exfalso; apply Hnacc; intros Ht'; cbn in Ht'; congruence].
          destruct (validateSubtaskData (Some c) None) as [|e errs] eqn:Ev; [|done].
          cbn [is_nil negb].
          destruct (validateUniqueContent subtasks c (Some subtaskId)) eqn:Eu; [|done].
          exfalso. apply Hnacc. intros _. split.
          - by apply (validateSubtaskData_nil c None).
          - by apply validateUniqueContent_true. }
        by rewrite Hne.
  - intros Htab. cbv zeta. rewrite Hcmp.
    apply table_to_completed in Htab. rewrite Htab. done.
  - intros Htab. rewrite Hcmp.
    destruct (bool_decide (sub_status st = completed)); [done|].
    by rewrite (proj2 (validateStatusTransition_not_table _ _) Htab).
  - apply table_irreflexive.
  - by intros [].
  - exact I.
Qed.

Lemma subtask_status_transitions_witness :
  locate_task "req-req-1-task-1" 0 (requests file_completed_subtask)
  = Some (0%nat, 0%nat, task_completed_subtask)
  /\ task_subtasks task_completed_subtask
     = Some [subtask_design_completed; subtask_login_pending]
  /\ JS.truthy "req-req-1-task-1-subtask-1" = true
  /\ find_subtask "req-req-1-task-1-subtask-1"
       [subtask_design_completed; subtask_login_pending]
     = Some (0%nat, subtask_design_completed)
  /\ sub_completedAt subtask_design_completed = Some "2024-01-02T00:00:00.000Z"
  /\ status (fst (manageSubtasks "later"
                    (update_status_params "req-req-1-task-1"
                       "req-req-1-task-1-subtask-1" None pending)
                    file_completed_subtask)) = "subtask_updated"
  /\ sub_completedAt (set_status subtask_design_completed pending "later") = None
  /\ manageSubtasks "later"
       (update_status_params "req-req-1-task-1" "req-req-1-task-1-subtask-1"
          None in_progress)
       file_completed_subtask
     = (ErrorCode "UPDATE_VALIDATION_FAILED"
          [transition_error completed in_progress], file_completed_subtask).
Proof.
  assert (H1 : locate_task "req-req-1-task-1" 0 (requests file_completed_subtask)
               = Some (0%nat, 0%nat, task_completed_subtask)) by (vm_compute; reflexivity).
  assert (H4 : find_subtask "req-req-1-task-1-subtask-1"
                 [subtask_design_completed; subtask_login_pending]
               = Some (0%nat, subtask_design_completed)) by (vm_compute; reflexivity).
  destruct (subtask_status_transitions "later" "req-req-1-task-1"
              "req-req-1-task-1-subtask-1" file_completed_subtask 0%nat 0%nat
              task_completed_subtask [subtask_design_completed; subtask_login_pending]
              0%nat subtask_design_completed
              H1 eq_refl eq_refl H4) as (Hupd & _).
  destruct (Hupd pending) as (Hok & _ & _).
  destruct (Hupd in_progress) as (_ & Hbad & _).
  destruct (Hok I) as (Heq & _ & Hclear & _).
  split; [exact H1|]. split; [reflexivity|]. split; [reflexivity|].
  split; [exact H4|]. split; [reflexivity|]. split; [|split].
  - rewrite Heq. reflexivity.
  - exact (Hclear eq_refl).
  - apply Hbad. intros [].
Defined.

(** C4, the claim as stated fails: a pair of the table is not always
    applied.  The second subtask is pending and pending -> in_progress is
    in the table, yet the update to in_progress that also renames it to
    the content of the first subtask (up to letter case) is rejected
    through the tool with UPDATE_VALIDATION_FAILED, and its status stays
    pending. *)
Lemma listed_transition_rejected_with_content :
  locate_task "req-req-1-task-1" 0 (requests file_completed_subtask)
  = Some (0%nat, 0%nat, task_completed_subtask)
  /\ find_subtask "req-req-1-task-1-subtask-2"
       [subtask_design_completed; subtask_login_pending]
     = Some (1%nat, subtask_login_pending)
  /\ spec_transition_table (sub_status subtask_login_pending) in_progress
  /\ call (manage_subtasks "2024-01-03T00:00:00.000Z"
             (update_content_args "req-req-1-task-1" "req-req-1-task-1-subtask-2"
                "DESIGN" (Some in_progress)))
          file_completed_subtask
     = (ErrorCode "UPDATE_VALIDATION_FAILED" [duplicate_update_error "DESIGN"],
        file_completed_subtask).
Proof.
  split; [vm_compute; reflexivity|]. split; [vm_compute; reflexivity|].
  split; [exact I|]. vm_compute. reflexivity.
Qed.

(* ===================================================================== *)
(** * approveRequestCompletion *)
(* ===================================================================== *)

Lemma list_find_insert_hit {A} (P : A -> Prop) `{!forall x, Decision (P x)}
    (l : list A) i x y :
  list_find P l = Some (i, x) -> P y -> list_find P (<[i := y]> l) = Some (i, y).
Proof.
  intros Hfind Hy. apply list_find_Some in Hfind as (Hi & _ & Hlt).
  apply list_find_Some. split; [|split; [done|]].
  - apply list_lookup_insert_eq. by eapply lookup_lt_Some.
  - intros j z Hj Hji. rewrite list_lookup_insert_ne in Hj by lia. by eapply Hlt.
Qed.

Lemma find_request_id requestId file i req :
  find_request requestId file = Some (i, req) -> req_requestId req = requestId.
Proof. intros H. by apply list_find_Some in H as (_ & ? & _). Qed.

Lemma find_request_lookup requestId file i req :
  find_request requestId file = Some (i, req) -> requests file !! i = Some req.
Proof. intros H. by apply list_find_Some in H as (? & _ & _). Qed.

Lemma all_done_and_approved_test req :
  all_done_and_approved req <->
  forallb task_done (req_tasks req) = true
  /\ forallb (fun t => task_done t && task_approved t) (req_tasks req) = true.
Proof.
  unfold all_done_and_approved. rewrite !forallb_forall. split.
  - intros H. split; intros t Ht; apply list_elem_of_In, H in Ht as [Hd Ha];
      by rewrite ?Hd, ?Ha.
  - intros [_ H] t Ht. apply list_elem_of_In, H in Ht.
    by apply andb_true_iff in Ht.
Qed.

(** C5 (as amended).  On an existing request, [approveRequestCompletion]
    fails without any change unless every task of the request is done and
    approved; when they all are, it succeeds and the stored request has
    [completed = true]; a second invocation on the result succeeds again
    and leaves the document as it is. *)
Theorem approveRequestCompletion_outcomes requestId file i req :
  find_request requestId file = Some (i, req) ->
  (all_done_and_approved req ->
     let file' := set_request file i (set_completed req true) in
     approveRequestCompletion requestId file
     = (RequestApprovedComplete requestId, file')
     /\ find_request requestId file' = Some (i, set_completed req true)
     /\ req_completed (set_completed req true) = true
     /\ approveRequestCompletion requestId file'
        = (RequestApprovedComplete requestId, file'))
  /\ (~ all_done_and_approved req ->
      status (fst (approveRequestCompletion requestId file)) = "error"
      /\ snd (approveRequestCompletion requestId file) = file).
Proof.
  intros Hfind. pose proof (find_request_id _ _ _ _ Hfind) as Hid.
  assert (Hstep : forall f r, find_request requestId f = Some (i, r) ->
            all_done_and_approved r ->
            approveRequestCompletion requestId f
            = (RequestApprovedComplete requestId, set_request f i (set_completed r true))).
  { intros f r Hf Hall. unfold approveRequestCompletion. cbv zeta.
    rewrite data_loadTasks, Hf.
    apply all_done_and_approved_test in Hall as [-> ->]. cbn [negb].
    by rewrite (find_request_id _ _ _ _ Hf). }
  split.
  - intros Hall. cbv zeta.
    assert (Hf' : find_request requestId (set_request file i (set_completed req true))
                  = Some (i, set_completed req true)).
    { unfold find_request, set_request. cbn [requests].
      by apply (list_find_insert_hit (fun r => req_requestId r = requestId)
                  (requests file) i req). }
    split; [by apply Hstep|]. split; [exact Hf'|]. split; [done|].
    rewrite (Hstep _ _ Hf' Hall). f_equal.
    unfold set_request. cbn [requests]. by rewrite list_insert_insert_eq.
  - intros Hnot. unfold approveRequestCompletion. cbv zeta.
    rewrite data_loadTasks, Hfind.
    destruct (forallb task_done (req_tasks req)) eqn:E1; cbn [negb]; [|done].
    destruct (forallb (fun t => task_done t && task_approved t) (req_tasks req)) eqn:E2;
      cbn [negb]; [|done].
    destruct Hnot. by apply all_done_and_approved_test.
Qed.

Lemma approveRequestCompletion_outcomes_witness :
  find_request "req-1" file_ready_for_approval = Some (0%nat, request_ready_for_approval)
  /\ all_done_and_approved request_ready_for_approval
  /\ approveRequestCompletion "req-1" file_ready_for_approval
     = (RequestApprovedComplete "req-1",
        set_request file_ready_for_approval 0
                    (set_completed request_ready_for_approval true)).
Proof.
  assert (Hf : find_request "req-1" file_ready_for_approval
               = Some (0%nat, request_ready_for_approval)) by (vm_compute; reflexivity).
  assert (Hall : all_done_and_approved request_ready_for_approval).
  { intros t Ht. apply list_elem_of_singleton in Ht as ->. by split. }
  split; [exact Hf|]. split; [exact Hall|].
  exact (proj1 (proj1 (approveRequestCompletion_outcomes "req-1" file_ready_for_approval
                         0%nat request_ready_for_approval Hf) Hall)).
Defined.

(** C5, the claim as stated fails: after a successful approval of request
    [req-1], a second [approveRequestCompletion] on the same request
    succeeds again. *)
Lemma approveRequestCompletion_second_call_succeeds :
  let first := approveRequestCompletion "req-1" file_ready_for_approval in
  let second := approveRequestCompletion "req-1" (snd first) in
  status (fst first) = "request_approved_complete"
  /\ ~ (status (fst second) <> "request_approved_complete").
Proof. vm_compute. split; [reflexivity|]. intros H. by apply H. Qed.

(* ===================================================================== *)
(** * Identifiers produced by planning *)
(* ===================================================================== *)

(** C7.  The first planning call on the empty document names the request
    [req-1] and its task [req-req-1-task-1]: the template
    [`req-${requestId}-task-${k}`] is filled with a [requestId] that
    already starts with [req-], so the task id is not the request id
    followed by [-task-1]. *)
Theorem requestPlanning_task_id_double_prefix :
  fst (requestPlanning "ship" [sample_def "a"] None empty_file)
  = Planned "req-1" 1 [("req-req-1-task-1", "a", "details")]
  /\ "req-req-1-task-1" <> "req-1" +:+ "-task-" +:+ JS.Number_toString 1.
Proof. split; [vm_compute; reflexivity|]. vm_compute. discriminate. Qed.

(* ===================================================================== *)
(** * completedAt of created subtasks *)
(* ===================================================================== *)

Lemma reachable_run cs : reachable (run cs empty_file).
Proof.
  assert (H : forall file, reachable file -> reachable (run cs file)).
  { induction cs as [|c cs IH]; intros file Hf; [done|].
    cbn. apply IH. by constructor. }
  apply H. constructor.
Qed.

(** C8.  A subtask created by [create] or by [break_down] with the initial
    status [completed] is stored without [completedAt]: the document
    reached is one where a subtask is completed and has no [completedAt]. *)
Theorem created_completed_subtask_has_no_completedAt :
  (reachable (snd (call create_completed file_one_task))
   /\ exists st, st ∈ all_subtasks (snd (call create_completed file_one_task))
                 /\ sub_status st = completed /\ sub_completedAt st = None
                 /\ ~ completedAt_consistent st)
  /\ (reachable (snd (call break_down_completed file_one_task))
      /\ exists st, st ∈ all_subtasks (snd (call break_down_completed file_one_task))
                    /\ sub_status st = completed /\ sub_completedAt st = None
                    /\ ~ completedAt_consistent st).
Proof.
  assert (Hbad : forall st, sub_status st = completed -> sub_completedAt st = None ->
                            ~ completedAt_consistent st).
  { intros st Hs Hc [_ H]. specialize (H Hs). rewrite Hc in H. by destruct H. }
  split; (split; [constructor; apply reachable_run|]).
  - eexists. split; [vm_compute; apply list_elem_of_here|].
    split; [reflexivity|]. split; [reflexivity|]. by apply Hbad.
  - eexists. split; [vm_compute; apply list_elem_of_here|].
    split; [reflexivity|]. split; [reflexivity|]. by apply Hbad.
Qed.

(* ===================================================================== *)
(** * Completion percentage *)
(* ===================================================================== *)

(** C3.  Breaking a task down into forty subtasks of which twenty-three
    are completed succeeds and stores the percentage 57: the double
    [(23 / 40) * 100] is [57.49999999999999].  The exact value of
    [100 * 23 / 40] is [57.5], which rounds to 58. *)
Theorem percentage_23_of_40 :
  (exists subtasks,
      fst (call break_down_23_of_40 file_one_task) = TaskBrokenDown subtasks 57
      /\ length subtasks = 40%nat
      /\ length (List.filter isCompleted subtasks) = 23%nat
      /\ locate_task "req-req-1-task-1" 0
           (requests (snd (call break_down_23_of_40 file_one_task)))
         = Some (0%nat, 0%nat,
                 mkTask "req-req-1-task-1" "a" "details" false false EmptyString
                        (Some subtasks) (Some 57)))
  /\ spec_percentage 23 40 = 58
  /\ 2 * (100 * 23) = (2 * 57 + 1) * 40.
Proof.
  split; [|split; reflexivity].
  eexists. split; [vm_compute; reflexivity|].
  split; [reflexivity|]. split; [reflexivity|]. vm_compute; reflexivity.
Qed.

(* ===================================================================== *)
(** * The done-task invariant *)
(* ===================================================================== *)

(** C2, the claim as stated fails: planning a task, marking it done and
    then creating a pending subtask under it reaches a document in which a
    done task has a subtask that is not completed. *)
Lemma done_invariant_broken_by_create :
  ~ (forall file, reachable file -> done_invariant file).
Proof.
  intros H. specialize (H _ (reachable_run calls_subtask_after_done)).
  vm_compute in H.
  apply Forall_cons_1 in H as [H _]. apply Forall_cons_1 in H as [H _].
  specialize (H eq_refl). apply Forall_cons_1 in H as [H _]. discriminate H.
Qed.

Section DoneInvariant.

Context (file : TaskManagerFile) (Hinv : done_invariant file).

Lemma done_invariant_set_task i j t :
  done_task_complete t -> done_invariant (set_task file i j t).
Proof.
  intros Ht. unfold done_invariant, set_task. cbn [requests].
  apply Forall_alter; [done|]. intros r _ Hr. cbn [set_tasks req_tasks].
  by apply Forall_insert.
Qed.

Lemma done_invariant_set_request i r :
  Forall done_task_complete (req_tasks r) ->
  done_invariant (set_request file i r).
Proof.
  intros Hr. unfold done_invariant, set_request. cbn [requests].
  by apply Forall_insert.
Qed.

Lemma number_tasks_not_done rid k defs :
  Forall (fun t => task_done t = false) (number_tasks rid k defs).
Proof. revert k. induction defs as [|d defs IH]; intros k; cbn; constructor; auto. Qed.

Lemma number_tasks_P rid k defs : Forall done_task_complete (number_tasks rid k defs).
Proof.
  eapply Forall_impl; [apply number_tasks_not_done|].
  intros t Ht Hd. congruence.
Qed.

Lemma find_request_tasks_P requestId i req :
  find_request requestId file = Some (i, req) ->
  Forall done_task_complete (req_tasks req).
Proof.
  intros Hf. apply find_request_lookup in Hf.
  by eapply (Forall_lookup_1 _ _ _ _ Hinv).
Qed.

Lemma find_task_lookup taskId ts j t :
  find_task taskId ts = Some (j, t) -> ts !! j = Some t.
Proof. intros H. by apply list_find_Some in H as (? & _). Qed.

Lemma find_task_P taskId ts j t :
  Forall done_task_complete ts -> find_task taskId ts = Some (j, t) -> done_task_complete t.
Proof.
  intros Hall Hf. apply find_task_lookup in Hf.
  by eapply (Forall_lookup_1 _ _ _ _ Hall).
Qed.

Lemma locate_task_lookup taskId reqs n ri ti t :
  locate_task taskId n reqs = Some (ri, ti, t) ->
  exists r, (n <= ri)%nat /\ reqs !! (ri - n)%nat = Some r /\ req_tasks r !! ti = Some t.
Proof.
  revert n. induction reqs as [|r reqs IH]; intros n H; [done|].
  cbn in H. destruct (find_task taskId (req_tasks r)) as [[j u]|] eqn:E.
  - injection H as <- <- <-. exists r. rewrite Nat.sub_diag.
    split; [lia|]. split; [done|]. by apply find_task_lookup in E.
  - apply IH in H as (r' & Hle & Hr' & Ht). exists r'.
    split; [lia|]. split; [|done].
    replace (ri - n)%nat with (S (ri - S n)) by lia. done.
Qed.

Lemma locate_task_P taskId ri ti t :
  locate_task taskId 0 (requests file) = Some (ri, ti, t) -> done_task_complete t.
Proof.
  intros H. apply locate_task_lookup in H as (r & _ & Hr & Ht).
  rewrite Nat.sub_0_r in Hr.
  pose proof (Forall_lookup_1 _ _ _ _ Hinv Hr) as Hall.
  by eapply (Forall_lookup_1 _ _ _ _ Hall).
Qed.

Lemma P_keep_done_subtasks t t' :
  task_done t' = task_done t -> task_subtasks t' = task_subtasks t -> done_task_complete t -> done_task_complete t'.
Proof.
  unfold done_task_complete, subtasks_of. intros -> ->. done.
Qed.

Lemma P_not_done t : task_done t = false -> done_task_complete t.
Proof. intros H Hd. congruence. Qed.

Lemma markTaskDone_invariant requestId taskId details :
  done_invariant (snd (markTaskDone requestId taskId details file)).
Proof.
  enter markTaskDone.
  destruct (find_request requestId file) as [[i req]|] eqn:Hr; [|done].
  destruct (find_task taskId (req_tasks req)) as [[j t]|] eqn:Ht; [|done].
  destruct (task_done t); [done|].
  destruct ((0 <? length (subtasks_of t))%nat && negb (forallb isCompleted (subtasks_of t)))
    eqn:E; [done|].
  cbn [snd saveTasks]. apply done_invariant_set_task.
  intros _. change (subtasks_of (set_done t (or_string details EmptyString)))
    with (subtasks_of t).
  apply andb_false_iff in E as [E|E].
  - destruct (subtasks_of t); [constructor|done].
  - apply negb_false_iff in E. apply Forall_forall. intros st Hst.
    apply isCompleted_true. rewrite forallb_forall in E. apply E.
    by apply list_elem_of_In.
Qed.

Lemma approveTaskCompletion_invariant requestId taskId :
  done_invariant (snd (approveTaskCompletion requestId taskId file)).
Proof.
  enter approveTaskCompletion.
  destruct (find_request requestId file) as [[i req]|] eqn:Hr; [|done].
  destruct (find_task taskId (req_tasks req)) as [[j t]|] eqn:Ht; [|done].
  destruct (negb (task_done t)); [done|]. destruct (task_approved t); [done|].
  cbn [snd saveTasks]. apply done_invariant_set_task.
  apply (P_keep_done_subtasks t); [done..|].
  eapply find_task_P; [|done]. by eapply find_request_tasks_P.
Qed.

Lemma approveRequestCompletion_invariant requestId :
  done_invariant (snd (approveRequestCompletion requestId file)).
Proof.
  enter approveRequestCompletion.
  destruct (find_request requestId file) as [[i req]|] eqn:Hr; [|done].
  destruct (negb (forallb task_done (req_tasks req))); [done|].
  destruct (negb (forallb _ (req_tasks req))); [done|].
  cbn [snd saveTasks]. apply done_invariant_set_request.
  cbn [set_completed req_tasks]. by eapply find_request_tasks_P.
Qed.

Lemma requestPlanning_invariant o ts sd :
  done_invariant (snd (requestPlanning o ts sd file)).
Proof.
  enter requestPlanning.
  cbn [snd saveTasks]. unfold done_invariant. cbn [requests].
  apply Forall_app. split; [done|]. constructor; [|constructor].
  cbn [req_tasks]. apply number_tasks_P.
Qed.

Lemma addTasksToRequest_invariant requestId ts :
  done_invariant (snd (addTasksToRequest requestId ts file)).
Proof.
  enter addTasksToRequest.
  destruct (find_request requestId file) as [[i req]|] eqn:Hr; [|done].
  destruct (req_completed req); [done|].
  cbn [snd saveTasks]. apply done_invariant_set_request.
  cbn [set_tasks req_tasks]. apply Forall_app. split.
  - by eapply find_request_tasks_P.
  - apply number_tasks_P.
Qed.

Lemma updateTask_invariant requestId taskId ti de :
  done_invariant (snd (updateTask requestId taskId ti de file)).
Proof.
  enter updateTask.
  destruct (find_request requestId file) as [[i req]|] eqn:Hr; [|done].
  destruct (find_task taskId (req_tasks req)) as [[j t]|] eqn:Ht; [|done].
  destruct (task_done t) eqn:Hd; [done|].
  cbn [snd saveTasks]. apply done_invariant_set_task.
  by apply P_not_done.
Qed.

Lemma deleteTask_invariant requestId taskId :
  done_invariant (snd (deleteTask requestId taskId file)).
Proof.
  enter deleteTask.
  destruct (find_request requestId file) as [[i req]|] eqn:Hr; [|done].
  destruct (find_task taskId (req_tasks req)) as [[j t]|] eqn:Ht; [|done].
  destruct (task_done t) eqn:Hd; [done|].
  cbn [snd saveTasks]. apply done_invariant_set_request.
  cbn [set_tasks req_tasks]. apply Forall_delete. by eapply find_request_tasks_P.
Qed.

End DoneInvariant.

Lemma ManageSubtasksSchema_keeps args parsed :
  ManageSubtasksSchema args = Some parsed ->
  p_taskId parsed = p_taskId args /\ p_action parsed = p_action args
  /\ p_subtaskId parsed = p_subtaskId args.
Proof.
  unfold ManageSubtasksSchema. intros H.
  destruct (negb _); [done|].
  destruct (parse_optional _ (p_subtasks args)); [|done].
  destruct (parse_optional UpdatesSchema (p_updates args)); [|done].
  destruct (action_refinement _); [|done].
  by injection H as <-.
Qed.

Lemma manageSubtasks_invariant now params file :
  done_invariant file ->
  ~ ((p_action params = A_create \/ p_action params = A_update
      \/ p_action params = A_break_down)
     /\ exists ri ti t,
          locate_task (p_taskId params) 0 (requests file) = Some (ri, ti, t)
          /\ task_done t = true) ->
  done_invariant (snd (manageSubtasks now params file)).
Proof.
  intros Hinv Hguard. enter manageSubtasks.
  destruct (locate_task (p_taskId params) 0 (requests file)) as [[[ri ti] t]|] eqn:Hloc;
    [|done].
  pose proof (locate_task_P _ Hinv _ _ _ _ Hloc) as Pt.
  assert (Hopen : p_action params = A_create \/ p_action params = A_update
                  \/ p_action params = A_break_down -> task_done t = false).
  { intros Ha. destruct (task_done t) eqn:Hd; [|done].
    destruct Hguard. split; [done|]. by exists ri, ti, t. }
  destruct (p_action params) eqn:Hact.
  - (* create *)
    unfold manage_create. cbv zeta.
    destruct (p_subtasks params) as [[|s l]|]; [done| |done].
    destruct (create_loop _ _ _ _ _ _ _ _) as [[c errs] val].
    destruct (negb (is_nil errs)); [done|].
    cbn [snd saveTasks]. rewrite data_loadTasks.
    apply done_invariant_set_task; [done|]. apply P_not_done. cbn. auto.
  - (* update *)
    unfold manage_update. cbv zeta.
    destruct (negb (option_truthy (p_subtaskId params))); [done|].
    destruct (p_updates params) as [u|]; [|done].
    destruct (_ && _); [done|].
    destruct (task_subtasks t) as [subs|]; [|done].
    destruct (find_subtask _ subs) as [[k st]|]; [|done].
    destruct (negb (is_nil _)); [done|].
    cbn [snd saveTasks]. rewrite data_loadTasks.
    apply done_invariant_set_task; [done|]. apply P_not_done. cbn. auto.
  - (* complete *)
    unfold manage_complete. cbv zeta.
    destruct (negb (option_truthy (p_subtaskId params))); [done|].
    destruct (task_subtasks t) as [subs|] eqn:Hsubs; [|done].
    destruct (find_subtask _ subs) as [[k st]|]; [|done].
    destruct (bool_decide (sub_status st = completed)); [done|].
    destruct (negb (validateStatusTransition _ _)); [done|].
    cbn [snd saveTasks]. rewrite data_loadTasks.
    apply done_invariant_set_task; [done|].
    intros Hd. cbn in Hd. specialize (Pt Hd).
    unfold subtasks_of in *. rewrite Hsubs in Pt. cbn.
    by apply Forall_insert.
  - (* delete *)
    unfold manage_delete. cbv zeta.
    destruct (negb (option_truthy (p_subtaskId params))); [done|].
    destruct (task_subtasks t) as [subs|] eqn:Hsubs; [|done].
    destruct (find_subtask _ subs) as [[k st]|]; [|done].
    destruct (bool_decide (sub_status st = completed)); [done|].
    cbn [snd saveTasks]. rewrite data_loadTasks.
    apply done_invariant_set_task; [done|].
    intros Hd. cbn in Hd. specialize (Pt Hd).
    unfold subtasks_of in *. rewrite Hsubs in Pt. cbn.
    by apply Forall_delete.
  - (* break_down *)
    unfold manage_break_down. cbv zeta.
    destruct (p_subtasks params) as [[|s l]|]; [done| |done].
    destruct (50 <? _)%nat; [done|].
    destruct (break_down_loop _ _ _ _ _ _ _) as [[c errs] val].
    destruct (negb (is_nil errs)); [done|].
    destruct (negb (is_nil (duplicateContents val))); [done|].
    cbn [snd saveTasks]. rewrite data_loadTasks.
    apply done_invariant_set_task; [done|]. apply P_not_done. cbn. auto.
Qed.

(** C2 (as amended).  Every call preserves the invariant "a done task has
    only completed subtasks", except a subtask [create], [update] or
    [break_down] whose target task is already done: these three actions
    do not look at the done flag. *)
Theorem done_invariant_preserved c file :
  done_invariant file ->
  ~ edits_subtasks_of_done_task c file ->
  done_invariant (snd (call c file)).
Proof.
  intros Hinv Hguard. destruct c; cbn [call].
  - by apply requestPlanning_invariant.
  - unfold getNextTask. cbv zeta. by repeat case_match.
  - by apply markTaskDone_invariant.
  - by apply approveTaskCompletion_invariant.
  - by apply approveRequestCompletion_invariant.
  - done.
  - done.
  - by apply addTasksToRequest_invariant.
  - by apply updateTask_invariant.
  - by apply deleteTask_invariant.
  - cbn. constructor.
  - unfold manage_subtasks_tool.
    destruct (ManageSubtasksSchema args) as [parsed|] eqn:Hp; [|done].
    apply ManageSubtasksSchema_keeps in Hp as (Hid & Hact & _).
    apply manageSubtasks_invariant; [done|].
    rewrite Hid, Hact. exact Hguard.
Qed.

Lemma done_invariant_preserved_witness :
  done_invariant file_done_with_subtask
  /\ ~ edits_subtasks_of_done_task delete_first_subtask file_done_with_subtask
  /\ done_invariant (snd (call delete_first_subtask file_done_with_subtask)).
Proof.
  assert (H1 : done_invariant file_done_with_subtask).
  { vm_compute. repeat (constructor || intro). }
  assert (H2 : ~ edits_subtasks_of_done_task delete_first_subtask file_done_with_subtask).
  { intros [[H|[H|H]] _]; discriminate H. }
  split; [exact H1|]. split; [exact H2|].
  exact (done_invariant_preserved delete_first_subtask file_done_with_subtask H1 H2).
Defined.

(* ===================================================================== *)
(** * Strings: trimming *)
(* ===================================================================== *)

Lemma trimStart_length s : (JS.strlen (JS.trimStart s) <= JS.strlen s)%nat.
Proof.
  unfold JS.strlen. induction s as [|c s IH]; cbn; [lia|].
  destruct (JS.is_space c); cbn in *; lia.
Qed.

Lemma trimEnd_length s : (JS.strlen (JS.trimEnd s) <= JS.strlen s)%nat.
Proof.
  unfold JS.strlen. induction s as [|c s IH]; cbn; [lia|].
  destruct (JS.trimEnd s); [destruct (JS.is_space c)|]; cbn in *; lia.
Qed.

Lemma trim_length s : (JS.strlen (JS.trim s) <= JS.strlen s)%nat.
Proof.
  unfold JS.trim. pose proof (trimEnd_length (JS.trimStart s)).
  pose proof (trimStart_length s). lia.
Qed.

Lemma trimEnd_idempotent s : JS.trimEnd (JS.trimEnd s) = JS.trimEnd s.
Proof.
  induction s as [|c s IH]; [done|]. cbn.
  destruct (JS.trimEnd s) as [|d t] eqn:E.
  - destruct (JS.is_space c) eqn:Hc; cbn; [done|]. by rewrite Hc.
  - change (JS.trimEnd (String c (String d t)))
      with (match JS.trimEnd (String d t) with
            | EmptyString => if JS.is_space c then EmptyString else String c EmptyString
            | u => String c u
            end).
    by rewrite IH.
Qed.

Lemma trimStart_head s :
  JS.trimStart s = EmptyString
  \/ exists c r, JS.trimStart s = String c r /\ JS.is_space c = false.
Proof.
  induction s as [|c s IH]; cbn; [by left|].
  destruct (JS.is_space c) eqn:Hc; [done|]. right. by exists c, s.
Qed.

Lemma trimStart_trimEnd c r :
  JS.is_space c = false ->
  JS.trimStart (JS.trimEnd (String c r)) = JS.trimEnd (String c r).
Proof.
  intros Hc. cbn. destruct (JS.trimEnd r); rewrite ?Hc; cbn; by rewrite ?Hc.
Qed.

Lemma trim_idempotent s : JS.trim (JS.trim s) = JS.trim s.
Proof.
  unfold JS.trim. destruct (trimStart_head s) as [->|(c & r & -> & Hc)]; [done|].
  by rewrite trimStart_trimEnd, trimEnd_idempotent.
Qed.

(** What the schema guarantees about a parsed content. *)
Lemma content_schema_valid c c' st :
  content_schema c = Some c' -> JS.truthy c' = true ->
  c' = JS.trim c /\ validateSubtaskData (Some c') st = [].
Proof.
  unfold content_schema. intros H Ht.
  destruct (_ && _)%nat eqn:E; [|done]. injection H as <-.
  split; [done|]. apply andb_true_iff in E as [_ E]. apply Nat.leb_le in E.
  unfold validateSubtaskData. rewrite Ht, trim_idempotent.
  apply truthy_strlen in Ht. pose proof (trim_length c).
  rewrite (proj2 (Nat.ltb_ge _ _)) by lia.
  rewrite (proj2 (Nat.ltb_ge _ _)) by lia.
  rewrite (proj2 (Nat.eqb_neq _ _)) by lia. done.
Qed.

(* ===================================================================== *)
(** * Duplicate content *)
(* ===================================================================== *)

Lemma create_loop_keeps_errors existing taskId now specs :
  forall i counter errs val e,
    e ∈ errs ->
    e ∈ (create_loop existing taskId now i specs counter errs val).1.2.
Proof.
  induction specs as [|s specs IH]; intros i counter errs val e He; [done|].
  cbn [create_loop]. cbv zeta.
  destruct (negb (is_nil _)).
  - apply IH. apply elem_of_app. by left.
  - destruct (negb (validateUniqueContent _ _ _)).
    + apply IH. apply elem_of_app. by left.
    + destruct (subtask_id_or_generate _ _ _) as [sid counter']. by apply IH.
Qed.

Lemma create_loop_reports_duplicate existing taskId now specs :
  forall i counter errs val j spec,
    specs !! j = Some spec ->
    validateSubtaskData (Some (spec_content spec)) (spec_status spec) = [] ->
    validateUniqueContent existing (spec_content spec) None = false ->
    duplicate_item_error (i + j) (spec_content spec)
    ∈ (create_loop existing taskId now i specs counter errs val).1.2.
Proof.
  induction specs as [|s specs IH]; intros i counter errs val j spec Hj Hv Hu; [done|].
  destruct j as [|j].
  - injection Hj as ->. cbn [create_loop]. cbv zeta. rewrite Hv, Hu. cbn [is_nil negb].
    apply create_loop_keeps_errors. apply elem_of_app. right.
    rewrite Nat.add_0_r. apply list_elem_of_here.
  - cbn in Hj. cbn [create_loop]. cbv zeta.
    replace (i + S j)%nat with (S i + j)%nat by lia.
    destruct (negb (is_nil _)); [by apply IH|].
    destruct (negb (validateUniqueContent _ _ _)); [by apply IH|].
    destruct (subtask_id_or_generate _ _ _) as [sid counter']. by apply IH.
Qed.

Lemma not_nil_elem {A} (l : list A) x : x ∈ l -> negb (is_nil l) = true.
Proof. by destruct 1. Qed.

(** [create] at the level of [manageSubtasks]. *)
Lemma manageSubtasks_create_duplicate now taskId specs sid upd file ri ti task i spec :
  locate_task taskId 0 (requests file) = Some (ri, ti, task) ->
  specs !! i = Some spec ->
  validateSubtaskData (Some (spec_content spec)) (spec_status spec) = [] ->
  validateUniqueContent (subtasks_of task) (spec_content spec) None = false ->
  exists errors,
    manageSubtasks now (mkParams taskId A_create (Some specs) sid upd) file
    = (ErrorCode "VALIDATION_FAILED" errors, file)
    /\ duplicate_item_error i (spec_content spec) ∈ errors.
Proof.
  intros Hloc Hi Hv Hu. unfold manageSubtasks. cbv zeta.
  cbn [p_taskId p_action]. rewrite data_loadTasks, Hloc.
  unfold manage_create. cbv zeta. cbn [p_subtasks p_taskId].
  destruct specs as [|s0 rest]; [done|].
  pose proof (create_loop_reports_duplicate (subtasks_of task) taskId now (s0 :: rest)
                0 (taskCounter (loadTasks file)) [] [] i spec Hi Hv Hu) as Hin.
  change (default [] (task_subtasks task)) with (subtasks_of task).
  destruct (create_loop _ _ _ _ _ _ _ _) as [[c errs] val].
  cbn in Hin. rewrite (not_nil_elem _ _ Hin). by exists errs.
Qed.

(** [update] at the level of [manageSubtasks]. *)
Lemma manageSubtasks_update_duplicate now taskId subs subtaskId content newStatus
    file ri ti task subtasks k st :
  locate_task taskId 0 (requests file) = Some (ri, ti, task) ->
  task_subtasks task = Some subtasks ->
  JS.truthy subtaskId = true ->
  find_subtask subtaskId subtasks = Some (k, st) ->
  JS.truthy content = true ->
  validateSubtaskData (Some content) None = [] ->
  validateUniqueContent subtasks content (Some subtaskId) = false ->
  exists errors,
    manageSubtasks now
      (mkParams taskId A_update subs (Some subtaskId)
                (Some (mkUpdates (Some content) newStatus))) file
    = (ErrorCode "UPDATE_VALIDATION_FAILED" errors, file)
    /\ duplicate_update_error content ∈ errors.
Proof.
  intros Hloc Hsubs Hsid Hfind Hc Hv Hu. unfold manageSubtasks. cbv zeta.
  cbn [p_taskId p_action]. rewrite data_loadTasks, Hloc.
  unfold manage_update. cbv zeta. cbn [p_subtaskId p_updates p_taskId].
  cbn [option_truthy upd_content]. rewrite Hsid, Hc. cbn [negb andb].
  change (default EmptyString (Some subtaskId)) with subtaskId.
  rewrite Hsubs, Hfind.
  assert (Hin : duplicate_update_error content
                ∈ update_validation subtasks st subtaskId
                    (mkUpdates (Some content) newStatus)).
  { unfold update_validation. cbn [upd_content]. rewrite Hc, Hv, Hu. cbn [is_nil negb].
    apply elem_of_app. left. apply list_elem_of_here. }
  rewrite (not_nil_elem _ _ Hin). eexists. by split.
Qed.

Lemma SubtaskSchema_valid s s' :
  SubtaskSchema s = Some s' ->
  spec_content s' = JS.trim (spec_content s)
  /\ validateSubtaskData (Some (spec_content s')) (spec_status s') = [].
Proof.
  unfold SubtaskSchema. intros H.
  destruct (content_schema (spec_content s)) as [c|] eqn:E; [|done].
  destruct (0 <? JS.strlen c)%nat eqn:Hlen; [|done]. injection H as <-.
  cbn [spec_content spec_status]. apply Nat.ltb_lt in Hlen.
  assert (Ht : JS.truthy c = true) by (apply truthy_strlen; lia).
  by destruct (content_schema_valid _ _ (Some (default pending (spec_status s))) E Ht).
Qed.

Lemma ManageSubtasksSchema_create taskId specs parsed :
  ManageSubtasksSchema (create_args taskId specs) = Some parsed ->
  exists specs', Forall2 (fun x y => SubtaskSchema x = Some y) specs specs'
                 /\ parsed = create_args taskId specs'.
Proof.
  unfold ManageSubtasksSchema, create_args.
  cbn [p_taskId p_subtasks p_updates p_action p_subtaskId parse_optional].
  intros H. destruct (negb _); [done|].
  destruct (length specs <=? 50)%nat; [|done].
  destruct (mapM SubtaskSchema specs) as [specs'|] eqn:E; [|done].
  destruct (action_refinement _); [|done]. injection H as <-.
  exists specs'. split; [|done]. by apply mapM_Some.
Qed.

Lemma ManageSubtasksSchema_update taskId subtaskId content newStatus parsed :
  ManageSubtasksSchema (update_content_args taskId subtaskId content newStatus)
  = Some parsed ->
  content_schema content = Some (JS.trim content)
  /\ JS.truthy subtaskId = true
  /\ parsed = update_content_args taskId subtaskId (JS.trim content) newStatus.
Proof.
  unfold ManageSubtasksSchema, update_content_args.
  cbn [p_taskId p_subtasks p_updates p_action p_subtaskId parse_optional].
  intros H. destruct (negb _); [done|].
  unfold UpdatesSchema in H. cbn [upd_content upd_status] in H.
  destruct (content_schema content) as [c'|] eqn:E; [|done].
  destruct (action_refinement _) eqn:R; [|done]. injection H as <-.
  assert (c' = JS.trim content) as ->.
  { unfold content_schema in E. destruct (_ && _)%nat; [|done]. by injection E. }
  split; [done|]. split; [|done].
  unfold action_refinement in R. cbn in R. by apply andb_true_iff in R as [R _].
Qed.

(** C9 (as amended).  Through the [manage_subtasks] tool, whose schema
    trims the content:
    - a [create] in which some item's trimmed content equals, up to case,
      the content of a subtask already under the task is rejected and
      changes nothing; when the arguments pass the schema the rejection
      is [VALIDATION_FAILED] with the "Duplicate content" error of that
      item;
    - an [update] whose trimmed, non-empty content equals, up to case,
      the content of a subtask of the task whose id differs from the id
      given is rejected and changes nothing; when the arguments pass the
      schema the rejection is [UPDATE_VALIDATION_FAILED] with the
      "already exists in another subtask" error.  The subtasks left out
      of the comparison are those whose id is the id given. *)
Theorem duplicate_content_rejected now taskId file ri ti task :
  locate_task taskId 0 (requests file) = Some (ri, ti, task) ->
  (forall specs i spec sibling,
      specs !! i = Some spec ->
      sibling ∈ subtasks_of task ->
      JS.toLowerCase (sub_content sibling)
      = JS.toLowerCase (JS.trim (spec_content spec)) ->
      let r := call (manage_subtasks now (create_args taskId specs)) file in
      status (fst r) = "error" /\ snd r = file
      /\ (is_Some (ManageSubtasksSchema (create_args taskId specs)) ->
          exists errors,
            fst r = ErrorCode "VALIDATION_FAILED" errors
            /\ duplicate_item_error i (JS.trim (spec_content spec)) ∈ errors))
  /\ (forall subtasks subtaskId k st content newStatus sibling,
        task_subtasks task = Some subtasks ->
        find_subtask subtaskId subtasks = Some (k, st) ->
        sibling ∈ subtasks ->
        sub_id sibling <> subtaskId ->
        JS.truthy (JS.trim content) = true ->
        JS.toLowerCase (sub_content sibling) = JS.toLowerCase (JS.trim content) ->
        let r := call (manage_subtasks now
                         (update_content_args taskId subtaskId content newStatus))
                      file in
        status (fst r) = "error" /\ snd r = file
        /\ (is_Some (ManageSubtasksSchema
                       (update_content_args taskId subtaskId content newStatus)) ->
            exists errors,
              fst r = ErrorCode "UPDATE_VALIDATION_FAILED" errors
              /\ duplicate_update_error (JS.trim content) ∈ errors)).
Proof.
  intros Hloc. split.
  - intros specs i spec sibling Hi Hsib Hlow. cbv zeta. cbn [call].
    unfold manage_subtasks_tool.
    destruct (ManageSubtasksSchema (create_args taskId specs)) as [parsed|] eqn:Hp.
    + apply ManageSubtasksSchema_create in Hp as (specs' & Hall & ->).
      destruct (Forall2_lookup_l _ _ _ _ _ Hall Hi) as (spec' & Hi' & Hs').
      apply SubtaskSchema_valid in Hs' as [Hc Hv].
      assert (Hu : validateUniqueContent (subtasks_of task) (spec_content spec') None
                   = false).
      { apply validateUniqueContent_false. exists sibling.
        split; [done|]. split; [by rewrite Hc|done]. }
      destruct (manageSubtasks_create_duplicate now taskId specs' None None file
                  ri ti task i spec' Hloc Hi' Hv Hu) as (errors & Heq & Hin).
      unfold create_args. rewrite Heq. cbn [fst snd status].
      split; [done|]. split; [done|]. intros _. exists errors.
      split; [done|]. by rewrite <- Hc.
    + split; [done|]. split; [done|]. by intros [? ?].
  - intros subtasks subtaskId k st content newStatus sibling
           Hsubs Hfind Hsib Hid Htr Hlow. cbv zeta. cbn [call].
    unfold manage_subtasks_tool.
    destruct (ManageSubtasksSchema
                (update_content_args taskId subtaskId content newStatus))
      as [parsed|] eqn:Hp.
    + apply ManageSubtasksSchema_update in Hp as (Hc & Hsid & ->).
      destruct (content_schema_valid _ _ None Hc Htr) as [_ Hv].
      assert (Hu : validateUniqueContent subtasks (JS.trim content) (Some subtaskId)
                   = false).
      { apply validateUniqueContent_false. exists sibling.
        split; [done|]. split; [done|]. congruence. }
      destruct (manageSubtasks_update_duplicate now taskId None subtaskId
                  (JS.trim content) newStatus file ri ti task subtasks k st
                  Hloc Hsubs Hsid Hfind Htr Hv Hu) as (errors & Heq & Hin).
      unfold update_content_args. rewrite Heq. cbn [fst snd status].
      split; [done|]. split; [done|]. intros _. by exists errors.
    + split; [done|]. split; [done|]. by intros [? ?].
Qed.

(** The scenario of the specification: with "Fix bug" already under the
    task, creating "fix bug " is rejected as duplicate content. *)
Lemma duplicate_content_rejected_witness :
  locate_task "req-req-1-task-1" 0 (requests file_fix_bug)
  = Some (0%nat, 0%nat, task_fix_bug)
  /\ [sample_spec "fix bug " None] !! 0%nat = Some (sample_spec "fix bug " None)
  /\ subtask_fix_bug ∈ subtasks_of task_fix_bug
  /\ JS.toLowerCase (sub_content subtask_fix_bug)
     = JS.toLowerCase (JS.trim (spec_content (sample_spec "fix bug " None)))
  /\ snd (call (manage_subtasks "2024-01-02T00:00:00.000Z"
                  (create_args "req-req-1-task-1" [sample_spec "fix bug " None]))
               file_fix_bug) = file_fix_bug
  /\ exists errors,
       fst (call (manage_subtasks "2024-01-02T00:00:00.000Z"
                    (create_args "req-req-1-task-1" [sample_spec "fix bug " None]))
                 file_fix_bug)
       = ErrorCode "VALIDATION_FAILED" errors
       /\ duplicate_item_error 0 "fix bug" ∈ errors.
Proof.
  assert (H1 : locate_task "req-req-1-task-1" 0 (requests file_fix_bug)
               = Some (0%nat, 0%nat, task_fix_bug)) by (vm_compute; reflexivity).
  assert (H3 : subtask_fix_bug ∈ subtasks_of task_fix_bug) by apply list_elem_of_here.
  destruct (proj1 (duplicate_content_rejected "2024-01-02T00:00:00.000Z"
                     "req-req-1-task-1" file_fix_bug 0%nat 0%nat task_fix_bug H1)
              [sample_spec "fix bug " None] 0%nat (sample_spec "fix bug " None)
              subtask_fix_bug eq_refl H3 eq_refl) as (_ & Hsame & Hdup).
  split; [exact H1|]. split; [reflexivity|]. split; [exact H3|].
  split; [reflexivity|]. split; [exact Hsame|].
  apply Hdup. vm_compute. by eexists.
Defined.

(** Two remarks on the reach of the duplicate check.  Called directly,
    without the schema, [manageSubtasks] compares the content as given, so
    "fix bug " is not found equal to "Fix bug"; and [create] compares each
    item with the subtasks already stored, not with the other items of
    the same call. *)
Example manageSubtasks_compares_untrimmed_content :
  status (fst (manageSubtasks "2024-01-02T00:00:00.000Z"
                 (create_args "req-req-1-task-1" [sample_spec "fix bug " None])
                 file_fix_bug))
  = "subtasks_created".
Proof. vm_compute. reflexivity. Qed.

Example create_accepts_duplicates_within_one_call :
  map sub_content
    (all_subtasks
       (snd (call (manage_subtasks "2024-01-01T00:00:00.000Z"
                     (create_args "req-req-1-task-1"
                        [sample_spec "Fix bug" None; sample_spec "fix bug" None]))
                  file_one_task)))
  = ["Fix bug"; "fix bug"].
Proof. vm_compute. reflexivity. Qed.

(** C9, the claim as stated fails: the task holds two subtasks with the
    same caller-supplied id; updating the first one (the one found by
    that id) to the content "fix bug" succeeds although its sibling, the
    second subtask, has the content "Fix bug". *)
Lemma update_duplicate_accepted_same_id :
  exists first sibling,
    locate_task "req-req-1-task-1" 0 (requests file_same_ids)
    = Some (0%nat, 0%nat,
            mkTask "req-req-1-task-1" "a" "details" false false EmptyString
                   (Some [first; sibling]) (Some 0))
    /\ find_subtask "mine" [first; sibling] = Some (0%nat, first)
    /\ JS.toLowerCase (sub_content sibling) = JS.toLowerCase (JS.trim "fix bug")
    /\ ~ (status (fst (call (manage_subtasks "2024-01-02T00:00:00.000Z"
                               (update_content_args "req-req-1-task-1" "mine"
                                                    "fix bug" None))
                            file_same_ids)) = "error")
    /\ map sub_content
         (all_subtasks
            (snd (call (manage_subtasks "2024-01-02T00:00:00.000Z"
                          (update_content_args "req-req-1-task-1" "mine"
                                               "fix bug" None))
                       file_same_ids)))
       = ["fix bug"; "Fix bug"].
Proof.
  eexists _, _. split; [vm_compute; reflexivity|].
  split; [vm_compute; reflexivity|]. split; [vm_compute; reflexivity|].
  split; [vm_compute; discriminate|]. vm_compute; reflexivity.
Qed.

(* ===================================================================== *)
(** * Strings: decimal numerals, [parseInt] and [split] *)
(* ===================================================================== *)

#[local] Arguments String.append !s1 s2 : simpl nomatch.

Lemma append_nil_r s : s +:+ EmptyString = s.
Proof. induction s as [|c s IH]; simpl; [done|]. by f_equal. Qed.

Lemma append_assoc s1 s2 s3 : (s1 +:+ s2) +:+ s3 = s1 +:+ (s2 +:+ s3).
Proof. induction s1 as [|c s IH]; simpl; [done|]. by f_equal. Qed.

Lemma parse_digits_uint d a :
  JS.parse_digits 10 (Some a) (NilEmpty.string_of_uint d) = Some (uint_value d a).
Proof. revert a. induction d; intros a; cbn; [done|apply IHd..]. Qed.

Lemma parse_digits_uint_start d :
  d <> Nil ->
  JS.parse_digits 10 None (NilEmpty.string_of_uint d) = Some (uint_value d 0).
Proof. destruct d; intros H; [done|apply (parse_digits_uint d)..]. Qed.

Lemma uint_value_pos d acc :
  uint_value d (Npos acc) = Npos (Pos.of_uint_acc d acc).
Proof.
  revert acc. induction d; intros acc; cbn [uint_value Pos.of_uint_acc]; [done|..];
    rewrite <- IHd; f_equal; lia.
Qed.

Lemma uint_value_of_uint d : uint_value d 0 = Pos.of_uint d.
Proof.
  induction d; cbn [uint_value Pos.of_uint]; [done|exact IHd|..];
    apply (uint_value_pos d).
Qed.

Lemma parse_digits_positive p :
  JS.parse_digits 10 None (NilEmpty.string_of_uint (Pos.to_uint p)) = Some (Npos p).
Proof.
  rewrite parse_digits_uint_start by apply Unsigned.to_uint_nonnil.
  by rewrite uint_value_of_uint, Unsigned.of_to.
Qed.

Lemma parseInt_uint d :
  d <> Nil ->
  JS.parseInt (NilEmpty.string_of_uint d) None
  = match JS.parse_digits 10 None (NilEmpty.string_of_uint d) with
    | Some n => Some (Z.of_N n)
    | None => None
    end.
Proof.
  intros Hd. destruct d as [|d|d|d|d|d|d|d|d|d|d]; [done|..]; try reflexivity.
  destruct d; reflexivity.
Qed.

Lemma parseInt_positive p :
  JS.parseInt (JS.Number_toString (Z.pos p)) None = Some (Z.pos p).
Proof.
  unfold JS.Number_toString. cbn [Z.to_int NilEmpty.string_of_int].
  rewrite parseInt_uint by apply Unsigned.to_uint_nonnil.
  by rewrite parse_digits_positive.
Qed.

(** Digits are passed over by [split] on [-task-]. *)
Lemma split_go_digits d piece rest :
  JS.split_go "-task-" 0 piece (NilEmpty.string_of_uint d +:+ rest)
  = JS.split_go "-task-" 0 (piece +:+ NilEmpty.string_of_uint d) rest.
Proof.
  revert piece. induction d; intros piece; simpl NilEmpty.string_of_uint;
    [by rewrite append_nil_r|..];
    simpl; rewrite IHd, append_assoc; reflexivity.
Qed.

(** A numeral never starts with the letter t. *)
Lemma Number_toString_head n :
  exists c r, JS.Number_toString n = String c r /\ Ascii.eqb "t" c = false.
Proof.
  destruct n as [|p|p]; unfold JS.Number_toString; cbn [Z.to_int NilEmpty.string_of_int].
  - by eexists _, _.
  - pose proof (Unsigned.to_uint_nonnil p) as H.
    destruct (Pos.to_uint p); [done|..]; by eexists _, _.
  - by eexists _, _.
Qed.

Lemma uint_head d :
  d <> Nil ->
  exists c r, NilEmpty.string_of_uint d = String c r /\ Ascii.eqb "t" c = false.
Proof. destruct d; [done|..]; intros _; by eexists _, _. Qed.

Lemma split_go_dash c r piece :
  Ascii.eqb "t" c = false ->
  JS.split_go "-task-" 0 piece (String "-" (String c r))
  = JS.split_go "-task-" 0 (piece +:+ "-") (String c r).
Proof.
  intros Hc. cbn [JS.split_go]. unfold JS.startsWith.
  cbn [JS.strip_prefix]. rewrite Hc. reflexivity.
Qed.

Lemma split_go_number n piece rest :
  JS.split_go "-task-" 0 piece (JS.Number_toString n +:+ rest)
  = JS.split_go "-task-" 0 (piece +:+ JS.Number_toString n) rest.
Proof.
  destruct n as [|p|p]; unfold JS.Number_toString; cbn [Z.to_int NilEmpty.string_of_int].
  - apply (split_go_digits (D0 Nil)).
  - apply split_go_digits.
  - destruct (uint_head (Pos.to_uint p) (Unsigned.to_uint_nonnil p))
      as (c & r & Heq & Hc).
    set (D := NilEmpty.string_of_uint (Pos.to_uint p)) in *.
    change (("-" +:+ D) +:+ rest) with (String "-" (D +:+ rest)).
    transitivity (JS.split_go "-task-" 0 (piece +:+ "-") (D +:+ rest)).
    + rewrite Heq. change (String c r +:+ rest) with (String c (r +:+ rest)).
      by apply split_go_dash.
    + unfold D. rewrite split_go_digits. by rewrite append_assoc.
Qed.

Lemma split_go_char c s piece :
  Ascii.eqb "-" c = false ->
  JS.split_go "-task-" 0 piece (String c s)
  = JS.split_go "-task-" 0 (piece +:+ String c EmptyString) s.
Proof.
  intros Hc. cbn [JS.split_go]. unfold JS.startsWith.
  cbn [JS.strip_prefix]. by rewrite Hc.
Qed.

Lemma split_go_separator piece rest :
  JS.split_go "-task-" 0 piece ("-task-" +:+ rest)
  = piece :: JS.split_go "-task-" 0 EmptyString rest.
Proof.
  change ("-task-" +:+ rest)
    with (String "-" (String "t" (String "a" (String "s" (String "k" (String "-" rest)))))).
  destruct rest; reflexivity.
Qed.

Lemma split_task_id n k :
  JS.split (task_id_of (request_id_of n) k) "-task-"
  = [ "req-" +:+ request_id_of n ]
    ++ JS.split_go "-task-" 0 EmptyString (JS.Number_toString k).
Proof.
  unfold JS.split, task_id_of, request_id_of.
  set (N := JS.Number_toString n). set (K := JS.Number_toString k).
  change ("req-" +:+ ("req-" +:+ N) +:+ "-task-" +:+ K)
    with (String "r" (String "e" (String "q" (String "-"
           (String "r" (String "e" (String "q" (String "-"
              (N +:+ "-task-" +:+ K))))))))).
  rewrite !split_go_char by reflexivity.
  rewrite split_go_dash by reflexivity.
  rewrite !split_go_char by reflexivity.
  destruct (Number_toString_head n) as (c & r & HN & Hc). fold N in HN.
  assert (Hstep : forall piece,
    JS.split_go "-task-" 0 piece (String "-" (N +:+ "-task-" +:+ K))
    = JS.split_go "-task-" 0 (piece +:+ "-") (N +:+ "-task-" +:+ K)).
  { intros piece. rewrite HN.
    change (String c r +:+ "-task-" +:+ K) with (String c (r +:+ "-task-" +:+ K)).
    by apply split_go_dash. }
  rewrite Hstep. unfold N at 1. rewrite split_go_number. fold N.
  rewrite split_go_separator. f_equal.
Qed.

Lemma split_go_positive p :
  JS.split_go "-task-" 0 EmptyString (JS.Number_toString (Z.pos p))
  = [JS.Number_toString (Z.pos p)].
Proof.
  unfold JS.Number_toString. cbn [Z.to_int NilEmpty.string_of_int].
  rewrite <- (append_nil_r (NilEmpty.string_of_uint (Pos.to_uint p))) at 1.
  by rewrite split_go_digits.
Qed.

(** The number read back from an identifier produced by the templates. *)
Lemma taskNumberOf_task_id n k :
  0 < k -> taskNumberOf (task_id_of (request_id_of n) k) = k.
Proof.
  intros Hk. destruct k as [|p|p]; [lia| |lia].
  unfold taskNumberOf. rewrite split_task_id, split_go_positive.
  cbn [app lookup list_lookup]. by rewrite parseInt_positive.
Qed.

(* ===================================================================== *)
(** * The effect of a call on the document *)
(* ===================================================================== *)

Lemma locate_task_lookup0 taskId file ri ti t :
  locate_task taskId 0 (requests file) = Some (ri, ti, t) ->
  exists r, requests file !! ri = Some r /\ req_tasks r !! ti = Some t.
Proof.
  intros H. apply locate_task_lookup in H as (r & _ & Hr & Ht).
  rewrite Nat.sub_0_r in Hr. by exists r.
Qed.

Lemma manageSubtasks_transition now params file :
  transition file (snd (manageSubtasks now params file)).
Proof.
  enter manageSubtasks.
  destruct (locate_task (p_taskId params) 0 (requests file)) as [[[ri ti] t]|] eqn:Hloc;
    [|constructor].
  destruct (locate_task_lookup0 _ _ _ _ _ Hloc) as (r & Hr & Ht).
  assert (Hset : forall subs,
            transition file
              (set_task file ri ti
                 (set_subtasks t subs (calculateCompletionPercentage subs)))).
  { intros subs. by eapply tr_subtasks. }
  destruct (p_action params).
  - unfold manage_create. cbv zeta.
    destruct (p_subtasks params) as [[|s l]|]; [constructor| |constructor].
    destruct (create_loop _ _ _ _ _ _ _ _) as [[c errs] val].
    destruct (negb (is_nil errs)); [constructor|apply Hset].
  - unfold manage_update. cbv zeta.
    destruct (negb (option_truthy (p_subtaskId params))); [constructor|].
    destruct (p_updates params) as [u|]; [|constructor].
    destruct (_ && _); [constructor|].
    destruct (task_subtasks t) as [subs|]; [|constructor].
    destruct (find_subtask _ subs) as [[k st]|]; [|constructor].
    destruct (negb (is_nil _)); [constructor|apply Hset].
  - unfold manage_complete. cbv zeta.
    destruct (negb (option_truthy (p_subtaskId params))); [constructor|].
    destruct (task_subtasks t) as [subs|]; [|constructor].
    destruct (find_subtask _ subs) as [[k st]|]; [|constructor].
    destruct (bool_decide (sub_status st = completed)); [constructor|].
    destruct (negb (validateStatusTransition _ _)); [constructor|apply Hset].
  - unfold manage_delete. cbv zeta.
    destruct (negb (option_truthy (p_subtaskId params))); [constructor|].
    destruct (task_subtasks t) as [subs|]; [|constructor].
    destruct (find_subtask _ subs) as [[k st]|]; [|constructor].
    destruct (bool_decide (sub_status st = completed)); [constructor|apply Hset].
  - unfold manage_break_down. cbv zeta.
    destruct (p_subtasks params) as [[|s l]|]; [constructor| |constructor].
    destruct (50 <? _)%nat; [constructor|].
    destruct (break_down_loop _ _ _ _ _ _ _) as [[c errs] val].
    destruct (negb (is_nil errs)); [constructor|].
    destruct (negb (is_nil (duplicateContents val))); [constructor|apply Hset].
Qed.

Lemma call_transition c file : transition file (snd (call c file)).
Proof.
  destruct c; cbn [call].
  - enter requestPlanning. cbn [snd saveTasks].
    apply (tr_plan file (requestCounter (loadTasks file) + 1)).
  - unfold getNextTask. cbv zeta. repeat case_match; constructor.
  - enter markTaskDone.
    destruct (find_request requestId file) as [[i req]|] eqn:Hr; [|constructor].
    destruct (find_task taskId (req_tasks req)) as [[j t]|] eqn:Ht; [|constructor].
    destruct (task_done t); [constructor|]. destruct (_ && _); [constructor|].
    cbn [snd saveTasks]. eapply tr_task;
      eauto using find_request_lookup, find_task_lookup.
  - enter approveTaskCompletion.
    destruct (find_request requestId file) as [[i req]|] eqn:Hr; [|constructor].
    destruct (find_task taskId (req_tasks req)) as [[j t]|] eqn:Ht; [|constructor].
    destruct (negb (task_done t)); [constructor|].
    destruct (task_approved t); [constructor|].
    cbn [snd saveTasks]. eapply tr_task;
      eauto using find_request_lookup, find_task_lookup.
  - enter approveRequestCompletion.
    destruct (find_request requestId file) as [[i req]|] eqn:Hr; [|constructor].
    destruct (negb (forallb task_done (req_tasks req))); [constructor|].
    destruct (negb (forallb _ (req_tasks req))); [constructor|].
    cbn [snd saveTasks]. apply tr_completed. by eapply find_request_lookup.
  - constructor.
  - constructor.
  - enter addTasksToRequest.
    destruct (find_request requestId file) as [[i req]|] eqn:Hr; [|constructor].
    destruct (req_completed req); [constructor|].
    cbn [snd saveTasks]. rewrite <- (find_request_id _ _ _ _ Hr).
    apply tr_add. by eapply find_request_lookup.
  - enter updateTask.
    destruct (find_request requestId file) as [[i req]|] eqn:Hr; [|constructor].
    destruct (find_task taskId (req_tasks req)) as [[j t]|] eqn:Ht; [|constructor].
    destruct (task_done t); [constructor|].
    cbn [snd saveTasks]. eapply tr_task;
      eauto using find_request_lookup, find_task_lookup.
  - enter deleteTask.
    destruct (find_request requestId file) as [[i req]|] eqn:Hr; [|constructor].
    destruct (find_task taskId (req_tasks req)) as [[j t]|] eqn:Ht; [|constructor].
    destruct (task_done t); [constructor|].
    cbn [snd saveTasks]. apply tr_delete. by eapply find_request_lookup.
  - apply tr_clear.
  - unfold manage_subtasks_tool.
    destruct (ManageSubtasksSchema args); [|constructor].
    apply manageSubtasks_transition.
Qed.

(* ===================================================================== *)
(** * Task numbers *)
(* ===================================================================== *)

Lemma number_tasks_ids rid k defs :
  map task_id (number_tasks rid k defs)
  = map (task_id_of rid) (consecutive k (length defs)).
Proof.
  revert k. induction defs as [|d defs IH]; intros k; [done|].
  cbn [number_tasks length consecutive map]. by rewrite IH.
Qed.

Lemma consecutive_lower start n : Forall (fun k => start <= k) (consecutive start n).
Proof.
  revert start. induction n as [|n IH]; intros start; cbn; constructor; [lia|].
  eapply Forall_impl; [apply IH|]. intros k Hk. simpl in Hk. lia.
Qed.

Lemma consecutive_sorted start n : StronglySorted Z.lt (consecutive start n).
Proof.
  revert start. induction n as [|n IH]; intros start; cbn; constructor; [apply IH|].
  eapply Forall_impl; [apply consecutive_lower|]. intros k Hk. simpl in Hk. lia.
Qed.

Lemma fold_left_max_ge rest a :
  a <= fold_left Z.max rest a /\ Forall (fun x => x <= fold_left Z.max rest a) rest.
Proof.
  revert a. induction rest as [|b rest IH]; intros a; cbn; [split; [lia|constructor]|].
  destruct (IH (Z.max a b)) as [H1 H2]. split; [lia|]. constructor; [lia|done].
Qed.

Lemma Math_max_ge l : Forall (fun x => x <= JS.Math_max l) l.
Proof.
  destruct l as [|a rest]; [constructor|]. cbn [JS.Math_max].
  destruct (fold_left_max_ge rest a). by constructor.
Qed.

Lemma map_taskNumberOf rid ks :
  (exists n, rid = request_id_of n) -> Forall (fun k => 0 < k) ks ->
  map taskNumberOf (map (task_id_of rid) ks) = ks.
Proof.
  intros [n ->] Hks. induction Hks as [|k ks Hk _ IH]; [done|].
  cbn [map]. by rewrite IH, taskNumberOf_task_id.
Qed.

Lemma task_numbers_ids req ks :
  (exists n, req_requestId req = request_id_of n) ->
  map task_id (req_tasks req) = map (task_id_of (req_requestId req)) ks ->
  Forall (fun k => 0 < k) ks ->
  task_numbers req = ks.
Proof.
  intros Hn Hids Hks. unfold task_numbers, taskNumber.
  rewrite <- (map_map task_id taskNumberOf).
  rewrite Hids. by apply map_taskNumberOf.
Qed.

Lemma numbered_request_sorted req :
  numbered_request req ->
  StronglySorted Z.lt (task_numbers req)
  /\ Forall (fun k => 0 < k) (task_numbers req)
  /\ map task_id (req_tasks req)
     = map (task_id_of (req_requestId req)) (task_numbers req).
Proof.
  intros (Hn & ks & Hids & Hs & Hp).
  by rewrite (task_numbers_ids req ks Hn Hids Hp).
Qed.

Lemma maxTaskNum_bounds req :
  numbered_request req ->
  0 <= maxTaskNum (req_tasks req)
  /\ Forall (fun k => k <= maxTaskNum (req_tasks req)) (task_numbers req).
Proof.
  intros Hreq. destruct (numbered_request_sorted req Hreq) as (_ & Hp & _).
  unfold maxTaskNum, task_numbers in *.
  destruct (req_tasks req) as [|t ts] eqn:E; [split; [lia|constructor]|].
  pose proof (Math_max_ge (map taskNumber (t :: ts))) as Hge. split; [|done].
  apply Forall_cons_1 in Hge as [Hge _]. apply Forall_cons_1 in Hp as [Hp _]. lia.
Qed.

Lemma StronglySorted_delete {A} (R : relation A) l i :
  StronglySorted R l -> StronglySorted R (delete i l).
Proof.
  intros H. revert i. induction H as [|x l Hl IH Hx]; intros [|i]; cbn.
  - constructor.
  - constructor.
  - done.
  - constructor; [apply IH|]. by apply Forall_delete.
Qed.

Lemma same_ids_insert ts j told t' :
  ts !! j = Some told -> task_id t' = task_id told ->
  map task_id (<[j := t']> ts) = map task_id ts.
Proof.
  intros Hj Hid. change (map task_id (<[j:=t']> ts)) with (task_id <$> <[j:=t']> ts).
  rewrite list_fmap_insert. apply list_insert_id.
  by rewrite list_lookup_fmap, Hj, Hid.
Qed.

Lemma numbered_request_ext req req' :
  req_requestId req' = req_requestId req ->
  map task_id (req_tasks req') = map task_id (req_tasks req) ->
  numbered_request req -> numbered_request req'.
Proof. unfold numbered_request. by intros -> ->. Qed.

Lemma numbered_planned n o sd defs :
  numbered_request
    (mkRequest (request_id_of n) o sd (number_tasks (request_id_of n) 1 defs) false).
Proof.
  split; [by exists n|]. exists (consecutive 1 (length defs)). cbn [req_tasks req_requestId].
  split; [apply number_tasks_ids|]. split; [apply consecutive_sorted|].
  eapply Forall_impl; [apply consecutive_lower|]. intros k Hk. simpl in Hk. lia.
Qed.

Lemma numbered_added req defs :
  numbered_request req ->
  numbered_request
    (set_tasks req
       (req_tasks req
        ++ number_tasks (req_requestId req) (maxTaskNum (req_tasks req) + 1) defs)).
Proof.
  intros Hreq. destruct (maxTaskNum_bounds req Hreq) as [Hmax Hle].
  destruct (numbered_request_sorted req Hreq) as (Hs & Hp & Hids).
  destruct Hreq as [Hn _]. split; [done|].
  exists (task_numbers req ++ consecutive (maxTaskNum (req_tasks req) + 1) (length defs)).
  cbn [set_tasks req_tasks req_requestId].
  split; [by rewrite !map_app, Hids, number_tasks_ids|]. split.
  - apply StronglySorted_app. split; [|split; [done|apply consecutive_sorted]].
    intros x1 x2 H1 H2.
    pose proof (proj1 (Forall_forall _ _) Hle x1 H1) as Hx1.
    pose proof (proj1 (Forall_forall _ _)
                  (consecutive_lower (maxTaskNum (req_tasks req) + 1) (length defs))
                  x2 H2) as Hx2.
    simpl in Hx1, Hx2. lia.
  - apply Forall_app. split; [done|].
    eapply Forall_impl; [apply consecutive_lower|]. intros k Hk. simpl in Hk. lia.
Qed.

Lemma numbered_deleted req j :
  numbered_request req ->
  numbered_request (set_tasks req (delete j (req_tasks req))).
Proof.
  intros (Hn & ks & Hids & Hs & Hp). split; [done|].
  exists (delete j ks). cbn [set_tasks req_tasks req_requestId]. split; [|split].
  - change (map task_id (delete j (req_tasks req)))
      with (task_id <$> delete j (req_tasks req)).
    rewrite list_fmap_delete.
    change (task_id <$> req_tasks req) with (map task_id (req_tasks req)).
    rewrite Hids.
    change (map (task_id_of (req_requestId req)) ks)
      with (task_id_of (req_requestId req) <$> ks).
    by rewrite <- list_fmap_delete.
  - by apply StronglySorted_delete.
  - by apply Forall_delete.
Qed.

Lemma transition_numbered file file' :
  transition file file' -> numbered file -> numbered file'.
Proof.
  intros Htr Hnum. unfold numbered in *.
  destruct Htr as [|i j req told t' Hi Hj Hid _ _|i j req told subs Hi Hj|i req Hi
                  |n o sd defs|i req defs Hi|i req j Hi|];
    cbn [requests set_task set_request].
  - done.
  - apply Forall_alter; [done|]. intros r Hr Pr.
    assert (r = req) as -> by congruence.
    eapply numbered_request_ext; [| |exact Pr]; [done|].
    cbn [set_tasks req_tasks]. by eapply same_ids_insert.
  - apply Forall_alter; [done|]. intros r Hr Pr.
    assert (r = req) as -> by congruence.
    eapply numbered_request_ext; [| |exact Pr]; [done|].
    cbn [set_tasks req_tasks]. by eapply same_ids_insert.
  - apply Forall_insert; [done|].
    eapply numbered_request_ext; [| |exact (Forall_lookup_1 _ _ _ _ Hnum Hi)]; done.
  - apply Forall_app. split; [done|]. constructor; [apply numbered_planned|constructor].
  - apply Forall_insert; [done|]. apply numbered_added.
    exact (Forall_lookup_1 _ _ _ _ Hnum Hi).
  - apply Forall_insert; [done|]. apply numbered_deleted.
    exact (Forall_lookup_1 _ _ _ _ Hnum Hi).
  - constructor.
Qed.

Lemma reachable_numbered file : reachable file -> numbered file.
Proof.
  induction 1 as [|c file _ IH]; [constructor|].
  eapply transition_numbered; [apply call_transition|done].
Qed.

Lemma number_tasks_length rid k defs :
  length (number_tasks rid k defs) = length defs.
Proof. revert k. induction defs as [|d defs IH]; intros k; cbn; [done|]. by rewrite IH. Qed.

Lemma fold_left_max_sorted a rest :
  StronglySorted Z.lt (a :: rest) -> fold_left Z.max rest a = default a (last rest).
Proof.
  revert a. induction rest as [|b rest IH]; intros a Hs; [done|].
  apply StronglySorted_inv in Hs as [Hs Ha]. apply Forall_cons_1 in Ha as [Hab _].
  cbn [fold_left]. replace (Z.max a b) with b by lia. rewrite (IH b Hs).
  destruct rest as [|z rest]; [done|].
  change (last (b :: z :: rest)) with (last (z :: rest)).
  destruct (last (z :: rest)) eqn:E; [done|]. by apply last_None in E.
Qed.

Lemma maxTaskNum_largest req :
  numbered_request req -> maxTaskNum (req_tasks req) = largest_number req.
Proof.
  intros Hreq. destruct (numbered_request_sorted req Hreq) as (Hs & _ & _).
  unfold maxTaskNum, largest_number, task_numbers in *.
  destruct (req_tasks req) as [|t ts]; [done|].
  cbn [map JS.Math_max] in *. rewrite (fold_left_max_sorted _ _ Hs).
  destruct (map taskNumber ts) as [|z l]; [done|].
  change (last (taskNumber t :: z :: l)) with (last (z :: l)).
  destruct (last (z :: l)) eqn:E; [done|]. by apply last_None in E.
Qed.

(** C6 (as amended).  In every document reachable from the empty one, the
    task numbers of the tasks present in a request are strictly
    increasing in stored order, hence pairwise different; and
    [addTasksToRequest] on a request that is not completed appends tasks
    numbered consecutively from [m + 1], where [m] is the largest number
    among the tasks present (the number of the last stored task), or 0
    when the request has no task; every number present is at most [m],
    and the numbers are still strictly increasing afterwards.  The next
    number depends on the tasks present only, not on what was assigned
    before. *)
Theorem task_numbers_increasing file :
  reachable file ->
  Forall (fun req => StronglySorted Z.lt (task_numbers req)) (requests file)
  /\ forall requestId defs i req,
       find_request requestId file = Some (i, req) ->
       req_completed req = false ->
       exists newTasks,
         length newTasks = length defs
         /\ snd (addTasksToRequest requestId defs file)
            = set_request file i (set_tasks req (req_tasks req ++ newTasks))
         /\ map taskNumber newTasks
            = consecutive (largest_number req + 1) (length defs)
         /\ Forall (fun k => k <= largest_number req) (task_numbers req)
         /\ (req_tasks req = [] -> largest_number req = 0)
         /\ (req_tasks req <> [] -> largest_number req ∈ task_numbers req)
         /\ StronglySorted Z.lt (task_numbers req ++ map taskNumber newTasks).
Proof.
  intros Hreach. pose proof (reachable_numbered file Hreach) as Hnum. split.
  - eapply Forall_impl; [exact Hnum|]. intros req Hreq.
    by destruct (numbered_request_sorted req Hreq).
  - intros requestId defs i req Hfind Hc.
    pose proof (Forall_lookup_1 _ _ _ _ Hnum (find_request_lookup _ _ _ _ Hfind)) as Hreq.
    destruct (maxTaskNum_bounds req Hreq) as [Hmax Hle].
    destruct (numbered_request_sorted req Hreq) as (Hsorted & _ & _).
    pose proof (maxTaskNum_largest req Hreq) as Hlast. rewrite Hlast in Hmax, Hle.
    assert (Hnew : map taskNumber
                     (number_tasks requestId (maxTaskNum (req_tasks req) + 1) defs)
                   = consecutive (largest_number req + 1) (length defs)).
    { unfold taskNumber.
      rewrite <- (map_map task_id taskNumberOf), number_tasks_ids, Hlast.
      apply map_taskNumberOf.
      - rewrite <- (find_request_id _ _ _ _ Hfind). by destruct Hreq.
      - eapply Forall_impl; [apply consecutive_lower|]. intros k Hk. simpl in Hk. lia. }
    exists (number_tasks requestId (maxTaskNum (req_tasks req) + 1) defs).
    split; [apply number_tasks_length|]. split; [|split; [exact Hnew|split; [done|]]].
    + unfold addTasksToRequest. cbv zeta. by rewrite data_loadTasks, Hfind, Hc.
    + split; [|split].
      * unfold largest_number, task_numbers. by intros ->.
      * unfold largest_number, task_numbers. intros Hne.
        destruct (last (map taskNumber (req_tasks req))) as [x|] eqn:El.
        -- cbn. apply last_Some in El as [l' ->]. apply elem_of_app. right.
           apply list_elem_of_here.
        -- apply last_None in El. by destruct (req_tasks req).
      * rewrite Hnew. apply StronglySorted_app.
        split; [|split; [done|apply consecutive_sorted]].
        intros x y Hx Hy.
        pose proof (proj1 (Forall_forall _ _) Hle x Hx) as Hx1.
        pose proof (proj1 (Forall_forall _ _)
                      (consecutive_lower (largest_number req + 1) (length defs))
                      y Hy) as Hy1.
        simpl in Hx1, Hy1. lia.
Qed.

Lemma task_numbers_increasing_witness :
  reachable (run calls_delete_two empty_file)
  /\ find_request "req-1" (run calls_delete_two empty_file)
     = Some (0%nat, request_one_of_three)
  /\ req_completed request_one_of_three = false
  /\ largest_number request_one_of_three = 1
  /\ exists newTasks,
       snd (addTasksToRequest "req-1" [sample_def "d"] (run calls_delete_two empty_file))
       = set_request (run calls_delete_two empty_file) 0
           (set_tasks request_one_of_three (req_tasks request_one_of_three ++ newTasks))
       /\ map taskNumber newTasks = consecutive (1 + 1) 1.
Proof.
  assert (H : reachable (run calls_delete_two empty_file)).
  { unfold calls_delete_two. cbn [run]. repeat constructor. }
  assert (H1 : find_request "req-1" (run calls_delete_two empty_file)
               = Some (0%nat, request_one_of_three)) by (vm_compute; reflexivity).
  assert (H2 : largest_number request_one_of_three = 1) by (vm_compute; reflexivity).
  split; [exact H|]. split; [exact H1|]. split; [reflexivity|]. split; [exact H2|].
  destruct (proj2 (task_numbers_increasing (run calls_delete_two empty_file) H)
              "req-1" [sample_def "d"] 0%nat request_one_of_three H1 eq_refl)
    as (newTasks & _ & Hfile & Hnum & _).
  exists newTasks. split; [exact Hfile|]. rewrite <- H2. exact Hnum.
Defined.

(** C6, the claim as stated fails: planning assigns the numbers 1 and 2;
    after the task numbered 2 is deleted, the next added task is given the
    number 2 again, under the identifier the deleted task had.  The
    numbers assigned over time are 1, 2, 2. *)
Lemma task_number_reused_after_delete :
  results calls_delete_then_add empty_file
  = [Planned "req-1" 2 [("req-req-1-task-1", "a", "details");
                        ("req-req-1-task-2", "b", "details")];
     TaskDeleted;
     TasksAdded [("req-req-1-task-2", Some 2, "c", "details")]]
  /\ assigned_numbers calls_delete_then_add empty_file = [1; 2; 2]
  /\ ~ StronglySorted Z.lt (assigned_numbers calls_delete_then_add empty_file)
  /\ ~ NoDup (assigned_numbers calls_delete_then_add empty_file).
Proof.
  assert (H : assigned_numbers calls_delete_then_add empty_file = [1; 2; 2])
    by (vm_compute; reflexivity).
  split; [vm_compute; reflexivity|]. split; [exact H|]. rewrite H. split.
  - intros Hs. apply StronglySorted_inv in Hs as [Hs _].
    apply StronglySorted_inv in Hs as [_ Hs]. apply Forall_cons_1 in Hs as [Hs _]. lia.
  - intros Hn. apply NoDup_cons in Hn as [_ Hn]. apply NoDup_cons in Hn as [Hn _].
    apply Hn. apply list_elem_of_here.
Qed.

(* ===================================================================== *)
(** * What does hold of the percentage, of [completedAt] and of planning *)
(* ===================================================================== *)

Lemma number_tasks_fresh rid k defs :
  Forall (fun t => task_subtasks t = None /\ task_completionPercentage t = None)
         (number_tasks rid k defs).
Proof. revert k. induction defs as [|d defs IH]; intros k; cbn; constructor; auto. Qed.

Lemma number_tasks_percentage rid k defs :
  Forall percentage_recomputed (number_tasks rid k defs).
Proof.
  eapply Forall_impl; [apply number_tasks_fresh|].
  intros t [Hs Hp]. unfold percentage_recomputed. by rewrite Hs, Hp.
Qed.

Lemma transition_percentage file file' :
  transition file file' ->
  Forall (fun req => Forall percentage_recomputed (req_tasks req)) (requests file) ->
  Forall (fun req => Forall percentage_recomputed (req_tasks req)) (requests file').
Proof.
  intros Htr Hinv.
  destruct Htr as [|i j req told t' Hi Hj _ Hs Hp|i j req told subs Hi Hj|i req Hi
                  |n o sd defs|i req defs Hi|i req j Hi|];
    cbn [requests set_task set_request].
  - done.
  - apply Forall_alter; [done|]. intros r Hr Pr.
    assert (r = req) as -> by congruence. cbn [set_tasks req_tasks].
    apply Forall_insert; [done|]. unfold percentage_recomputed. rewrite Hs, Hp.
    exact (Forall_lookup_1 _ _ _ _ Pr Hj).
  - apply Forall_alter; [done|]. intros r Hr Pr. cbn [set_tasks req_tasks].
    by apply Forall_insert.
  - apply Forall_insert; [done|]. exact (Forall_lookup_1 _ _ _ _ Hinv Hi).
  - apply Forall_app. split; [done|]. constructor; [|constructor].
    apply number_tasks_percentage.
  - apply Forall_insert; [done|]. cbn [set_tasks req_tasks]. apply Forall_app.
    split; [exact (Forall_lookup_1 _ _ _ _ Hinv Hi)|apply number_tasks_percentage].
  - apply Forall_insert; [done|]. cbn [set_tasks req_tasks]. apply Forall_delete.
    exact (Forall_lookup_1 _ _ _ _ Hinv Hi).
  - constructor.
Qed.

(** The percentage is recomputed by every subtask mutation: in every
    reachable document the stored percentage of every task is
    [calculateCompletionPercentage] of its stored subtasks. *)
Lemma reachable_percentage_recomputed file :
  reachable file ->
  Forall (fun req => Forall percentage_recomputed (req_tasks req)) (requests file).
Proof.
  induction 1 as [|c file _ IH]; [constructor|].
  eapply transition_percentage; [apply call_transition|done].
Qed.

(** [calculateCompletionPercentage] agrees with the exact rounding for
    every task with fewer than forty subtasks; forty is the first size at
    which the double product falls below a half that the exact value
    reaches. *)
Lemma percentage_exact_below_40 :
  forallb exact_for_total (seq 1 39) = true /\ exact_for_total 40 = false.
Proof. split; vm_compute; reflexivity. Qed.

(** [update] and [complete] keep [completedAt] in step with the status. *)
Lemma set_status_consistent st newStatus now :
  completedAt_consistent st ->
  completedAt_consistent (set_status st newStatus now).
Proof.
  unfold completedAt_consistent, set_status. cbn. intros [H1 H2].
  destruct newStatus, (sub_status st) eqn:E; cbn;
    first [ done
          | split; [intros [? ?]; discriminate|discriminate]
          | split; [done|by eexists]
          | split; [intros H; by apply H1 in H|discriminate] ].
Qed.

Lemma set_completed_now_consistent st now :
  completedAt_consistent (set_completed_now st now).
Proof. unfold completedAt_consistent. cbn. split; [done|by eexists]. Qed.

(** Planning numbers the tasks of the new request 1, 2, ... *)
Lemma requestPlanning_numbers_from_one o defs sd file :
  exists req,
    requests (snd (requestPlanning o defs sd file)) = requests file ++ [req]
    /\ task_numbers req = consecutive 1 (length defs).
Proof.
  enter requestPlanning. cbn [snd saveTasks requests].
  eexists. split; [reflexivity|].
  apply task_numbers_ids; cbn [req_requestId req_tasks].
  - by eexists.
  - apply number_tasks_ids.
  - eapply Forall_impl; [apply consecutive_lower|]. intros k Hk. simpl in Hk. lia.
Qed.

(* ===================================================================== *)
(** * The effect of a call, in detail *)
(* ===================================================================== *)

Lemma create_loop_valid existing taskId now specs :
  forall i c errs val,
    Forall (fun st => validateSubtaskData (Some (sub_content st)) None = []) val ->
    Forall (fun st => validateSubtaskData (Some (sub_content st)) None = [])
      (create_loop existing taskId now i specs c errs val).2.
Proof.
  induction specs as [|spec specs IH]; intros i c errs val Hval; [done|].
  cbn [create_loop]. cbv zeta.
  destruct (validateSubtaskData (Some (spec_content spec)) (spec_status spec)) eqn:Ev;
    cbn [is_nil negb]; [|by apply IH].
  destruct (negb (validateUniqueContent existing (spec_content spec) None)); [by apply IH|].
  destruct (subtask_id_or_generate _ _ _) as [sid c1]. apply IH.
  apply Forall_app. split; [done|]. constructor; [exact Ev|constructor].
Qed.

Lemma break_down_loop_valid taskId now specs :
  forall i c errs val,
    Forall (fun st => validateSubtaskData (Some (sub_content st)) None = []) val ->
    Forall (fun st => validateSubtaskData (Some (sub_content st)) None = [])
      (break_down_loop taskId now i specs c errs val).2.
Proof.
  induction specs as [|spec specs IH]; intros i c errs val Hval; [done|].
  cbn [break_down_loop]. cbv zeta.
  destruct (validateSubtaskData (Some (spec_content spec)) (spec_status spec)) eqn:Ev;
    cbn [is_nil negb]; [|by apply IH].
  destruct (subtask_id_or_generate _ _ _) as [sid c1]. apply IH.
  apply Forall_app. split; [done|]. constructor; [exact Ev|constructor].
Qed.

Lemma kept_or_valid_kept t subs :
  task_subtasks t = Some subs -> Forall (kept_or_valid t) subs.
Proof.
  intros Hs. apply Forall_forall. intros st Hst. left. exists st.
  unfold subtasks_of. by rewrite Hs.
Qed.

Lemma apply_updates_kept_or_valid t subs k st subtaskId u now :
  task_subtasks t = Some subs ->
  subs !! k = Some st ->
  update_validation subs st subtaskId u = [] ->
  kept_or_valid t (apply_updates st u now).
Proof.
  intros Hs Hk Hval. unfold update_validation in Hval.
  apply app_eq_nil in Hval as [Hval _].
  assert (Hin : st ∈ subtasks_of t).
  { unfold subtasks_of. rewrite Hs. by eapply list_elem_of_lookup_2. }
  assert (Hcontent : sub_content (apply_updates st u now)
                     = match upd_content u with
                       | Some c => if JS.truthy c then c else sub_content st
                       | None => sub_content st
                       end).
  { unfold apply_updates. destruct (upd_content u) as [c|]; [destruct (JS.truthy c)|];
      by destruct (upd_status u). }
  unfold kept_or_valid. rewrite Hcontent.
  destruct (upd_content u) as [c|]; [|left; by exists st].
  destruct (JS.truthy c); [|left; by exists st]. right.
  destruct (validateSubtaskData (Some c) None); [done|]. cbn in Hval. discriminate Hval.
Qed.

Lemma manageSubtasks_edit now params file :
  edit file (snd (manageSubtasks now params file)).
Proof.
  enter manageSubtasks.
  destruct (locate_task (p_taskId params) 0 (requests file)) as [[[ri ti] t]|] eqn:Hloc;
    [|constructor].
  destruct (locate_task_lookup0 _ _ _ _ _ Hloc) as (r & Hr & Ht).
  assert (Hset : forall subs,
            Forall (kept_or_valid t) subs ->
            edit file
              (set_task file ri ti
                 (set_subtasks t subs (calculateCompletionPercentage subs)))).
  { intros subs Hsubs. eapply ed_task; [done..|by constructor]. }
  destruct (p_action params).
  - unfold manage_create. cbv zeta.
    destruct (p_subtasks params) as [[|s l]|]; [constructor| |constructor].
    pose proof (create_loop_valid (default [] (task_subtasks t)) (p_taskId params) now
                  (s :: l) 0%nat (taskCounter (loadTasks file)) [] []
                  ltac:(constructor)) as Hval.
    destruct (create_loop _ _ _ _ _ _ _ _) as [[c errs] val].
    destruct (negb (is_nil errs)); [constructor|]. apply Hset, Forall_app. split.
    + destruct (task_subtasks t) as [subs|] eqn:Es; [|constructor].
      by apply kept_or_valid_kept.
    + eapply Forall_impl; [exact Hval|]. intros st Hst. by right.
  - unfold manage_update. cbv zeta.
    destruct (negb (option_truthy (p_subtaskId params))); [constructor|].
    destruct (p_updates params) as [u|]; [|constructor].
    destruct (_ && _); [constructor|].
    destruct (task_subtasks t) as [subs|] eqn:Es; [|constructor].
    destruct (find_subtask _ subs) as [[k st]|] eqn:Ef; [|constructor].
    destruct (update_validation subs st _ u) eqn:Ev; cbn [is_nil negb]; [|constructor].
    apply Hset, Forall_insert; [by apply kept_or_valid_kept|].
    apply list_find_Some in Ef as (Hk & _). by eapply apply_updates_kept_or_valid.
  - unfold manage_complete. cbv zeta.
    destruct (negb (option_truthy (p_subtaskId params))); [constructor|].
    destruct (task_subtasks t) as [subs|] eqn:Es; [|constructor].
    destruct (find_subtask _ subs) as [[k st]|] eqn:Ef; [|constructor].
    destruct (bool_decide (sub_status st = completed)); [constructor|].
    destruct (negb (validateStatusTransition _ _)); [constructor|].
    apply Hset, Forall_insert; [by apply kept_or_valid_kept|].
    apply list_find_Some in Ef as (Hk & _). left. exists st. split; [|done].
    unfold subtasks_of. rewrite Es. by eapply list_elem_of_lookup_2.
  - unfold manage_delete. cbv zeta.
    destruct (negb (option_truthy (p_subtaskId params))); [constructor|].
    destruct (task_subtasks t) as [subs|] eqn:Es; [|constructor].
    destruct (find_subtask _ subs) as [[k st]|]; [|constructor].
    destruct (bool_decide (sub_status st = completed)); [constructor|].
    apply Hset, Forall_delete. by apply kept_or_valid_kept.
  - unfold manage_break_down. cbv zeta.
    destruct (p_subtasks params) as [[|s l]|]; [constructor| |constructor].
    destruct (50 <? _)%nat; [constructor|].
    pose proof (break_down_loop_valid (p_taskId params) now (s :: l) 0%nat
                  (taskCounter (loadTasks file)) [] [] ltac:(constructor)) as Hval.
    destruct (break_down_loop _ _ _ _ _ _ _) as [[c errs] val].
    destruct (negb (is_nil errs)); [constructor|].
    destruct (negb (is_nil (duplicateContents val))); [constructor|].
    apply Hset. eapply Forall_impl; [exact Hval|]. intros st Hst. by right.
Qed.

Lemma call_edit c file : c <> clear_all_tasks -> edit file (snd (call c file)).
Proof.
  intros Hnc. destruct c; cbn [call].
  - enter requestPlanning. cbn [snd saveTasks]. apply ed_plan.
  - unfold getNextTask. cbv zeta. repeat case_match; constructor.
  - enter markTaskDone.
    destruct (find_request requestId file) as [[i req]|] eqn:Hr; [|constructor].
    destruct (find_task taskId (req_tasks req)) as [[j t]|] eqn:Ht; [|constructor].
    destruct (task_done t) eqn:Hd; [constructor|].
    destruct (_ && _) eqn:E; [constructor|].
    cbn [snd saveTasks]. eapply ed_task;
      eauto using find_request_lookup, find_task_lookup.
    constructor; [done|]. rewrite has_unfinished_subtask_test. by rewrite E.
  - enter approveTaskCompletion.
    destruct (find_request requestId file) as [[i req]|] eqn:Hr; [|constructor].
    destruct (find_task taskId (req_tasks req)) as [[j t]|] eqn:Ht; [|constructor].
    destruct (task_done t) eqn:Hd; cbn [negb]; [|constructor].
    destruct (task_approved t) eqn:Ha; [constructor|].
    cbn [snd saveTasks]. eapply ed_task;
      eauto using find_request_lookup, find_task_lookup.
    by constructor.
  - enter approveRequestCompletion.
    destruct (find_request requestId file) as [[i req]|] eqn:Hr; [|constructor].
    destruct (forallb task_done (req_tasks req)) eqn:E1; cbn [negb]; [|constructor].
    destruct (forallb (fun t => task_done t && task_approved t) (req_tasks req)) eqn:E2;
      cbn [negb]; [|constructor].
    cbn [snd saveTasks]. apply ed_completed; [by eapply find_request_lookup|].
    by apply all_done_and_approved_test.
  - constructor.
  - constructor.
  - enter addTasksToRequest.
    destruct (find_request requestId file) as [[i req]|] eqn:Hr; [|constructor].
    destruct (req_completed req) eqn:Hc; [constructor|].
    cbn [snd saveTasks]. rewrite <- (find_request_id _ _ _ _ Hr).
    apply ed_add; [by eapply find_request_lookup|done].
  - enter updateTask.
    destruct (find_request requestId file) as [[i req]|] eqn:Hr; [|constructor].
    destruct (find_task taskId (req_tasks req)) as [[j t]|] eqn:Ht; [|constructor].
    destruct (task_done t) eqn:Hd; [constructor|].
    cbn [snd saveTasks]. eapply ed_task;
      eauto using find_request_lookup, find_task_lookup.
    change (task_description (set_title t (or_string title (task_title t))))
      with (task_description t).
    by constructor.
  - enter deleteTask.
    destruct (find_request requestId file) as [[i req]|] eqn:Hr; [|constructor].
    destruct (find_task taskId (req_tasks req)) as [[j t]|] eqn:Ht; [|constructor].
    destruct (task_done t) eqn:Hd; [constructor|].
    cbn [snd saveTasks].
    eapply ed_delete; eauto using find_request_lookup, find_task_lookup.
  - done.
  - unfold manage_subtasks_tool.
    destruct (ManageSubtasksSchema args); [|constructor].
    apply manageSubtasks_edit.
Qed.

Lemma call_effect c file : effect file (snd (call c file)).
Proof.
  destruct c; try (apply eff_edit, call_edit; discriminate). apply eff_clear.
Qed.

(** Induction over the reachable documents through [effect]. *)
Lemma reachable_effect_ind (P : TaskManagerFile -> Prop) :
  P empty_file ->
  (forall file file', reachable file -> P file -> effect file file' -> P file') ->
  forall file, reachable file -> P file.
Proof.
  intros H0 Hstep file Hr. induction Hr as [|c file Hr IH]; [done|].
  eapply Hstep; [exact Hr|exact IH|apply call_effect].
Qed.

Lemma effect_tasks_invariant (Q : Task -> Prop) :
  (forall rid k defs, Forall Q (number_tasks rid k defs)) ->
  (forall told t', Q told -> task_edit told t' -> Q t') ->
  forall file file',
    effect file file' ->
    Forall (fun req => Forall Q (req_tasks req)) (requests file) ->
    Forall (fun req => Forall Q (req_tasks req)) (requests file').
Proof.
  intros Hnew Hedit file file' Heff Hinv.
  destruct Heff as [? [|i j req told t' Hi Hj He|i req Hi _|o sd defs|i req defs Hi _
                      |i req j t Hi _ _]|]; cbn [requests set_task set_request].
  - done.
  - apply Forall_alter; [done|]. intros r Hr Pr.
    assert (r = req) as -> by congruence. cbn [set_tasks req_tasks].
    apply Forall_insert; [done|]. eapply Hedit; [|done].
    exact (Forall_lookup_1 _ _ _ _ Pr Hj).
  - apply Forall_insert; [done|]. exact (Forall_lookup_1 _ _ _ _ Hinv Hi).
  - apply Forall_app. split; [done|]. constructor; [apply Hnew|constructor].
  - apply Forall_insert; [done|]. cbn [set_tasks req_tasks]. apply Forall_app.
    split; [exact (Forall_lookup_1 _ _ _ _ Hinv Hi)|apply Hnew].
  - apply Forall_insert; [done|]. cbn [set_tasks req_tasks]. apply Forall_delete.
    exact (Forall_lookup_1 _ _ _ _ Hinv Hi).
  - constructor.
Qed.

Lemma reachable_full_workflow : reachable (run calls_full_workflow empty_file).
Proof. unfold calls_full_workflow. cbn [run]. repeat constructor. Defined.

(* ===================================================================== *)
(** * Approval *)
(* ===================================================================== *)

Lemma number_tasks_flags rid k defs :
  Forall (fun t => task_done t = false /\ task_approved t = false)
         (number_tasks rid k defs).
Proof. revert k. induction defs as [|d defs IH]; intros k; cbn; constructor; auto. Qed.

Lemma effect_approved_is_done file file' :
  effect file file' ->
  Forall (fun req => Forall approved_is_done (req_tasks req)) (requests file) ->
  Forall (fun req => Forall approved_is_done (req_tasks req)) (requests file').
Proof.
  apply effect_tasks_invariant.
  - intros rid k defs. eapply Forall_impl; [apply number_tasks_flags|].
    intros t [_ Ha] H. congruence.
  - intros told t' Hq He H. destruct He; cbn in *; auto; congruence.
Qed.

(** X1.  In every reachable document an approved task is done: a task is
    approved only by [approveTaskCompletion], which requires the done
    flag, and no method clears the done flag. *)
Theorem reachable_approved_is_done file :
  reachable file ->
  Forall (fun req => Forall approved_is_done (req_tasks req)) (requests file).
Proof.
  revert file. apply reachable_effect_ind; [constructor|].
  intros file file' _ Hinv Heff. by eapply effect_approved_is_done.
Qed.

Lemma reachable_approved_is_done_witness :
  reachable (run calls_full_workflow empty_file)
  /\ Forall (fun req => Forall approved_is_done (req_tasks req))
            (requests (run calls_full_workflow empty_file)).
Proof.
  split; [exact reachable_full_workflow|].
  exact (reachable_approved_is_done _ reachable_full_workflow).
Defined.

Lemma effect_completed_is_final file file' :
  effect file file' ->
  Forall completed_is_final (requests file) ->
  Forall completed_is_final (requests file').
Proof.
  intros Heff Hinv.
  destruct Heff as [? [|i j req told t' Hi Hj He|i req Hi Hall|o sd defs|i req defs Hi Hc
                      |i req j t Hi Hj Hd]|]; cbn [requests set_task set_request].
  - done.
  - apply Forall_alter; [done|]. intros r Hr Pr.
    assert (r = req) as -> by congruence.
    intros Hc. cbn in Hc. specialize (Pr Hc).
    destruct (Pr told) as [Hd Ha]; [by eapply list_elem_of_lookup_2|].
    intros u Hu. cbn [set_tasks req_tasks] in Hu.
    apply list_elem_of_lookup in Hu as [m Hm].
    destruct (decide (m = j)) as [->|Hne].
    + rewrite list_lookup_insert_eq in Hm by (by eapply lookup_lt_Some).
      injection Hm as <-. destruct He; cbn; try congruence. by split.
    + rewrite list_lookup_insert_ne in Hm by done.
      apply Pr. by eapply list_elem_of_lookup_2.
  - apply Forall_insert; [done|]. by intros _.
  - apply Forall_app. split; [done|]. constructor; [|constructor]. intros H. discriminate H.
  - apply Forall_insert; [done|]. intros H. cbn in H. congruence.
  - apply Forall_insert; [done|]. intros H. cbn in H.
    pose proof (Forall_lookup_1 _ _ _ _ Hinv Hi H t) as [Ht _];
      [by eapply list_elem_of_lookup_2|]. congruence.
  - constructor.
Qed.


(** X2.  In every reachable document a request whose [completed] flag is
    true has only done and approved tasks: once the flag is set, tasks can
    no longer be added, and the tasks present, being done, can be neither
    deleted nor edited. *)
Theorem reachable_completed_is_final file :
  reachable file -> Forall completed_is_final (requests file).
Proof.
  revert file. apply reachable_effect_ind; [constructor|].
  intros file file' _ Hinv Heff. by eapply effect_completed_is_final.
Qed.

Lemma reachable_completed_is_final_witness :
  reachable (run calls_full_workflow empty_file)
  /\ Forall completed_is_final (requests (run calls_full_workflow empty_file)).
Proof.
  split; [exact reachable_full_workflow|].
  exact (reachable_completed_is_final _ reachable_full_workflow).
Defined.

(** ** Looking a request or a task up again after it was stored *)

Lemma set_task_as_set_request file i j req t :
  requests file !! i = Some req ->
  set_task file i j t = set_request file i (set_tasks req (<[j := t]> (req_tasks req))).
Proof.
  intros Hi. unfold set_task, set_request. f_equal.
  apply list_eq. intros m. destruct (decide (m = i)) as [->|Hne].
  - rewrite list_lookup_alter_eq, Hi.
    by rewrite list_lookup_insert_eq by (by eapply lookup_lt_Some).
  - by rewrite list_lookup_alter_ne, list_lookup_insert_ne.
Qed.

Lemma find_request_set_request requestId file i req req' :
  find_request requestId file = Some (i, req) ->
  req_requestId req' = requestId ->
  find_request requestId (set_request file i req') = Some (i, req').
Proof.
  intros Hf Hid. unfold find_request, set_request. cbn [requests].
  by apply (list_find_insert_hit (fun r => req_requestId r = requestId)
              (requests file) i req).
Qed.

Lemma find_task_insert taskId ts j t t' :
  find_task taskId ts = Some (j, t) ->
  task_id t' = taskId ->
  find_task taskId (<[j := t']> ts) = Some (j, t').
Proof.
  intros Hf Hid. by apply (list_find_insert_hit (fun u => task_id u = taskId) ts j t).
Qed.

Lemma find_task_id taskId ts j t :
  find_task taskId ts = Some (j, t) -> task_id t = taskId.
Proof. intros H. by apply list_find_Some in H as (_ & ? & _). Qed.

Lemma find_request_set_task requestId taskId file i req j t t' :
  find_request requestId file = Some (i, req) ->
  find_task taskId (req_tasks req) = Some (j, t) ->
  task_id t' = taskId ->
  exists req',
    find_request requestId (set_task file i j t') = Some (i, req')
    /\ req_tasks req' = <[j := t']> (req_tasks req)
    /\ req_completed req' = req_completed req
    /\ find_task taskId (req_tasks req') = Some (j, t').
Proof.
  intros Hr Ht Hid.
  rewrite (set_task_as_set_request file i j req t' (find_request_lookup _ _ _ _ Hr)).
  eexists. split; [apply (find_request_set_request _ _ _ _ _ Hr)|].
  - cbn. by eapply find_request_id.
  - cbn [set_tasks req_tasks req_completed]. split; [done|]. split; [done|].
    by eapply find_task_insert.
Qed.

Lemma locate_task_alter taskId t' reqs :
  task_id t' = taskId ->
  forall n ri ti t,
    locate_task taskId n reqs = Some (ri, ti, t) ->
    locate_task taskId n
      (alter (fun r => set_tasks r (<[ti := t']> (req_tasks r))) (ri - n)%nat reqs)
    = Some (ri, ti, t').
Proof.
  intros Hid. induction reqs as [|r reqs IH]; intros n ri ti t H; [done|].
  cbn [locate_task] in H.
  destruct (find_task taskId (req_tasks r)) as [[j u]|] eqn:E.
  - injection H as <- <- <-. rewrite Nat.sub_diag. cbn [alter list_alter locate_task].
    cbn [set_tasks req_tasks]. by rewrite (find_task_insert _ _ _ _ _ E Hid).
  - pose proof (locate_task_lookup _ _ _ _ _ _ H) as (_ & Hle & _).
    replace (ri - n)%nat with (S (ri - S n)) by lia.
    cbn [alter list_alter locate_task]. rewrite E. by apply (IH _ _ _ t).
Qed.

Lemma locate_task_set_task taskId file ri ti t t' :
  locate_task taskId 0 (requests file) = Some (ri, ti, t) ->
  task_id t' = taskId ->
  locate_task taskId 0 (requests (set_task file ri ti t')) = Some (ri, ti, t').
Proof.
  intros H Hid. unfold set_task. cbn [requests].
  pose proof (locate_task_alter taskId t' (requests file) Hid 0 ri ti t H) as H'.
  by rewrite Nat.sub_0_r in H'.
Qed.

Lemma locate_task_id taskId reqs n ri ti t :
  locate_task taskId n reqs = Some (ri, ti, t) -> task_id t = taskId.
Proof.
  revert n. induction reqs as [|r reqs IH]; intros n H; [done|].
  cbn in H. destruct (find_task taskId (req_tasks r)) as [[j u]|] eqn:E.
  - injection H as <- <- <-. by eapply find_task_id.
  - by eapply IH.
Qed.

(** X3.  [approveTaskCompletion] on a task it finds: a task that is not
    done is refused ("Task not done yet.") and an approved task is
    reported as [already_approved], both without any change; a done task
    that is not approved gets its approved flag set, and approving it a
    second time reports [already_approved] and changes nothing. *)
Theorem approveTaskCompletion_outcomes requestId taskId file i req j task :
  find_request requestId file = Some (i, req) ->
  find_task taskId (req_tasks req) = Some (j, task) ->
  (task_done task = false ->
     approveTaskCompletion requestId taskId file = (Error "Task not done yet.", file))
  /\ (task_done task = true -> task_approved task = true ->
      approveTaskCompletion requestId taskId file = (AlreadyApproved, file))
  /\ (task_done task = true -> task_approved task = false ->
      let file' := set_task file i j (set_approved task) in
      approveTaskCompletion requestId taskId file
      = (TaskApproved requestId (set_approved task), file')
      /\ approveTaskCompletion requestId taskId file' = (AlreadyApproved, file')).
Proof.
  intros Hr Ht.
  assert (Hshape : forall f i' r j' t,
            find_request requestId f = Some (i', r) ->
            find_task taskId (req_tasks r) = Some (j', t) ->
            approveTaskCompletion requestId taskId f
            = if negb (task_done t) then (Error "Task not done yet.", f)
              else if task_approved t then (AlreadyApproved, f)
              else (TaskApproved requestId (set_approved t),
                    set_task f i' j' (set_approved t))).
  { intros f i' r j' t Hf Hft. enter approveTaskCompletion. rewrite Hf, Hft.
    by rewrite (find_request_id _ _ _ _ Hf). }
  rewrite (Hshape _ _ _ _ _ Hr Ht). split; [by intros ->|]. split; [by intros -> ->|].
  intros Hd Ha. rewrite Hd, Ha. cbv zeta. cbn [negb]. split; [done|].
  destruct (find_request_set_task requestId taskId file i req j task (set_approved task)
              Hr Ht) as (req' & Hr' & _ & _ & Ht').
  { cbn. by eapply find_task_id. }
  rewrite (Hshape _ _ _ _ _ Hr' Ht'). cbn. by rewrite Hd.
Qed.

Lemma approveTaskCompletion_outcomes_witness :
  find_request "req-1" file_done_not_approved = Some (0%nat, request_done_not_approved)
  /\ find_task "req-req-1-task-1" (req_tasks request_done_not_approved)
     = Some (0%nat, task_a_done)
  /\ task_done task_a_done = true /\ task_approved task_a_done = false
  /\ approveTaskCompletion "req-1" "req-req-1-task-1"
       (set_task file_done_not_approved 0 0 (set_approved task_a_done))
     = (AlreadyApproved, set_task file_done_not_approved 0 0 (set_approved task_a_done)).
Proof.
  assert (H1 : find_request "req-1" file_done_not_approved
               = Some (0%nat, request_done_not_approved)) by (vm_compute; reflexivity).
  assert (H2 : find_task "req-req-1-task-1" (req_tasks request_done_not_approved)
               = Some (0%nat, task_a_done)) by (vm_compute; reflexivity).
  split; [exact H1|]. split; [exact H2|]. split; [reflexivity|]. split; [reflexivity|].
  exact (proj2 (proj2 (proj2 (approveTaskCompletion_outcomes "req-1" "req-req-1-task-1"
                                file_done_not_approved 0%nat request_done_not_approved
                                0%nat task_a_done H1 H2)) eq_refl eq_refl)).
Defined.

(** ** Calls that do not save *)

Lemma manageSubtasks_unsaved now params file :
  saved (fst (manageSubtasks now params file)) = false ->
  snd (manageSubtasks now params file) = file.
Proof.
  enter manageSubtasks.
  destruct (locate_task (p_taskId params) 0 (requests file)) as [[[ri ti] t]|]; [|done].
  destruct (p_action params).
  - unfold manage_create. cbv zeta.
    destruct (p_subtasks params) as [[|s l]|]; [done| |done].
    destruct (create_loop _ _ _ _ _ _ _ _) as [[c errs] val].
    by destruct (negb (is_nil errs)).
  - unfold manage_update. cbv zeta.
    destruct (negb (option_truthy (p_subtaskId params))); [done|].
    destruct (p_updates params) as [u|]; [|done].
    destruct (_ && _); [done|].
    destruct (task_subtasks t) as [subs|]; [|done].
    destruct (find_subtask _ subs) as [[k st]|]; [|done].
    by destruct (negb (is_nil _)).
  - unfold manage_complete. cbv zeta.
    destruct (negb (option_truthy (p_subtaskId params))); [done|].
    destruct (task_subtasks t) as [subs|]; [|done].
    destruct (find_subtask _ subs) as [[k st]|]; [|done].
    destruct (bool_decide (sub_status st = completed)); [done|].
    by destruct (negb (validateStatusTransition _ _)).
  - unfold manage_delete. cbv zeta.
    destruct (negb (option_truthy (p_subtaskId params))); [done|].
    destruct (task_subtasks t) as [subs|]; [|done].
    destruct (find_subtask _ subs) as [[k st]|]; [|done].
    by destruct (bool_decide (sub_status st = completed)).
  - unfold manage_break_down. cbv zeta.
    destruct (p_subtasks params) as [[|s l]|]; [done| |done].
    destruct (50 <? _)%nat; [done|].
    destruct (break_down_loop _ _ _ _ _ _ _) as [[c errs] val].
    destruct (negb (is_nil errs)); [done|].
    by destruct (negb (is_nil (duplicateContents val))).
Qed.

(** X4.  A call whose result is not one of the results returned after
    saving leaves the stored document exactly as it was: every error,
    every "already ..." answer and every read-only tool returns before
    anything is written, for [manage_subtasks] also when only some of the
    subtasks of a batch are refused. *)
Theorem unsaved_call_changes_nothing c file :
  saved (fst (call c file)) = false -> snd (call c file) = file.
Proof.
  destruct c; cbn [call].
  - by enter requestPlanning.
  - unfold getNextTask. cbv zeta. by repeat case_match.
  - enter markTaskDone.
    destruct (find_request requestId file) as [[i req]|]; [|done].
    destruct (find_task taskId (req_tasks req)) as [[j t]|]; [|done].
    destruct (task_done t); [done|]. by destruct (_ && _).
  - enter approveTaskCompletion.
    destruct (find_request requestId file) as [[i req]|]; [|done].
    destruct (find_task taskId (req_tasks req)) as [[j t]|]; [|done].
    destruct (task_done t); cbn [negb]; [|done]. by destruct (task_approved t).
  - enter approveRequestCompletion.
    destruct (find_request requestId file) as [[i req]|]; [|done].
    destruct (forallb task_done (req_tasks req)); cbn [negb]; [|done].
    by destruct (forallb (fun t => task_done t && task_approved t) (req_tasks req)).
  - unfold openTaskDetails. cbv zeta. by destruct (openTaskDetails_loop _ _).
  - done.
  - enter addTasksToRequest.
    destruct (find_request requestId file) as [[i req]|]; [|done].
    by destruct (req_completed req).
  - enter updateTask.
    destruct (find_request requestId file) as [[i req]|]; [|done].
    destruct (find_task taskId (req_tasks req)) as [[j t]|]; [|done].
    by destruct (task_done t).
  - enter deleteTask.
    destruct (find_request requestId file) as [[i req]|]; [|done].
    destruct (find_task taskId (req_tasks req)) as [[j t]|]; [|done].
    by destruct (task_done t).
  - by enter clearAllTasks.
  - unfold manage_subtasks_tool.
    destruct (ManageSubtasksSchema args); [|done].
    apply manageSubtasks_unsaved.
Qed.

Lemma unsaved_call_changes_nothing_witness :
  saved (fst (call (approve_request_completion "req-1") file_done_not_approved)) = false
  /\ snd (call (approve_request_completion "req-1") file_done_not_approved)
     = file_done_not_approved.
Proof.
  assert (H : saved (fst (call (approve_request_completion "req-1")
                            file_done_not_approved)) = false)
    by (vm_compute; reflexivity).
  split; [exact H|].
  exact (unsaved_call_changes_nothing (approve_request_completion "req-1")
           file_done_not_approved H).
Defined.

(** ** [updateTask] *)

(** X5.  [updateTask] on a task it finds: a done task is refused and
    nothing changes; otherwise a title or description that is absent or
    the empty string leaves that field as it was, any other value replaces
    it, every other field of the task keeps its value, and the task is
    found again under the same identifiers with the new text. *)
Theorem updateTask_outcomes requestId taskId title description file i req j task :
  find_request requestId file = Some (i, req) ->
  find_task taskId (req_tasks req) = Some (j, task) ->
  (task_done task = true ->
     updateTask requestId taskId title description file
     = (Error "Cannot update completed task", file))
  /\ (task_done task = false ->
      exists task',
        updateTask requestId taskId title description file
        = (TaskUpdated task', set_task file i j task')
        /\ task_title task'
           = match title with Some (String c s) => String c s | _ => task_title task end
        /\ task_description task'
           = match description with
             | Some (String c s) => String c s
             | _ => task_description task
             end
        /\ set_description (set_title task' (task_title task)) (task_description task)
           = task
        /\ exists req',
             find_request requestId (set_task file i j task') = Some (i, req')
             /\ find_task taskId (req_tasks req') = Some (j, task')).
Proof.
  intros Hr Ht. split; intros Hd; enter updateTask; rewrite Hr, Ht, Hd; [done|].
  eexists. split; [reflexivity|]. split; [by destruct title as [[|c s]|]|].
  split; [by destruct description as [[|c s]|]|]. split.
  - destruct task. by cbn.
  - destruct (find_request_set_task requestId taskId file i req j task
                (set_description (set_title task (or_string title (task_title task)))
                   (or_string description
                      (task_description
                         (set_title task (or_string title (task_title task))))))
                Hr Ht) as (req' & Hr' & _ & _ & Ht').
    + cbn. by eapply find_task_id.
    + by exists req'.
Qed.

Lemma updateTask_outcomes_witness :
  find_request "req-1" file_one_task = Some (0%nat, request_one_task)
  /\ find_task "req-req-1-task-1" (req_tasks request_one_task)
     = Some (0%nat, mkTask "req-req-1-task-1" "a" "details" false false EmptyString
                      None None)
  /\ exists task',
       updateTask "req-1" "req-req-1-task-1" (Some "new") (Some EmptyString) file_one_task
       = (TaskUpdated task', set_task file_one_task 0 0 task')
       /\ task_title task' = "new" /\ task_description task' = "details".
Proof.
  assert (H1 : find_request "req-1" file_one_task = Some (0%nat, request_one_task))
    by (vm_compute; reflexivity).
  assert (H2 : find_task "req-req-1-task-1" (req_tasks request_one_task)
               = Some (0%nat, mkTask "req-req-1-task-1" "a" "details" false false
                                EmptyString None None))
    by (vm_compute; reflexivity).
  split; [exact H1|]. split; [exact H2|].
  destruct (proj2 (updateTask_outcomes "req-1" "req-req-1-task-1" (Some "new")
                     (Some EmptyString) file_one_task _ _ _ _ H1 H2) eq_refl)
    as (task' & Hu & Htitle & Hdesc & _).
  exists task'. split; [exact Hu|]. split; [exact Htitle|exact Hdesc].
Defined.

(** ** [deleteTask] *)

Lemma StronglySorted_lt_NoDup (l : list Z) : StronglySorted Z.lt l -> NoDup l.
Proof.
  induction 1 as [|a l _ IH Ha]; constructor; [|done].
  intros Hin. rewrite Forall_forall in Ha. specialize (Ha _ Hin). lia.
Qed.

Lemma numbered_request_NoDup req :
  numbered_request req -> NoDup (map task_id (req_tasks req)).
Proof.
  intros Hreq. destruct (numbered_request_sorted req Hreq) as (Hs & _ & _).
  apply StronglySorted_lt_NoDup in Hs. unfold task_numbers, taskNumber in Hs.
  rewrite <- (map_map task_id taskNumberOf) in Hs.
  by apply (NoDup_fmap_1 taskNumberOf).
Qed.

Lemma find_task_delete taskId ts j t :
  NoDup (map task_id ts) ->
  find_task taskId ts = Some (j, t) ->
  find_task taskId (delete j ts) = None.
Proof.
  intros Hnd Hf. apply list_find_Some in Hf as (Hj & Hid & Hmin).
  apply list_find_None, Forall_lookup. intros m x Hm Hx.
  destruct (decide (m < j)%nat) as [Hlt|Hge].
  - rewrite list_lookup_delete_lt in Hm by done. by eapply Hmin.
  - rewrite list_lookup_delete_ge in Hm by lia.
    assert (S m = j); [|lia].
    eapply (NoDup_lookup _ _ _ taskId Hnd).
    + change (map task_id ts) with (task_id <$> ts).
      by rewrite list_lookup_fmap, Hm; cbn; rewrite Hx.
    + change (map task_id ts) with (task_id <$> ts).
      by rewrite list_lookup_fmap, Hj; cbn; rewrite Hid.
Qed.

Lemma reachable_find_request_numbered requestId file i req :
  reachable file -> find_request requestId file = Some (i, req) -> numbered_request req.
Proof.
  intros Hr Hf. apply reachable_numbered in Hr.
  exact (Forall_lookup_1 _ _ _ _ Hr (find_request_lookup _ _ _ _ Hf)).
Qed.

(** X6.  [deleteTask] on a task it finds in a reachable document: a done
    task is refused and nothing changes; a task that is not done is
    removed from its request, the other tasks and the other fields of the
    request stay, the identifier is no longer found in the request, and a
    second deletion of the same task fails with "Task not found". *)
Theorem deleteTask_outcomes requestId taskId file i req j task :
  reachable file ->
  find_request requestId file = Some (i, req) ->
  find_task taskId (req_tasks req) = Some (j, task) ->
  (task_done task = true ->
     deleteTask requestId taskId file = (Error "Cannot delete completed task", file))
  /\ (task_done task = false ->
      let req' := set_tasks req (delete j (req_tasks req)) in
      let file' := set_request file i req' in
      deleteTask requestId taskId file = (TaskDeleted, file')
      /\ find_request requestId file' = Some (i, req')
      /\ find_task taskId (req_tasks req') = None
      /\ deleteTask requestId taskId file' = (Error "Task not found", file')).
Proof.
  intros Hreach Hr Ht. split; intros Hd; [by enter deleteTask; rewrite Hr, Ht, Hd|].
  cbv zeta.
  assert (Hr' : find_request requestId
                  (set_request file i (set_tasks req (delete j (req_tasks req))))
                = Some (i, set_tasks req (delete j (req_tasks req)))).
  { apply (find_request_set_request _ _ _ _ _ Hr). cbn. by eapply find_request_id. }
  assert (Ht' : find_task taskId (delete j (req_tasks req)) = None).
  { apply (find_task_delete _ _ _ task); [|done].
    apply numbered_request_NoDup. by eapply reachable_find_request_numbered. }
  split; [by enter deleteTask; rewrite Hr, Ht, Hd|]. split; [done|]. split; [done|].
  enter deleteTask. rewrite Hr'. cbn [set_tasks req_tasks]. by rewrite Ht'.
Qed.

Lemma deleteTask_outcomes_witness :
  reachable file_two_tasks
  /\ find_request "req-1" file_two_tasks = Some (0%nat, request_two_tasks)
  /\ find_task "req-req-1-task-2" (req_tasks request_two_tasks) = Some (1%nat, task_b)
  /\ task_done task_b = false
  /\ deleteTask "req-1" "req-req-1-task-2" file_two_tasks
     = (TaskDeleted,
        set_request file_two_tasks 0
          (set_tasks request_two_tasks (delete 1%nat (req_tasks request_two_tasks)))).
Proof.
  assert (H0 : reachable file_two_tasks) by (apply reachable_run; constructor).
  assert (H1 : find_request "req-1" file_two_tasks = Some (0%nat, request_two_tasks))
    by (vm_compute; reflexivity).
  assert (H2 : find_task "req-req-1-task-2" (req_tasks request_two_tasks)
               = Some (1%nat, task_b)) by (vm_compute; reflexivity).
  split; [exact H0|]. split; [exact H1|]. split; [exact H2|]. split; [reflexivity|].
  exact (proj1 (proj2 (deleteTask_outcomes "req-1" "req-req-1-task-2" file_two_tasks
                         0%nat request_two_tasks 1%nat task_b H0 H1 H2) eq_refl)).
Defined.

(** ** Request identifiers *)

Lemma parseInt10_uint d :
  d <> Nil ->
  JS.parseInt (NilEmpty.string_of_uint d) (Some 10%N)
  = match JS.parse_digits 10 None (NilEmpty.string_of_uint d) with
    | Some n => Some (Z.of_N n)
    | None => None
    end.
Proof.
  intros Hd. destruct d as [|d|d|d|d|d|d|d|d|d|d]; [done|..]; try reflexivity.
  destruct d; reflexivity.
Qed.

Lemma parseInt10_positive p :
  JS.parseInt (JS.Number_toString (Z.pos p)) (Some 10%N) = Some (Z.pos p).
Proof.
  unfold JS.Number_toString. cbn [Z.to_int NilEmpty.string_of_int].
  rewrite parseInt10_uint by apply Unsigned.to_uint_nonnil.
  by rewrite parse_digits_positive.
Qed.

Lemma requestNumber_request_id n req :
  0 < n -> req_requestId req = request_id_of n -> requestNumber req = Some n.
Proof.
  intros Hn Hid. unfold requestNumber. rewrite Hid. destruct n as [|p|p]; [lia| |lia].
  change (JS.replace (request_id_of (Z.pos p)) "req-" EmptyString)
    with (JS.Number_toString (Z.pos p)).
  apply parseInt10_positive.
Qed.

Lemma request_id_of_inj n m :
  0 < n -> 0 < m -> request_id_of n = request_id_of m -> n = m.
Proof.
  intros Hn Hm Heq.
  pose proof (requestNumber_request_id n (mkRequest (request_id_of n) "" "" [] false)
                Hn eq_refl) as H1.
  pose proof (requestNumber_request_id m (mkRequest (request_id_of n) "" "" [] false)
                Hm Heq) as H2.
  congruence.
Qed.

Lemma consecutive_snoc start n :
  consecutive start (S n) = consecutive start n ++ [start + Z.of_nat n].
Proof.
  revert start. induction n as [|n IH]; intros start.
  - cbn. f_equal. lia.
  - change (consecutive start (S (S n)))
      with (start :: consecutive (start + 1) (S n)).
    rewrite IH. cbn [consecutive app]. do 3 f_equal. lia.
Qed.

Lemma consecutive_upper start n :
  Forall (fun k => k < start + Z.of_nat n) (consecutive start n).
Proof.
  revert start. induction n as [|n IH]; intros start; cbn [consecutive]; constructor;
    [lia|].
  eapply Forall_impl; [apply IH|]. intros k Hk. simpl in Hk. lia.
Qed.

Lemma fold_left_max_consecutive a n :
  fold_left Z.max (consecutive (a + 1) n) a = a + Z.of_nat n.
Proof.
  revert a. induction n as [|n IH]; intros a; cbn [consecutive fold_left]; [lia|].
  replace (Z.max a (a + 1)) with (a + 1) by lia. rewrite IH. lia.
Qed.

Lemma omap_requestNumber reqs start n :
  0 < start ->
  map req_requestId reqs = map request_id_of (consecutive start n) ->
  omap requestNumber reqs = consecutive start n.
Proof.
  revert start reqs. induction n as [|n IH]; intros start reqs Hs Hids.
  - by destruct reqs.
  - destruct reqs as [|r reqs]; [done|]. cbn [consecutive map] in Hids.
    injection Hids as Hid Hids. cbn [omap list_omap consecutive].
    rewrite (requestNumber_request_id start r Hs Hid). f_equal.
    apply IH; [lia|done].
Qed.

Lemma sequential_requestCounter file :
  sequential file ->
  requestCounter (loadTasks file) = Z.of_nat (length (requests file)).
Proof.
  intros Hseq. unfold loadTasks. cbn [requestCounter]. unfold allRequestIds.
  rewrite (omap_requestNumber _ 1 _ ltac:(lia) Hseq).
  destruct (length (requests file)) as [|k]; [done|].
  cbn [consecutive JS.Math_max]. rewrite (fold_left_max_consecutive 1 k). lia.
Qed.

Lemma effect_sequential file file' :
  effect file file' -> sequential file -> sequential file'.
Proof.
  intros Heff Hseq. pose proof (sequential_requestCounter file Hseq) as Hcnt.
  unfold sequential in *.
  assert (Hins : forall i req req',
            requests file !! i = Some req -> req_requestId req' = req_requestId req ->
            map req_requestId (<[i := req']> (requests file))
            = map request_id_of (consecutive 1 (length (<[i := req']> (requests file))))).
  { intros i req req' Hi Hid. rewrite length_insert, <- Hseq.
    change (map req_requestId ?l) with (req_requestId <$> l).
    rewrite list_fmap_insert, Hid. apply list_insert_id.
    by rewrite list_lookup_fmap, Hi. }
  destruct Heff as [? [|i j req told t' Hi Hj He|i req Hi _|o sd defs|i req defs Hi _
                      |i req j t Hi _ _]|].
  - done.
  - rewrite (set_task_as_set_request _ _ _ _ _ Hi). by apply (Hins i req).
  - by apply (Hins i req).
  - cbn [requests]. rewrite length_app, Nat.add_comm. cbn [length Nat.add].
    rewrite consecutive_snoc, !map_app, <- Hseq. cbn [map req_requestId].
    rewrite Hcnt. do 3 f_equal. lia.
  - by apply (Hins i req).
  - by apply (Hins i req).
  - done.
Qed.

Lemma reachable_sequential file : reachable file -> sequential file.
Proof.
  apply (reachable_effect_ind sequential); [done|].
  intros f f' _ Hseq Heff. by eapply effect_sequential.
Qed.

Lemma consecutive_lookup start n j :
  (j < n)%nat -> consecutive start n !! j = Some (start + Z.of_nat j).
Proof.
  revert start j. induction n as [|n IH]; intros start j Hj; [lia|].
  destruct j as [|j]; cbn [consecutive lookup list_lookup].
  - f_equal. lia.
  - change (consecutive (start + 1) n !! j = Some (start + Z.of_nat (S j))).
    rewrite IH by lia. f_equal. lia.
Qed.

Lemma sequential_lookup file j req :
  sequential file -> requests file !! j = Some req ->
  req_requestId req = request_id_of (Z.of_nat j + 1).
Proof.
  intros Hseq Hj. pose proof (lookup_lt_Some _ _ _ Hj) as Hlt.
  assert (H : (req_requestId <$> requests file) !! j = Some (req_requestId req))
    by (by rewrite list_lookup_fmap, Hj).
  change (req_requestId <$> requests file) with (map req_requestId (requests file)) in H.
  rewrite Hseq in H. change (map request_id_of ?l) with (request_id_of <$> l) in H.
  rewrite list_lookup_fmap, (consecutive_lookup 1 _ j Hlt) in H.
  cbn [fmap option_fmap option_map] in H. injection H as <-. f_equal. lia.
Qed.

Lemma sequential_find_request file j req :
  sequential file -> requests file !! j = Some req ->
  find_request (request_id_of (Z.of_nat j + 1)) file = Some (j, req).
Proof.
  intros Hseq Hj. apply list_find_Some. split; [done|].
  split; [exact (sequential_lookup file j req Hseq Hj)|].
  intros m y Hm Hlt Hy. rewrite (sequential_lookup file m y Hseq Hm) in Hy.
  apply request_id_of_inj in Hy; lia.
Qed.

(** X7.  In every document reachable from the empty one the request
    identifiers are [req-1], [req-2], ... in stored order, so the m-th
    request is the one found under [req-m]; and [requestPlanning] appends
    a request whose identifier is the next number, with its tasks numbered
    from 1, not completed, which is then found under that identifier. *)
Theorem request_ids_sequential file :
  reachable file ->
  map req_requestId (requests file)
  = map request_id_of (consecutive 1 (length (requests file)))
  /\ (forall j req,
        requests file !! j = Some req ->
        find_request (request_id_of (Z.of_nat j + 1)) file = Some (j, req))
  /\ forall originalRequest tasks splitDetails,
       let n := Z.of_nat (length (requests file)) + 1 in
       let req :=
         mkRequest (request_id_of n) originalRequest
           (or_string splitDetails originalRequest)
           (number_tasks (request_id_of n) 1 tasks) false in
       let file' := snd (requestPlanning originalRequest tasks splitDetails file) in
       file' = mkFile (requests file ++ [req])
       /\ find_request (request_id_of n) file' = Some (length (requests file), req).
Proof.
  intros Hreach. pose proof (reachable_sequential file Hreach) as Hseq.
  split; [exact Hseq|]. split; [intros j req; by apply sequential_find_request|].
  intros o tasks sd. cbv zeta.
  assert (Hfile : snd (requestPlanning o tasks sd file)
                  = mkFile (requests file
                            ++ [mkRequest
                                  (request_id_of (Z.of_nat (length (requests file)) + 1))
                                  o (or_string sd o)
                                  (number_tasks
                                     (request_id_of
                                        (Z.of_nat (length (requests file)) + 1)) 1 tasks)
                                  false])).
  { enter requestPlanning. cbn [snd saveTasks].
    by rewrite (sequential_requestCounter file Hseq). }
  split; [exact Hfile|].
  assert (Hreach' : reachable (snd (requestPlanning o tasks sd file))).
  { exact (reachable_call (request_planning o tasks sd) file Hreach). }
  pose proof (sequential_find_request _ (length (requests file))
                (mkRequest (request_id_of (Z.of_nat (length (requests file)) + 1))
                   o (or_string sd o)
                   (number_tasks (request_id_of (Z.of_nat (length (requests file)) + 1))
                      1 tasks) false)
                (reachable_sequential _ Hreach')) as H.
  apply H. rewrite Hfile. cbn [requests].
  by rewrite lookup_app_r, Nat.sub_diag.
Qed.

Lemma request_ids_sequential_witness :
  reachable file_two_tasks
  /\ find_request (request_id_of 2)
       (snd (requestPlanning "next" [sample_def "c"] None file_two_tasks))
     = Some (1%nat,
             mkRequest (request_id_of 2) "next" "next"
               (number_tasks (request_id_of 2) 1 [sample_def "c"]) false).
Proof.
  assert (H0 : reachable file_two_tasks) by (apply reachable_run; constructor).
  split; [exact H0|].
  exact (proj2 (proj2 (proj2 (request_ids_sequential file_two_tasks H0))
                  "next" [sample_def "c"] None)).
Defined.

(** ** Task identifiers across the whole document *)

Lemma task_id_of_inj n m k k' :
  0 < n -> 0 < m -> 0 < k -> 0 < k' ->
  task_id_of (request_id_of n) k = task_id_of (request_id_of m) k' ->
  n = m /\ k = k'.
Proof.
  intros Hn Hm Hk Hk' Heq. split.
  - pose proof (f_equal (fun s => JS.split s "-task-") Heq) as Hs. cbn beta in Hs.
    rewrite !split_task_id in Hs. cbn [app] in Hs. injection Hs as Hs _.
    apply request_id_of_inj; [done..|]. unfold request_id_of. by rewrite Hs.
  - rewrite <- (taskNumberOf_task_id n k Hk), <- (taskNumberOf_task_id m k' Hk').
    by rewrite Heq.
Qed.

Lemma numbered_task_id req j t :
  numbered_request req -> req_tasks req !! j = Some t ->
  exists k, 0 < k /\ task_id t = task_id_of (req_requestId req) k
            /\ task_numbers req !! j = Some k.
Proof.
  intros Hreq Hj. destruct (numbered_request_sorted req Hreq) as (_ & Hp & Hids).
  assert (H : (task_id <$> req_tasks req) !! j = Some (task_id t))
    by (by rewrite list_lookup_fmap, Hj).
  change (task_id <$> req_tasks req) with (map task_id (req_tasks req)) in H.
  rewrite Hids in H.
  change (map (task_id_of (req_requestId req)) ?l)
    with (task_id_of (req_requestId req) <$> l) in H.
  rewrite list_lookup_fmap in H.
  destruct (task_numbers req !! j) as [k|] eqn:Hk; [|done].
  cbn [fmap option_fmap option_map] in H. injection H as H. exists k.
  split; [exact (Forall_lookup_1 _ _ _ _ Hp Hk)|]. by split.
Qed.

Lemma reachable_task_id_unique file i j req t i' j' req' t' :
  reachable file ->
  requests file !! i = Some req -> req_tasks req !! j = Some t ->
  requests file !! i' = Some req' -> req_tasks req' !! j' = Some t' ->
  task_id t = task_id t' ->
  i = i' /\ j = j'.
Proof.
  intros Hreach Hi Hj Hi' Hj' Heq.
  pose proof (reachable_sequential file Hreach) as Hseq.
  pose proof (reachable_numbered file Hreach) as Hnum.
  pose proof (Forall_lookup_1 _ _ _ _ Hnum Hi) as Hreq.
  pose proof (Forall_lookup_1 _ _ _ _ Hnum Hi') as Hreq'.
  destruct (numbered_task_id req j t Hreq Hj) as (k & Hk & Hid & Hkj).
  destruct (numbered_task_id req' j' t' Hreq' Hj') as (k' & Hk' & Hid' & Hkj').
  rewrite (sequential_lookup file i req Hseq Hi) in Hid.
  rewrite (sequential_lookup file i' req' Hseq Hi') in Hid'.
  rewrite Hid, Hid' in Heq.
  apply task_id_of_inj in Heq as [Hii ->]; [|lia..].
  assert (i = i') as -> by lia. split; [done|].
  assert (req = req') as -> by congruence.
  destruct (numbered_request_sorted req' Hreq') as (Hs & _ & _).
  exact (NoDup_lookup _ _ _ _ (StronglySorted_lt_NoDup _ Hs) Hkj Hkj').
Qed.

Lemma find_bool_decide {A} (P : A -> Prop) `{!forall x, Decision (P x)} (l : list A) :
  List.find (fun x => bool_decide (P x)) l = snd <$> list_find P l.
Proof.
  induction l as [|x l IH]; [done|]. cbn [List.find list_find].
  destruct (decide (P x)) as [Hx|Hx].
  - by rewrite bool_decide_eq_true_2.
  - rewrite bool_decide_eq_false_2 by done. rewrite IH.
    by destruct (list_find P l) as [[m y]|].
Qed.

Lemma openTaskDetails_loop_locate taskId reqs n :
  openTaskDetails_loop taskId reqs
  = match locate_task taskId n reqs with
    | Some (ri, _, t) =>
        match reqs !! (ri - n)%nat with
        | Some req => TaskDetails req t
        | None => TaskNotFound
        end
    | None => TaskNotFound
    end.
Proof.
  revert n. induction reqs as [|r reqs IH]; intros n; [done|].
  cbn [openTaskDetails_loop locate_task].
  rewrite (find_bool_decide (fun t => task_id t = taskId)). unfold find_task.
  destruct (list_find _ (req_tasks r)) as [[j t]|] eqn:E; cbn [fmap option_fmap option_map snd].
  - by rewrite Nat.sub_diag.
  - rewrite (IH (S n)).
    destruct (locate_task taskId (S n) reqs) as [[[ri ti] t]|] eqn:El; [|done].
    destruct (locate_task_lookup _ _ _ _ _ _ El) as (_ & Hle & _).
    by replace (ri - n)%nat with (S (ri - S n)) by lia.
Qed.

Lemma locate_task_first taskId reqs i j req t :
  reqs !! i = Some req ->
  find_task taskId (req_tasks req) = Some (j, t) ->
  (forall m r, (m < i)%nat -> reqs !! m = Some r -> find_task taskId (req_tasks r) = None) ->
  forall n, locate_task taskId n reqs = Some ((n + i)%nat, j, t).
Proof.
  revert i. induction reqs as [|r reqs IH]; intros i Hi Hf Hmin n; [done|].
  cbn [locate_task]. destruct i as [|i].
  - injection Hi as ->. by rewrite Hf, Nat.add_0_r.
  - rewrite (Hmin 0%nat r) by (done || lia).
    rewrite (IH i Hi Hf); [by rewrite Nat.add_succ_r|].
    intros m r' Hm Hr'. apply (Hmin (S m)); [lia|done].
Qed.

Lemma reachable_locate_task file requestId taskId i req j t :
  reachable file ->
  find_request requestId file = Some (i, req) ->
  find_task taskId (req_tasks req) = Some (j, t) ->
  locate_task taskId 0 (requests file) = Some (i, j, t).
Proof.
  intros Hreach Hr Ht. pose proof (find_request_lookup _ _ _ _ Hr) as Hi.
  apply (locate_task_first taskId (requests file) i j req t Hi Ht).
  intros m r Hm Hr'.
  destruct (find_task taskId (req_tasks r)) as [[j' t']|] eqn:E; [|done].
  destruct (reachable_task_id_unique file m j' r t' i j req t Hreach Hr'
              (find_task_lookup _ _ _ _ E) Hi (find_task_lookup _ _ _ _ Ht)); [|lia].
  by rewrite (find_task_id _ _ _ _ E), (find_task_id _ _ _ _ Ht).
Qed.

(** X8.  In every document reachable from the empty one a task
    identifier occurs at most once in the whole document.  So the search
    by task identifier alone (the loop of [openTaskDetails] and of
    [manageSubtasks]) finds the same task, at the same place, as the
    search by request and task identifier that the other tools use. *)
Theorem task_ids_unique file :
  reachable file ->
  (forall i j req t i' j' req' t',
     requests file !! i = Some req -> req_tasks req !! j = Some t ->
     requests file !! i' = Some req' -> req_tasks req' !! j' = Some t' ->
     task_id t = task_id t' -> i = i' /\ j = j')
  /\ forall requestId taskId i req j t,
       find_request requestId file = Some (i, req) ->
       find_task taskId (req_tasks req) = Some (j, t) ->
       locate_task taskId 0 (requests file) = Some (i, j, t)
       /\ openTaskDetails taskId file = (TaskDetails req t, file).
Proof.
  intros Hreach. split.
  - intros i j req t i' j' req' t'. by apply reachable_task_id_unique.
  - intros requestId taskId i req j t Hr Ht.
    pose proof (reachable_locate_task file requestId taskId i req j t Hreach Hr Ht) as Hl.
    split; [exact Hl|]. enter openTaskDetails.
    rewrite (openTaskDetails_loop_locate taskId (requests file) 0), Hl, Nat.sub_0_r.
    by rewrite (find_request_lookup _ _ _ _ Hr).
Qed.

Lemma task_ids_unique_witness :
  reachable file_two_tasks
  /\ openTaskDetails "req-req-1-task-2" file_two_tasks
     = (TaskDetails request_two_tasks task_b, file_two_tasks).
Proof.
  assert (H0 : reachable file_two_tasks) by (apply reachable_run; constructor).
  assert (H1 : find_request "req-1" file_two_tasks = Some (0%nat, request_two_tasks))
    by (vm_compute; reflexivity).
  assert (H2 : find_task "req-req-1-task-2" (req_tasks request_two_tasks)
               = Some (1%nat, task_b)) by (vm_compute; reflexivity).
  split; [exact H0|].
  exact (proj2 (proj2 (task_ids_unique file_two_tasks H0) "req-1" "req-req-1-task-2"
                  0%nat request_two_tasks 1%nat task_b H1 H2)).
Defined.

(* ===================================================================== *)
(** * Creating subtasks: [create] and [break_down] *)
(* ===================================================================== *)

Lemma built_from_build_subtask now spec taskId counter :
  built_from now spec
    (build_subtask spec (fst (subtask_id_or_generate (spec_id spec) taskId counter)) now).
Proof.
  repeat split. unfold subtask_id_or_generate, option_truthy. cbn [build_subtask sub_id].
  destruct (spec_id spec) as [s|]; [|done]. by intros ->.
Qed.

Lemma create_loop_spec existing taskId now specs :
  forall i c errs val c' errs' val',
    create_loop existing taskId now i specs c errs val = (c', errs', val') ->
    (length errs' + length val' = length errs + length val + length specs)%nat
    /\ (length errs <= length errs')%nat
    /\ (errs' = [] ->
        exists new,
          val' = val ++ new
          /\ Forall2 (built_from now) specs new
          /\ Forall (fun spec =>
                       validateUniqueContent existing (spec_content spec) None = true)
                    specs).
Proof.
  induction specs as [|spec specs IH]; intros i c errs val c' errs' val' H.
  { injection H as <- <- <-. split; [cbn; lia|]. split; [lia|]. intros _.
    exists []. by rewrite app_nil_r. }
  cbn [create_loop] in H. cbv zeta in H.
  destruct (negb (is_nil (validateSubtaskData _ _))) eqn:E1.
  { apply IH in H as (Hlen & Hle & _). rewrite length_app in Hlen, Hle. cbn in *.
    split; [lia|]. split; [lia|]. intros ->. cbn in Hle. lia. }
  destruct (negb (validateUniqueContent existing (spec_content spec) None)) eqn:E2.
  { apply IH in H as (Hlen & Hle & _). rewrite length_app in Hlen, Hle. cbn in *.
    split; [lia|]. split; [lia|]. intros ->. cbn in Hle. lia. }
  pose proof (built_from_build_subtask now spec taskId c) as Hb.
  destruct (subtask_id_or_generate (spec_id spec) taskId c) as [sid c1].
  apply IH in H as (Hlen & Hle & Hok). rewrite length_app in Hlen. cbn in *.
  split; [lia|]. split; [lia|]. intros He.
  destruct (Hok He) as (new & -> & Hnew & Hu).
  exists (build_subtask spec sid now :: new). rewrite <- app_assoc.
  split; [done|]. split; [by constructor|]. constructor; [|done].
  by apply negb_false_iff in E2.
Qed.

Lemma break_down_loop_spec taskId now specs :
  forall i c errs val c' errs' val',
    break_down_loop taskId now i specs c errs val = (c', errs', val') ->
    (length errs' + length val' = length errs + length val + length specs)%nat
    /\ (length errs <= length errs')%nat
    /\ (errs' = [] -> exists new, val' = val ++ new /\ Forall2 (built_from now) specs new).
Proof.
  induction specs as [|spec specs IH]; intros i c errs val c' errs' val' H.
  { injection H as <- <- <-. split; [cbn; lia|]. split; [lia|]. intros _.
    exists []. by rewrite app_nil_r. }
  cbn [break_down_loop] in H. cbv zeta in H.
  destruct (negb (is_nil (validateSubtaskData _ _))) eqn:E1.
  { apply IH in H as (Hlen & Hle & _). rewrite length_app in Hlen, Hle. cbn in *.
    split; [lia|]. split; [lia|]. intros ->. cbn in Hle. lia. }
  pose proof (built_from_build_subtask now spec taskId c) as Hb.
  destruct (subtask_id_or_generate (spec_id spec) taskId c) as [sid c1].
  apply IH in H as (Hlen & Hle & Hok). rewrite length_app in Hlen. cbn in *.
  split; [lia|]. split; [lia|]. intros He.
  destruct (Hok He) as (new & -> & Hnew).
  exists (build_subtask spec sid now :: new). rewrite <- app_assoc.
  split; [done|]. by constructor.
Qed.

(** X9.  [create] with a non-empty list of items is all or nothing.
    Either at least one item is refused: then the answer is
    VALIDATION_FAILED with between one and as many errors as there are
    items, and nothing is stored, not even the valid items.  Or every item
    is accepted: then one subtask per item, in the order of the items, is
    appended after the subtasks the task already had (which are kept as
    they were), each built from its item, none of them with content that a
    subtask already stored had, and the count reported is the old count
    plus the number of items. *)
Theorem create_all_or_nothing now taskId specs file ri ti task :
  locate_task taskId 0 (requests file) = Some (ri, ti, task) ->
  specs <> [] ->
  let existing := default [] (task_subtasks task) in
  (exists errs,
     manageSubtasks now (create_args taskId specs) file
     = (ErrorCode "VALIDATION_FAILED" errs, file)
     /\ (1 <= length errs <= length specs)%nat)
  \/ (exists new,
        let subtasks' := existing ++ new in
        let pct := calculateCompletionPercentage subtasks' in
        manageSubtasks now (create_args taskId specs) file
        = (SubtasksCreated new pct (length existing + length specs),
           set_task file ri ti (set_subtasks task subtasks' pct))
        /\ Forall2 (built_from now) specs new
        /\ Forall (fun spec =>
                     validateUniqueContent existing (spec_content spec) None = true)
                  specs).
Proof.
  intros Hloc Hne. cbv zeta. unfold manageSubtasks, create_args. cbv zeta.
  cbn [p_taskId p_action]. change (data (loadTasks file)) with file. rewrite Hloc.
  unfold manage_create. cbn [p_subtasks p_taskId].
  destruct specs as [|s l]; [done|]. cbv zeta. change (data (loadTasks file)) with file.
  destruct (create_loop _ _ _ _ _ _ _ _) as [[c errs] val] eqn:E.
  apply create_loop_spec in E as (Hlen & _ & Hok).
  destruct errs as [|e errs].
  - right. destruct (Hok eq_refl) as (new & -> & Hnew & Hu). cbn [app] in *.
    exists new. cbn [is_nil negb]. split; [|done].
    rewrite length_app. cbn in Hlen. by rewrite Hlen.
  - left. exists (e :: errs). cbn [is_nil negb]. split; [done|]. cbn in *. lia.
Qed.

Lemma create_all_or_nothing_witness :
  locate_task "req-req-1-task-1" 0 (requests file_fix_bug) = Some (0%nat, 0%nat, task_fix_bug)
  /\ [sample_spec "Write docs" None] <> []
  /\ ((exists errs,
         manageSubtasks "2024-01-02T00:00:00.000Z"
           (create_args "req-req-1-task-1" [sample_spec "Write docs" None]) file_fix_bug
         = (ErrorCode "VALIDATION_FAILED" errs, file_fix_bug)
         /\ (1 <= length errs <= 1)%nat)
      \/ exists new,
           manageSubtasks "2024-01-02T00:00:00.000Z"
             (create_args "req-req-1-task-1" [sample_spec "Write docs" None]) file_fix_bug
           = (SubtasksCreated new
                (calculateCompletionPercentage ([subtask_fix_bug] ++ new)) 2,
              set_task file_fix_bug 0 0
                (set_subtasks task_fix_bug ([subtask_fix_bug] ++ new)
                   (calculateCompletionPercentage ([subtask_fix_bug] ++ new))))
           /\ Forall2 (built_from "2024-01-02T00:00:00.000Z")
                [sample_spec "Write docs" None] new
           /\ Forall (fun spec =>
                        validateUniqueContent [subtask_fix_bug] (spec_content spec) None
                        = true)
                     [sample_spec "Write docs" None]).
Proof.
  assert (H1 : locate_task "req-req-1-task-1" 0 (requests file_fix_bug)
               = Some (0%nat, 0%nat, task_fix_bug)) by (vm_compute; reflexivity).
  assert (H2 : [sample_spec "Write docs" None] <> []) by discriminate.
  split; [exact H1|]. split; [exact H2|].
  exact (create_all_or_nothing "2024-01-02T00:00:00.000Z" "req-req-1-task-1"
           [sample_spec "Write docs" None] file_fix_bug 0%nat 0%nat task_fix_bug H1 H2).
Defined.

Lemma omap_nil_iff {A B} (f : A -> option B) (l : list A) :
  omap f l = [] <-> Forall (fun x => f x = None) l.
Proof.
  induction l as [|x l IH]; [by split; [constructor|]|].
  cbn [omap list_omap]. destruct (f x) as [y|] eqn:E.
  - split; [done|]. intros H. apply Forall_cons_1 in H as [H _]. congruence.
  - rewrite IH. split; [by constructor|]. intros H. by apply Forall_cons_1 in H as [_ H].
Qed.

Lemma duplicateContents_nil_iff l :
  duplicateContents l = [] <-> NoDup (map lower_content l).
Proof.
  unfold duplicateContents. rewrite omap_nil_iff, Forall_lookup.
  change (map lower_content l) with (lower_content <$> l). rewrite NoDup_alt.
  split.
  - intros H i j x Hi Hj. rewrite list_lookup_fmap in Hi, Hj.
    destruct (l !! i) as [st|] eqn:Ei; [|done].
    destruct (l !! j) as [st'|] eqn:Ej; [|done].
    cbn [fmap option_fmap option_map] in Hi, Hj. injection Hi as Hi. injection Hj as Hj.
    pose proof (H i (i, st)) as H1. pose proof (H j (j, st')) as H2.
    rewrite list_lookup_imap, Ei in H1. rewrite list_lookup_imap, Ej in H2.
    specialize (H1 eq_refl). specialize (H2 eq_refl). cbn beta iota in H1, H2.
    case_bool_decide as E1; [|done]. case_bool_decide as E2; [|done].
    unfold first_index_same_content in E1, E2.
    unfold lower_content in Hi, Hj. subst x. rewrite Hj in *. congruence.
  - intros Hnd i [k st] Hi. rewrite list_lookup_imap in Hi.
    destruct (l !! i) as [st'|] eqn:Ei; [|done]. cbn in Hi. injection Hi as <- <-.
    rewrite bool_decide_eq_true_2; [done|]. unfold first_index_same_content.
    destruct (list_find _ l) as [[j y]|] eqn:Ef.
    + cbn. f_equal. apply list_find_Some in Ef as (Hj & Hy & _).
      apply (Hnd j i (lower_content st')); rewrite list_lookup_fmap.
      * rewrite Hj. cbn. by f_equal.
      * by rewrite Ei.
    + apply list_find_None in Ef. rewrite Forall_lookup in Ef. by destruct (Ef i st' Ei).
Qed.

Lemma built_from_lower_content now specs new :
  Forall2 (built_from now) specs new ->
  map lower_content new = map (fun spec => JS.toLowerCase (spec_content spec)) specs.
Proof.
  induction 1 as [|spec st specs new (Hc & _) _ IH]; [done|].
  cbn [map]. unfold lower_content at 1. by rewrite Hc, IH.
Qed.

(** X10.  [break_down] with a non-empty list of items.  More than 50
    items are refused (TOO_MANY_SUBTASKS).  Otherwise either some item is
    invalid (VALIDATION_FAILED, one error per invalid item), or two items
    have the same content up to letter case (DUPLICATE_CONTENT), in both
    cases without any change; or the subtasks of the task are replaced,
    whatever they were, by one subtask per item in the order of the items,
    whose contents are pairwise different up to letter case. *)
Theorem break_down_outcomes now taskId specs file ri ti task :
  locate_task taskId 0 (requests file) = Some (ri, ti, task) ->
  specs <> [] ->
  let contents := map (fun spec => JS.toLowerCase (spec_content spec)) specs in
  ((50 < length specs)%nat ->
     manageSubtasks now (break_down_args taskId specs) file
     = (ErrorCode "TOO_MANY_SUBTASKS" [], file))
  /\ ((length specs <= 50)%nat ->
      (exists errs,
         manageSubtasks now (break_down_args taskId specs) file
         = (ErrorCode "VALIDATION_FAILED" errs, file)
         /\ (1 <= length errs <= length specs)%nat)
      \/ (manageSubtasks now (break_down_args taskId specs) file
          = (ErrorCode "DUPLICATE_CONTENT" [], file)
          /\ ~ NoDup contents)
      \/ (exists new,
            let pct := calculateCompletionPercentage new in
            manageSubtasks now (break_down_args taskId specs) file
            = (TaskBrokenDown new pct, set_task file ri ti (set_subtasks task new pct))
            /\ Forall2 (built_from now) specs new
            /\ NoDup contents)).
Proof.
  intros Hloc Hne. cbv zeta.
  assert (Hshape : manageSubtasks now (break_down_args taskId specs) file
                   = manage_break_down now (break_down_args taskId specs)
                       (loadTasks file) ri ti task file).
  { unfold manageSubtasks, break_down_args. cbv zeta. cbn [p_taskId p_action].
    change (data (loadTasks file)) with file. by rewrite Hloc. }
  rewrite Hshape. unfold manage_break_down, break_down_args. cbn [p_subtasks p_taskId].
  destruct specs as [|s l]; [done|]. cbv zeta. change (data (loadTasks file)) with file.
  split; intros Hlen.
  { apply Nat.ltb_lt in Hlen. by rewrite Hlen. }
  apply Nat.ltb_ge in Hlen. rewrite Hlen.
  destruct (break_down_loop _ _ _ _ _ _ _) as [[c errs] val] eqn:E.
  apply break_down_loop_spec in E as (Hl & _ & Hok).
  destruct errs as [|e errs].
  - destruct (Hok eq_refl) as (new & -> & Hnew). cbn [app is_nil negb] in *.
    rewrite <- (built_from_lower_content now _ _ Hnew).
    destruct (duplicateContents new) as [|d ds] eqn:Ed.
    + right. right. exists new. cbn [is_nil negb]. split; [done|]. split; [done|].
      by apply duplicateContents_nil_iff.
    + right. left. cbn [is_nil negb]. split; [done|].
      intros Hnd. apply duplicateContents_nil_iff in Hnd. congruence.
  - left. exists (e :: errs). cbn [is_nil negb]. split; [done|]. cbn in *. lia.
Qed.

Lemma break_down_outcomes_witness :
  locate_task "req-req-1-task-1" 0 (requests file_fix_bug) = Some (0%nat, 0%nat, task_fix_bug)
  /\ [sample_spec "Write docs" None; sample_spec "write DOCS" None] <> []
  /\ (length [sample_spec "Write docs" None; sample_spec "write DOCS" None] <= 50)%nat
  /\ manageSubtasks "2024-01-02T00:00:00.000Z"
       (break_down_args "req-req-1-task-1"
          [sample_spec "Write docs" None; sample_spec "write DOCS" None]) file_fix_bug
     = (ErrorCode "DUPLICATE_CONTENT" [], file_fix_bug).
Proof.
  assert (H1 : locate_task "req-req-1-task-1" 0 (requests file_fix_bug)
               = Some (0%nat, 0%nat, task_fix_bug)) by (vm_compute; reflexivity).
  assert (H2 : [sample_spec "Write docs" None; sample_spec "write DOCS" None] <> [])
    by discriminate.
  assert (H3 : (length [sample_spec "Write docs" None; sample_spec "write DOCS" None]
                <= 50)%nat) by (cbn; lia).
  split; [exact H1|]. split; [exact H2|]. split; [exact H3|].
  destruct (proj2 (break_down_outcomes "2024-01-02T00:00:00.000Z" "req-req-1-task-1"
                     [sample_spec "Write docs" None; sample_spec "write DOCS" None]
                     file_fix_bug 0%nat 0%nat task_fix_bug H1 H2) H3)
    as [(errs & He & _)|[[Hd _]|(new & Hn & _)]].
  - vm_compute in He. discriminate He.
  - exact Hd.
  - vm_compute in Hn. discriminate Hn.
Defined.

(** ** Generated subtask identifiers *)

Lemma strip_prefix_Some p s rest : JS.strip_prefix p s = Some rest -> s = p +:+ rest.
Proof.
  revert s. induction p as [|a p IH]; intros s H; cbn in H; [by injection H as ->|].
  destruct s as [|b s]; [done|]. destruct (Ascii.eqb a b) eqn:E; [|done].
  apply Ascii.eqb_eq in E as ->. cbn. f_equal. by apply IH.
Qed.

Lemma strip_prefix_append p s : JS.strip_prefix p (p +:+ s) = Some s.
Proof. induction p as [|a p IH]; cbn; [done|]. by rewrite Ascii.eqb_refl. Qed.

Lemma all_digits_dash u d : JS.all_digits (u +:+ String "-" d) = false.
Proof.
  induction u as [|c u IH]; cbn; [done|]. rewrite IH. by destruct (JS.is_digit c).
Qed.

Lemma append_suffix p rest w z :
  p +:+ rest = w +:+ z -> (String.length p <= String.length w)%nat ->
  exists u, rest = u +:+ z.
Proof.
  revert w. induction p as [|a p IH]; intros w H Hlen; cbn in H; [by exists w|].
  destruct w as [|b w]; [cbn in Hlen; lia|]. cbn in H. injection H as _ H.
  apply (IH w H). cbn in Hlen. lia.
Qed.

Lemma string_length_append s1 s2 :
  String.length (s1 +:+ s2) = (String.length s1 + String.length s2)%nat.
Proof. induction s1 as [|c s1 IH]; cbn; [done|]. by rewrite IH. Qed.

Lemma match_suffix_digits_here marker s rest :
  JS.strip_prefix marker s = Some rest ->
  JS.truthy rest && JS.all_digits rest = true ->
  JS.match_suffix_digits marker s = Some rest.
Proof. intros H1 H2. destruct s; cbn [JS.match_suffix_digits]; by rewrite H1, H2. Qed.

Lemma match_suffix_digits_generated taskId d :
  JS.truthy d = true -> JS.all_digits d = true ->
  JS.match_suffix_digits "-subtask-" (taskId +:+ "-subtask-" +:+ d) = Some d.
Proof.
  intros Ht Hd. induction taskId as [|c taskId IH].
  - change (EmptyString +:+ "-subtask-" +:+ d) with ("-subtask-" +:+ d).
    apply match_suffix_digits_here; [apply strip_prefix_append|by rewrite Ht, Hd].
  - change (String c taskId +:+ "-subtask-" +:+ d)
      with (String c (taskId +:+ "-subtask-" +:+ d)).
    cbn [JS.match_suffix_digits].
    destruct (JS.strip_prefix "-subtask-" (String c (taskId +:+ "-subtask-" +:+ d)))
      as [rest|] eqn:E; [|exact IH].
    apply strip_prefix_Some in E.
    assert (Hrest : exists u, rest = u +:+ String "-" d).
    { apply (append_suffix "-subtask-" rest (String c taskId +:+ "-subtask")).
      - rewrite <- E, append_assoc. reflexivity.
      - rewrite string_length_append. cbn. lia. }
    destruct Hrest as [u ->]. rewrite all_digits_dash, andb_false_r. exact IH.
Qed.

Lemma all_digits_uint d : JS.all_digits (NilEmpty.string_of_uint d) = true.
Proof. induction d; cbn; [done|exact IHd..]. Qed.

Lemma truthy_uint d : d <> Nil -> JS.truthy (NilEmpty.string_of_uint d) = true.
Proof. by destruct d. Qed.

Lemma subtaskNumber_generated taskId k st :
  0 < k -> sub_id st = subtask_id_of taskId k -> subtaskNumber st = Some k.
Proof.
  intros Hk Hid. unfold subtaskNumber. rewrite Hid. unfold subtask_id_of.
  destruct k as [|p|p]; [lia| |lia].
  rewrite match_suffix_digits_generated.
  - apply parseInt10_positive.
  - apply truthy_uint, Unsigned.to_uint_nonnil.
  - apply all_digits_uint.
Qed.

Lemma match_suffix_digits_digits marker s d :
  JS.match_suffix_digits marker s = Some d ->
  JS.truthy d = true /\ JS.all_digits d = true.
Proof.
  induction s as [|c s IH]; cbn [JS.match_suffix_digits].
  - destruct (JS.strip_prefix marker EmptyString) as [rest|]; [|done].
    destruct (JS.truthy rest && JS.all_digits rest) eqn:E; [|done].
    intros H. injection H as <-. by apply andb_true_iff in E.
  - destruct (JS.strip_prefix marker (String c s)) as [rest|]; [|exact IH].
    destruct (JS.truthy rest && JS.all_digits rest) eqn:E; [|exact IH].
    intros H. injection H as <-. by apply andb_true_iff in E.
Qed.

Lemma parseInt10_digit_head c d :
  JS.is_digit c = true ->
  JS.parseInt (String c d) (Some 10%N)
  = match JS.parse_digits 10 None (String c d) with
    | Some n => Some (Z.of_N n)
    | None => None
    end.
Proof.
  intros Hc.
  destruct c as [[] [] [] [] [] [] [] []]; try discriminate Hc;
    cbv -[JS.parse_digits Z.of_N]; try reflexivity; destruct d; reflexivity.
Qed.

Lemma parseInt10_digits_nonneg d z :
  JS.truthy d = true -> JS.all_digits d = true ->
  JS.parseInt d (Some 10%N) = Some z -> 0 <= z.
Proof.
  intros Ht Hd. destruct d as [|c d]; [done|]. cbn [JS.all_digits] in Hd.
  apply andb_true_iff in Hd as [Hc _]. rewrite (parseInt10_digit_head c d Hc).
  destruct (JS.parse_digits 10 None (String c d)); [|done].
  intros H. injection H as <-. lia.
Qed.

Lemma subtaskNumber_nonneg st z : subtaskNumber st = Some z -> 0 <= z.
Proof.
  unfold subtaskNumber.
  destruct (JS.match_suffix_digits "-subtask-" (sub_id st)) as [d|] eqn:E; [|done].
  apply match_suffix_digits_digits in E as [Ht Hd]. by apply parseInt10_digits_nonneg.
Qed.

Lemma omap_flat_map {A B C} (f : B -> option C) (g : A -> list B) (l : list A) :
  omap f (flat_map g l) = flat_map (fun x => omap f (g x)) l.
Proof.
  induction l as [|x l IH]; [done|]. cbn [flat_map]. by rewrite omap_app, IH.
Qed.

Lemma allTaskIds_all_subtasks file :
  allTaskIds file = omap subtaskNumber (all_subtasks file).
Proof.
  unfold allTaskIds, all_subtasks. rewrite omap_flat_map.
  induction (requests file) as [|req reqs IH]; [done|].
  cbn [flat_map]. by rewrite IH, omap_flat_map.
Qed.

Lemma taskCounter_bounds file :
  0 <= taskCounter (loadTasks file)
  /\ forall st z, st ∈ all_subtasks file -> subtaskNumber st = Some z ->
                  z <= taskCounter (loadTasks file).
Proof.
  unfold loadTasks. cbn [taskCounter]. rewrite allTaskIds_all_subtasks.
  pose proof (Math_max_ge (omap subtaskNumber (all_subtasks file))) as Hge.
  rewrite Forall_forall in Hge.
  assert (Hin : forall st z, st ∈ all_subtasks file -> subtaskNumber st = Some z ->
                             z ∈ omap subtaskNumber (all_subtasks file)).
  { intros st z Hst Hz. apply list_elem_of_omap. by exists st. }
  destruct (omap subtaskNumber (all_subtasks file)) as [|a l] eqn:E.
  - split; [done|]. intros st z Hst Hz. by destruct (not_elem_of_nil z (Hin st z Hst Hz)).
  - split.
    + assert (Ha : a ∈ omap subtaskNumber (all_subtasks file))
        by (rewrite E; apply elem_of_cons; by left).
      apply list_elem_of_omap in Ha as (st & _ & Hst).
      pose proof (subtaskNumber_nonneg st a Hst).
      pose proof (Hge a ltac:(apply elem_of_cons; by left)). lia.
    + intros st z Hst Hz. apply Hge. by eapply Hin.
Qed.

Lemma subtask_id_or_generate_no_id spec taskId c :
  no_id_given spec ->
  subtask_id_or_generate (spec_id spec) taskId c = (subtask_id_of taskId (c + 1), c + 1).
Proof.
  unfold no_id_given, option_truthy, subtask_id_or_generate.
  destruct (spec_id spec) as [s|]; [|done]. by intros ->.
Qed.

Lemma create_loop_ids existing taskId now specs :
  Forall no_id_given specs ->
  forall i c errs val c' errs' val',
    create_loop existing taskId now i specs c errs val = (c', errs', val') ->
    exists new,
      val' = val ++ new
      /\ map sub_id new = map (subtask_id_of taskId) (consecutive (c + 1) (length new)).
Proof.
  induction 1 as [|spec specs Hspec _ IH]; intros i c errs val c' errs' val' H.
  { injection H as <- <- <-. exists []. by rewrite app_nil_r. }
  cbn [create_loop] in H. cbv zeta in H.
  destruct (negb (is_nil (validateSubtaskData _ _))); [by eapply IH|].
  destruct (negb (validateUniqueContent existing (spec_content spec) None));
    [by eapply IH|].
  rewrite (subtask_id_or_generate_no_id spec taskId c Hspec) in H.
  apply IH in H as (new & -> & Hids).
  exists (build_subtask spec (subtask_id_of taskId (c + 1)) now :: new).
  rewrite <- app_assoc. split; [done|]. cbn [map length consecutive build_subtask sub_id].
  by rewrite Hids.
Qed.

Lemma break_down_loop_ids taskId now specs :
  Forall no_id_given specs ->
  forall i c errs val c' errs' val',
    break_down_loop taskId now i specs c errs val = (c', errs', val') ->
    exists new,
      val' = val ++ new
      /\ map sub_id new = map (subtask_id_of taskId) (consecutive (c + 1) (length new)).
Proof.
  induction 1 as [|spec specs Hspec _ IH]; intros i c errs val c' errs' val' H.
  { injection H as <- <- <-. exists []. by rewrite app_nil_r. }
  cbn [break_down_loop] in H. cbv zeta in H.
  destruct (negb (is_nil (validateSubtaskData _ _))); [by eapply IH|].
  rewrite (subtask_id_or_generate_no_id spec taskId c Hspec) in H.
  apply IH in H as (new & -> & Hids).
  exists (build_subtask spec (subtask_id_of taskId (c + 1)) now :: new).
  rewrite <- app_assoc. split; [done|]. cbn [map length consecutive build_subtask sub_id].
  by rewrite Hids.
Qed.

Lemma subtask_id_of_inj taskId k k' :
  0 < k -> 0 < k' -> subtask_id_of taskId k = subtask_id_of taskId k' -> k = k'.
Proof.
  intros Hk Hk' Heq.
  pose proof (subtaskNumber_generated taskId k
                (mkSubtask (subtask_id_of taskId k) "" pending "" None) Hk eq_refl) as H1.
  pose proof (subtaskNumber_generated taskId k'
                (mkSubtask (subtask_id_of taskId k) "" pending "" None) Hk' Heq) as H2.
  congruence.
Qed.

Lemma generated_ids_fresh file taskId n new :
  map sub_id new
  = map (subtask_id_of taskId) (consecutive (taskCounter (loadTasks file) + 1) n) ->
  NoDup (map sub_id new)
  /\ forall st, st ∈ all_subtasks file -> sub_id st ∉ map sub_id new.
Proof.
  intros ->. destruct (taskCounter_bounds file) as [H0 Hmax].
  pose proof (consecutive_lower (taskCounter (loadTasks file) + 1) n) as Hlow.
  rewrite Forall_forall in Hlow. split.
  - apply NoDup_fmap_2_strong.
    + intros k k' Hk Hk'. apply subtask_id_of_inj.
      * specialize (Hlow k Hk). cbn beta in Hlow. lia.
      * specialize (Hlow k' Hk'). cbn beta in Hlow. lia.
    + apply StronglySorted_lt_NoDup, consecutive_sorted.
  - intros st Hst Hin.
    change (map (subtask_id_of taskId) ?l) with (subtask_id_of taskId <$> l) in Hin.
    apply list_elem_of_fmap in Hin as (k & Hid & Hk).
    specialize (Hlow k Hk). cbn beta in Hlow.
    pose proof (Hmax st k Hst (subtaskNumber_generated taskId k st ltac:(lia) Hid)). lia.
Qed.

Lemma generated_ids_range taskId c n (new : list Subtask) :
  map sub_id new = map (subtask_id_of taskId) (consecutive (c + 1) (length new)) ->
  (length new <= n)%nat ->
  c + Z.of_nat n < 2 ^ 53 ->
  Forall (fun st => exists k, c < k < 2 ^ 53 /\ sub_id st = subtask_id_of taskId k) new.
Proof.
  intros Hids Hlen Hbound. apply Forall_lookup. intros i st Hi.
  pose proof (lookup_lt_Some _ _ _ Hi) as Hlt.
  assert (H : (sub_id <$> new) !! i = Some (sub_id st))
    by (by rewrite list_lookup_fmap, Hi).
  change (sub_id <$> new) with (map sub_id new) in H. rewrite Hids in H.
  change (map (subtask_id_of taskId) ?l) with (subtask_id_of taskId <$> l) in H.
  rewrite list_lookup_fmap, (consecutive_lookup (c + 1) _ i Hlt) in H.
  cbn [fmap option_fmap option_map] in H. injection H as H.
  exists (c + 1 + Z.of_nat i). split; [lia|done].
Qed.

(** X11.  When no item of the request carries an identifier of its own
    and the subtask counter stays below 2^53 (the range in which the
    program's binary64 counter counts exactly), the subtasks that [create]
    or [break_down] store get identifiers [<taskId>-subtask-<k>] with [k]
    above the counter that [loadTasks] computed; these identifiers are
    pairwise different and different from the identifier of every subtask
    stored anywhere in the document before the call. *)
Theorem generated_subtask_ids_fresh now params file :
  (forall specs, p_subtasks params = Some specs ->
     Forall no_id_given specs
     /\ taskCounter (loadTasks file) + Z.of_nat (length specs) < 2 ^ 53) ->
  let new := new_subtasks (fst (manageSubtasks now params file)) in
  NoDup (map sub_id new)
  /\ (forall st, st ∈ all_subtasks file -> sub_id st ∉ map sub_id new)
  /\ Forall (fun st => exists k,
                taskCounter (loadTasks file) < k < 2 ^ 53
                /\ sub_id st = subtask_id_of (p_taskId params) k) new.
Proof.
  intros Hspecs. cbv zeta.
  assert (Hnil : NoDup (map sub_id (@nil Subtask))
                 /\ (forall st, st ∈ all_subtasks file ->
                                sub_id st ∉ map sub_id (@nil Subtask))
                 /\ Forall (fun st => exists k,
                               taskCounter (loadTasks file) < k < 2 ^ 53
                               /\ sub_id st = subtask_id_of (p_taskId params) k) []).
  { split; [constructor|]. split; [|constructor]. intros st _. apply not_elem_of_nil. }
  assert (Hgen : forall n (new : list Subtask),
            map sub_id new
            = map (subtask_id_of (p_taskId params))
                  (consecutive (taskCounter (loadTasks file) + 1) (length new)) ->
            (length new <= n)%nat ->
            taskCounter (loadTasks file) + Z.of_nat n < 2 ^ 53 ->
            NoDup (map sub_id new)
            /\ (forall st, st ∈ all_subtasks file -> sub_id st ∉ map sub_id new)
            /\ Forall (fun st => exists k,
                          taskCounter (loadTasks file) < k < 2 ^ 53
                          /\ sub_id st = subtask_id_of (p_taskId params) k) new).
  { intros n new Hids Hlen Hbound.
    destruct (generated_ids_fresh file _ _ new Hids) as [Hnd Hfresh].
    split; [done|]. split; [done|]. by eapply generated_ids_range. }
  enter manageSubtasks.
  destruct (locate_task (p_taskId params) 0 (requests file)) as [[[ri ti] t]|];
    [|exact Hnil].
  destruct (p_action params).
  - unfold manage_create. cbv zeta.
    destruct (p_subtasks params) as [[|s l]|] eqn:Ep; [exact Hnil| |exact Hnil].
    destruct (Hspecs _ eq_refl) as [Hno Hbound].
    destruct (create_loop _ _ _ _ _ _ _ _) as [[c errs] val] eqn:E.
    destruct (negb (is_nil errs)); [exact Hnil|]. cbn [fst new_subtasks].
    pose proof (create_loop_spec _ _ _ _ _ _ _ _ _ _ _ E) as (Hlen & _ & _).
    apply (create_loop_ids _ _ _ _ Hno) in E as (new & -> & Hids).
    apply (Hgen (length (s :: l))); [done| |done]. cbn [app length] in *. lia.
  - unfold manage_update. cbv zeta. repeat case_match; exact Hnil.
  - unfold manage_complete. cbv zeta. repeat case_match; exact Hnil.
  - unfold manage_delete. cbv zeta. repeat case_match; exact Hnil.
  - unfold manage_break_down. cbv zeta.
    destruct (p_subtasks params) as [[|s l]|] eqn:Ep; [exact Hnil| |exact Hnil].
    destruct (Hspecs _ eq_refl) as [Hno Hbound].
    destruct (50 <? _)%nat; [exact Hnil|].
    destruct (break_down_loop _ _ _ _ _ _ _) as [[c errs] val] eqn:E.
    destruct (negb (is_nil errs)); [exact Hnil|].
    destruct (negb (is_nil (duplicateContents val))); [exact Hnil|].
    cbn [fst new_subtasks].
    pose proof (break_down_loop_spec _ _ _ _ _ _ _ _ _ _ E) as (Hlen & _ & _).
    apply (break_down_loop_ids _ _ _ Hno) in E as (new & -> & Hids).
    apply (Hgen (length (s :: l))); [done| |done]. cbn [app length] in *. lia.
Qed.

Lemma generated_subtask_ids_fresh_witness :
  (forall specs,
     p_subtasks (create_args "req-req-1-task-1"
                   [sample_spec "Write docs" None; sample_spec "Review" None])
     = Some specs ->
     Forall no_id_given specs
     /\ taskCounter (loadTasks file_fix_bug) + Z.of_nat (length specs) < 2 ^ 53)
  /\ map sub_id
       (new_subtasks
          (fst (manageSubtasks "2024-01-02T00:00:00.000Z"
                  (create_args "req-req-1-task-1"
                     [sample_spec "Write docs" None; sample_spec "Review" None])
                  file_fix_bug)))
     = ["req-req-1-task-1-subtask-2"; "req-req-1-task-1-subtask-3"]
  /\ NoDup (map sub_id
              (new_subtasks
                 (fst (manageSubtasks "2024-01-02T00:00:00.000Z"
                         (create_args "req-req-1-task-1"
                            [sample_spec "Write docs" None; sample_spec "Review" None])
                         file_fix_bug)))).
Proof.
  assert (H : forall specs,
             p_subtasks (create_args "req-req-1-task-1"
                           [sample_spec "Write docs" None; sample_spec "Review" None])
             = Some specs ->
             Forall no_id_given specs
             /\ taskCounter (loadTasks file_fix_bug) + Z.of_nat (length specs) < 2 ^ 53).
  { intros specs Hs. injection Hs as <-. split; [repeat constructor|].
    vm_compute. reflexivity. }
  split; [exact H|]. split; [vm_compute; reflexivity|].
  exact (proj1 (generated_subtask_ids_fresh "2024-01-02T00:00:00.000Z"
                  (create_args "req-req-1-task-1"
                     [sample_spec "Write docs" None; sample_spec "Review" None])
                  file_fix_bug H)).
Defined.

(* ===================================================================== *)
(** * What a call never undoes *)
(* ===================================================================== *)

Lemma same_but_subtasks_refl t : same_but_subtasks t t.
Proof. by destruct t. Qed.

(** X12.  A completed request is frozen.  In a reachable document, after
    any call other than [clear_all_tasks], a request whose [completed]
    flag is set is still stored at the same place with the same fields
    and the same tasks in the same order; a task of it can differ from
    what it was only in its subtasks and completion percentage. *)
Theorem completed_request_is_frozen c file i req :
  reachable file ->
  c <> clear_all_tasks ->
  requests file !! i = Some req ->
  req_completed req = true ->
  exists req',
    requests (snd (call c file)) !! i = Some req'
    /\ set_tasks req' (req_tasks req) = req
    /\ Forall2 same_but_subtasks (req_tasks req) (req_tasks req').
Proof.
  intros Hreach Hnc Hi Hc.
  assert (Hfinal : all_done_and_approved req).
  { assert (Hinv : Forall completed_is_final (requests file)).
    { revert Hreach. clear. revert file.
      apply reachable_effect_ind; [constructor|].
      intros file file' _ Hinv Heff. by eapply effect_completed_is_final. }
    exact (Forall_lookup_1 _ _ _ _ Hinv Hi Hc). }
  assert (Hsame : exists req',
             Some req = Some req' /\ set_tasks req' (req_tasks req) = req
             /\ Forall2 same_but_subtasks (req_tasks req) (req_tasks req')).
  { exists req. split; [done|]. split; [by destruct req|].
    apply Forall2_same_length_lookup_2; [done|]. intros m x y Hx Hy.
    assert (x = y) as -> by congruence. apply same_but_subtasks_refl. }
  destruct (call_edit c file Hnc)
    as [|i0 j req0 told t' Hi0 Hj He|i0 req0 Hi0 Hall|o sd defs|i0 req0 defs Hi0 Hc0
       |i0 req0 j t Hi0 Hj Hd]; cbn [requests set_task set_request].
  - by rewrite Hi.
  - destruct (decide (i0 = i)) as [->|Hne]; [|by rewrite list_lookup_alter_ne, Hi].
    assert (req0 = req) as -> by congruence.
    rewrite list_lookup_alter_eq, Hi. cbn [fmap option_fmap option_map].
    eexists. split; [reflexivity|]. cbn [set_tasks req_tasks]. split; [by destruct req|].
    destruct (Hfinal told) as [Hd Ha]; [by eapply list_elem_of_lookup_2|].
    apply Forall2_same_length_lookup_2; [by rewrite length_insert|].
    intros m x y Hx Hy. destruct (decide (m = j)) as [->|Hm].
    + rewrite list_lookup_insert_eq in Hy by (by eapply lookup_lt_Some).
      assert (x = told) as -> by congruence. injection Hy as <-.
      destruct He; try congruence. by destruct told.
    + rewrite list_lookup_insert_ne in Hy by done.
      assert (x = y) as -> by congruence. apply same_but_subtasks_refl.
  - destruct (decide (i0 = i)) as [->|Hne]; [|by rewrite list_lookup_insert_ne, Hi].
    assert (req0 = req) as -> by congruence.
    rewrite list_lookup_insert_eq by (by eapply lookup_lt_Some).
    eexists. split; [reflexivity|]. cbn [set_completed set_tasks req_tasks].
    split; [destruct req; cbn in *; by subst|].
    apply Forall2_same_length_lookup_2; [done|]. intros m x y Hx Hy.
    assert (x = y) as -> by congruence. apply same_but_subtasks_refl.
  - rewrite lookup_app_l by (by eapply lookup_lt_Some). by rewrite Hi.
  - destruct (decide (i0 = i)) as [->|Hne]; [congruence|].
    by rewrite list_lookup_insert_ne, Hi.
  - destruct (decide (i0 = i)) as [->|Hne]; [|by rewrite list_lookup_insert_ne, Hi].
    assert (req0 = req) as -> by congruence.
    destruct (Hfinal t) as [Hd' _]; [by eapply list_elem_of_lookup_2|]. congruence.
Qed.

Lemma completed_request_is_frozen_witness :
  reachable file_completed
  /\ update_task "req-1" "req-req-1-task-1" (Some "other") None <> clear_all_tasks
  /\ requests file_completed !! 0%nat = Some request_completed
  /\ req_completed request_completed = true
  /\ exists req',
       requests (snd (call (update_task "req-1" "req-req-1-task-1" (Some "other") None)
                        file_completed)) !! 0%nat = Some req'
       /\ set_tasks req' (req_tasks request_completed) = request_completed
       /\ Forall2 same_but_subtasks (req_tasks request_completed) (req_tasks req').
Proof.
  assert (H0 : reachable file_completed) by exact reachable_full_workflow.
  assert (H1 : update_task "req-1" "req-req-1-task-1" (Some "other") None
               <> clear_all_tasks) by discriminate.
  assert (H2 : requests file_completed !! 0%nat = Some request_completed)
    by (vm_compute; reflexivity).
  split; [exact H0|]. split; [exact H1|]. split; [exact H2|]. split; [reflexivity|].
  exact (completed_request_is_frozen
           (update_task "req-1" "req-req-1-task-1" (Some "other") None)
           file_completed 0%nat request_completed H0 H1 H2 eq_refl).
Defined.

Lemma task_edit_keeps told t' :
  task_edit told t' ->
  task_id t' = task_id told
  /\ (task_done told = true ->
      task_done t' = true
      /\ task_title t' = task_title told
      /\ task_description t' = task_description told
      /\ task_completedDetails t' = task_completedDetails told
      /\ (task_approved told = true -> task_approved t' = true)).
Proof. intros He. destruct He; cbn; split; try done; intros; congruence. Qed.

(** X13.  A done task is permanent.  In any document, after any call other
    than [clear_all_tasks], a task that was done is still in its request
    (the request is at the same place, under the same identifier, and
    still completed if it was), still done, with the same identifier,
    title, description and completion details, and still approved if it
    was approved. *)
Theorem done_task_is_permanent c file i req t :
  c <> clear_all_tasks ->
  requests file !! i = Some req ->
  t ∈ req_tasks req ->
  task_done t = true ->
  exists req' t',
    requests (snd (call c file)) !! i = Some req'
    /\ req_requestId req' = req_requestId req
    /\ (req_completed req = true -> req_completed req' = true)
    /\ t' ∈ req_tasks req'
    /\ task_id t' = task_id t
    /\ task_done t' = true
    /\ task_title t' = task_title t
    /\ task_description t' = task_description t
    /\ task_completedDetails t' = task_completedDetails t
    /\ (task_approved t = true -> task_approved t' = true).
Proof.
  intros Hnc Hi Ht Hd.
  assert (Hsame : forall req', req_requestId req' = req_requestId req ->
                    (req_completed req = true -> req_completed req' = true) ->
                    t ∈ req_tasks req' ->
                    exists req'' t',
                      Some req' = Some req''
                      /\ req_requestId req'' = req_requestId req
                      /\ (req_completed req = true -> req_completed req'' = true)
                      /\ t' ∈ req_tasks req''
                      /\ task_id t' = task_id t
                      /\ task_done t' = true
                      /\ task_title t' = task_title t
                      /\ task_description t' = task_description t
                      /\ task_completedDetails t' = task_completedDetails t
                      /\ (task_approved t = true -> task_approved t' = true)).
  { intros req' Hid Hc Hin. by exists req', t. }
  destruct (call_edit c file Hnc)
    as [|i0 j req0 told t' Hi0 Hj He|i0 req0 Hi0 Hall|o sd defs|i0 req0 defs Hi0 Hc0
       |i0 req0 j u Hi0 Hj Hu]; cbn [requests set_task set_request].
  - rewrite Hi. by apply Hsame.
  - destruct (decide (i0 = i)) as [->|Hne];
      [|rewrite list_lookup_alter_ne, Hi by done; by apply Hsame].
    assert (req0 = req) as -> by congruence.
    rewrite list_lookup_alter_eq, Hi. cbn [fmap option_fmap option_map].
    apply list_elem_of_lookup in Ht as [m Hm].
    destruct (decide (m = j)) as [->|Hmj].
    + assert (told = t) as -> by congruence.
      destruct (task_edit_keeps _ _ He) as [Hid Hk].
      destruct (Hk Hd) as (Hd' & Htitle & Hdesc & Hdet & Happ).
      exists (set_tasks req (<[j := t']> (req_tasks req))), t'.
      split; [done|]. split; [done|]. split; [done|]. split; [|done].
      cbn [set_tasks req_tasks]. apply list_elem_of_lookup. exists j.
      apply list_lookup_insert_eq. by eapply lookup_lt_Some.
    + apply Hsame; [done..|]. cbn [set_tasks req_tasks].
      apply list_elem_of_lookup. exists m. by rewrite list_lookup_insert_ne.
  - destruct (decide (i0 = i)) as [->|Hne];
      [|rewrite list_lookup_insert_ne, Hi by done; by apply Hsame].
    assert (req0 = req) as -> by congruence.
    rewrite list_lookup_insert_eq by (by eapply lookup_lt_Some). by apply Hsame.
  - rewrite lookup_app_l by (by eapply lookup_lt_Some). rewrite Hi. by apply Hsame.
  - destruct (decide (i0 = i)) as [->|Hne];
      [|rewrite list_lookup_insert_ne, Hi by done; by apply Hsame].
    assert (req0 = req) as -> by congruence.
    rewrite list_lookup_insert_eq by (by eapply lookup_lt_Some).
    apply Hsame; [done..|]. cbn [set_tasks req_tasks]. apply elem_of_app. by left.
  - destruct (decide (i0 = i)) as [->|Hne];
      [|rewrite list_lookup_insert_ne, Hi by done; by apply Hsame].
    assert (req0 = req) as -> by congruence.
    rewrite list_lookup_insert_eq by (by eapply lookup_lt_Some).
    apply Hsame; [done..|]. cbn [set_tasks req_tasks].
    apply list_elem_of_lookup in Ht as [m Hm].
    assert (m <> j) by (intros ->; congruence).
    apply list_elem_of_lookup.
    destruct (decide (m < j)%nat).
    + exists m. by rewrite list_lookup_delete_lt.
    + exists (m - 1)%nat. rewrite list_lookup_delete_ge by lia.
      by replace (S (m - 1)) with m by lia.
Qed.

Lemma done_task_is_permanent_witness :
  delete_task "req-1" "req-req-1-task-1" <> clear_all_tasks
  /\ requests file_two_tasks !! 0%nat = Some request_two_tasks
  /\ task_a_done ∈ req_tasks request_two_tasks
  /\ task_done task_a_done = true
  /\ exists req' t',
       requests (snd (call (delete_task "req-1" "req-req-1-task-1") file_two_tasks))
         !! 0%nat = Some req'
       /\ t' ∈ req_tasks req' /\ task_id t' = task_id task_a_done /\ task_done t' = true.
Proof.
  assert (H1 : delete_task "req-1" "req-req-1-task-1" <> clear_all_tasks) by discriminate.
  assert (H2 : requests file_two_tasks !! 0%nat = Some request_two_tasks)
    by (vm_compute; reflexivity).
  assert (H3 : task_a_done ∈ req_tasks request_two_tasks) by (apply elem_of_cons; by left).
  split; [exact H1|]. split; [exact H2|]. split; [exact H3|]. split; [reflexivity|].
  destruct (done_task_is_permanent (delete_task "req-1" "req-req-1-task-1")
              file_two_tasks 0%nat request_two_tasks task_a_done H1 H2 H3 eq_refl)
    as (req' & t' & Hr & _ & _ & Hin & Hid & Hd & _).
  exists req', t'. split; [exact Hr|]. split; [exact Hin|]. split; [exact Hid|exact Hd].
Defined.

(* ===================================================================== *)
(** * The [manage_subtasks] tool behind its schema *)
(* ===================================================================== *)

Lemma ManageSubtasksSchema_checked args d :
  ManageSubtasksSchema args = Some d -> schema_checked d.
Proof.
  unfold ManageSubtasksSchema. intros H.
  destruct (negb _); [done|].
  destruct (parse_optional _ (p_subtasks args)) as [subs|] eqn:Es; [|done].
  destruct (parse_optional UpdatesSchema (p_updates args)) as [upd|] eqn:Eu; [|done].
  destruct (action_refinement _) eqn:Ea; [|done]. injection H as <-.
  split; [exact Ea|]. cbn [p_subtasks p_updates]. split.
  - intros l ->. unfold parse_optional in Es.
    destruct (p_subtasks args) as [l0|]; [|done].
    destruct (length l0 <=? 50)%nat eqn:El; [|done].
    destruct (mapM SubtaskSchema l0) as [l'|] eqn:Em; [|done].
    injection Es as ->. apply mapM_Some in Em. apply Nat.leb_le in El.
    split; [by rewrite <- (Forall2_length _ _ _ Em)|].
    clear -Em. induction Em as [|x y l0 l Hxy _ IH]; [constructor|].
    constructor; [|done]. by apply SubtaskSchema_valid in Hxy as [_ ?].
  - intros u c -> Hc Ht. unfold parse_optional in Eu.
    destruct (p_updates args) as [u0|]; [|done].
    destruct (UpdatesSchema u0) as [u'|] eqn:Eu0; [|done]. injection Eu as ->.
    unfold UpdatesSchema in Eu0. destruct (upd_content u0) as [c0|] eqn:Ec0.
    + destruct (content_schema c0) as [c'|] eqn:Ec; [|done]. injection Eu0 as <-.
      cbn in Hc. injection Hc as ->.
      by destruct (content_schema_valid c0 c None Ec Ht).
    + injection Eu0 as <-. congruence.
Qed.

Lemma create_loop_checked existing taskId now specs :
  Forall (fun s => validateSubtaskData (Some (spec_content s)) (spec_status s) = []) specs ->
  forall i c errs val,
    Forall is_duplicate_item_error errs ->
    Forall is_duplicate_item_error
      (create_loop existing taskId now i specs c errs val).1.2.
Proof.
  induction 1 as [|spec specs Hv _ IH]; intros i c errs val Herrs; [done|].
  cbn [create_loop]. cbv zeta. rewrite Hv. cbn [is_nil negb].
  destruct (negb (validateUniqueContent existing (spec_content spec) None)).
  - apply IH. apply Forall_app. split; [done|]. constructor; [|constructor].
    by eexists _, _.
  - destruct (subtask_id_or_generate _ _ _) as [sid c1]. by apply IH.
Qed.

Lemma break_down_loop_checked taskId now specs :
  Forall (fun s => validateSubtaskData (Some (spec_content s)) (spec_status s) = []) specs ->
  forall i c errs val,
    (break_down_loop taskId now i specs c errs val).1.2 = errs.
Proof.
  induction 1 as [|spec specs Hv _ IH]; intros i c errs val; [done|].
  cbn [break_down_loop]. cbv zeta. rewrite Hv. cbn [is_nil negb].
  destruct (subtask_id_or_generate _ _ _) as [sid c1]. by apply IH.
Qed.

Lemma update_validation_checked subtasks st subtaskId u :
  (forall c, upd_content u = Some c -> JS.truthy c = true ->
             validateSubtaskData (Some c) None = []) ->
  Forall is_update_error (update_validation subtasks st subtaskId u).
Proof.
  intros Hc. unfold update_validation. apply Forall_app. split.
  - destruct (upd_content u) as [c|]; [|constructor].
    destruct (JS.truthy c) eqn:Et; [|constructor].
    rewrite (Hc c eq_refl Et). cbn [is_nil negb].
    destruct (negb _); constructor; [|constructor]. left. by eexists.
  - destruct (upd_status u) as [s|]; [|constructor].
    destruct (negb _); constructor; [|constructor]. right. by eexists _, _.
Qed.

Ltac in_codes :=
  unfold tool_error_codes; repeat (apply elem_of_cons; first [by left | right]).

Ltac error_leaf :=
  let H := fresh "H" in
  let Hc := fresh "Hc" in
  intros H; first
    [ discriminate H
    | injection H as <- <- <-;
      split; [in_codes|split; intros Hc; try discriminate Hc] ].

Lemma manageSubtasks_checked_errors now d file code errs file' :
  schema_checked d ->
  manageSubtasks now d file = (ErrorCode code errs, file') ->
  code ∈ tool_error_codes
  /\ (code = "VALIDATION_FAILED" ->
      p_action d = A_create /\ Forall is_duplicate_item_error errs)
  /\ (code = "UPDATE_VALIDATION_FAILED" -> Forall is_update_error errs).
Proof.
  intros (Href & Hsubs & Hupd). enter manageSubtasks.
  destruct (locate_task (p_taskId d) 0 (requests file)) as [[[ri ti] t]|];
    [|error_leaf].
  unfold action_refinement in Href.
  destruct (p_action d) eqn:Ea.
  - unfold manage_create. cbv zeta.
    destruct (p_subtasks d) as [[|s l]|] eqn:Ep; [done| |done].
    destruct (Hsubs _ eq_refl) as [_ Hvalid].
    pose proof (create_loop_checked (default [] (task_subtasks t)) (p_taskId d) now
                  (s :: l) Hvalid 0%nat (taskCounter (loadTasks file)) [] []
                  ltac:(constructor)) as Hdup.
    destruct (create_loop _ _ _ _ _ _ _ _) as [[c errs'] val].
    destruct (negb (is_nil errs')); error_leaf. by split.
  - unfold manage_update. cbv zeta.
    apply andb_true_iff in Href as [Hid Hu]. rewrite Hid. cbn [negb].
    destruct (p_updates d) as [u|] eqn:Eu; [|done].
    apply orb_true_iff in Hu.
    assert (Hgiven : negb (option_truthy (upd_content u))
                     && negb (bool_decide (is_Some (upd_status u))) = false).
    { destruct Hu as [->| ->]; [done|]. by rewrite andb_false_r. }
    rewrite Hgiven.
    destruct (task_subtasks t) as [subs|]; [|error_leaf].
    destruct (find_subtask _ subs) as [[k st]|]; [|error_leaf].
    pose proof (update_validation_checked subs st (default EmptyString (p_subtaskId d)) u
                  (fun c => Hupd u c eq_refl)) as Hval.
    destruct (negb (is_nil _)); error_leaf. exact Hval.
  - unfold manage_complete. cbv zeta. rewrite Href. cbn [negb].
    destruct (task_subtasks t) as [subs|]; [|error_leaf].
    destruct (find_subtask _ subs) as [[k st]|]; [|error_leaf].
    destruct (bool_decide (sub_status st = completed)); [error_leaf|].
    destruct (negb (validateStatusTransition _ _)); error_leaf.
  - unfold manage_delete. cbv zeta. rewrite Href. cbn [negb].
    destruct (task_subtasks t) as [subs|]; [|error_leaf].
    destruct (find_subtask _ subs) as [[k st]|]; [|error_leaf].
    destruct (bool_decide (sub_status st = completed)); error_leaf.
  - unfold manage_break_down. cbv zeta.
    destruct (p_subtasks d) as [[|s l]|] eqn:Ep; [done| |done].
    destruct (Hsubs _ eq_refl) as [Hlen Hvalid].
    apply Nat.leb_le in Hlen. rewrite Nat.ltb_antisym, Hlen. cbn [negb].
    pose proof (break_down_loop_checked (p_taskId d) now (s :: l) Hvalid 0%nat
                  (taskCounter (loadTasks file)) [] []) as Hnone.
    destruct (break_down_loop _ _ _ _ _ _ _) as [[c errs'] val].
    cbn in Hnone. subst errs'. cbn [is_nil negb].
    destruct (negb (is_nil (duplicateContents val))); error_leaf.
Qed.

(** X14.  Arguments that [ManageSubtasksSchema] refuses are answered by
    the handler itself (SCHEMA_VALIDATION_FAILED).  For the arguments it
    lets through, [manageSubtasks] can only fail with one of nine error
    codes: MISSING_SUBTASKS, MISSING_SUBTASK_ID, MISSING_UPDATES and
    TOO_MANY_SUBTASKS are never returned; VALIDATION_FAILED comes from
    [create] only, never from [break_down], and then every error reports
    a duplicate of a stored subtask; and UPDATE_VALIDATION_FAILED only
    reports a duplicate or a status transition, never invalid content. *)
Theorem manage_subtasks_tool_errors now args file code errs file' :
  manage_subtasks_tool now args file = (ErrorCode code errs, file') ->
  code ∈ tool_error_codes
  /\ (code = "VALIDATION_FAILED" ->
      p_action args = A_create /\ Forall is_duplicate_item_error errs)
  /\ (code = "UPDATE_VALIDATION_FAILED" -> Forall is_update_error errs).
Proof.
  unfold manage_subtasks_tool.
  destruct (ManageSubtasksSchema args) as [d|] eqn:E; [|discriminate].
  destruct (ManageSubtasksSchema_keeps _ _ E) as (_ & <- & _).
  apply manageSubtasks_checked_errors. by eapply ManageSubtasksSchema_checked.
Qed.

Lemma manage_subtasks_tool_errors_witness :
  manage_subtasks_tool "2024-01-02T00:00:00.000Z"
    (create_args "req-req-1-task-1" [sample_spec "  FIX BUG  " None]) file_fix_bug
  = (ErrorCode "VALIDATION_FAILED" [duplicate_item_error 0 "FIX BUG"], file_fix_bug)
  /\ Forall is_duplicate_item_error [duplicate_item_error 0 "FIX BUG"].
Proof.
  assert (H : manage_subtasks_tool "2024-01-02T00:00:00.000Z"
                (create_args "req-req-1-task-1" [sample_spec "  FIX BUG  " None])
                file_fix_bug
              = (ErrorCode "VALIDATION_FAILED" [duplicate_item_error 0 "FIX BUG"],
                 file_fix_bug)) by (vm_compute; reflexivity).
  split; [exact H|].
  exact (proj2 (proj1 (proj2 (manage_subtasks_tool_errors _ _ _ _ _ _ H)) eq_refl)).
Defined.

(* ===================================================================== *)
(** * The content of stored subtasks *)
(* ===================================================================== *)

Lemma Forall_all_subtasks (P : Subtask -> Prop) file :
  Forall (fun req => Forall (fun t => Forall P (subtasks_of t)) (req_tasks req))
         (requests file) ->
  Forall P (all_subtasks file).
Proof.
  unfold all_subtasks. induction 1 as [|req reqs Hreq _ IH]; [constructor|].
  cbn [flat_map]. apply Forall_app. split; [|exact IH].
  induction Hreq as [|t ts Ht _ IHt]; [constructor|].
  cbn [flat_map]. apply Forall_app. by split.
Qed.

(** X15.  In every document reachable through the tools, the content of
    every stored subtask has between 1 and 500 characters and is not only
    white space: [create], [break_down] and [update] store no content that
    [validateSubtaskData] refuses, and nothing else writes a content. *)
Theorem reachable_subtask_content_ok file :
  reachable file ->
  Forall (fun st => content_ok (sub_content st)) (all_subtasks file).
Proof.
  intros Hreach. apply Forall_all_subtasks. revert file Hreach.
  apply reachable_effect_ind; [constructor|].
  intros file file' _ Hinv Heff. revert Heff Hinv. apply effect_tasks_invariant.
  - intros rid k defs. revert k. induction defs as [|d defs IH]; intros k; cbn;
      constructor; [constructor|apply IH].
  - intros told t' Hq He. destruct He as [details _ _| | |subs Hsubs]; try exact Hq.
    unfold subtasks_of. cbn [set_subtasks task_subtasks default].
    eapply Forall_impl; [exact Hsubs|]. intros st [(st0 & Hin & ->)|Hv].
    + rewrite Forall_forall in Hq. by apply Hq.
    + by apply (validateSubtaskData_nil _ None).
Qed.

Lemma reachable_subtask_content_ok_witness :
  reachable file_four_subtasks
  /\ Forall (fun st => content_ok (sub_content st)) (all_subtasks file_four_subtasks).
Proof.
  assert (H : reachable file_four_subtasks) by (apply reachable_run; constructor).
  split; [exact H|]. exact (reachable_subtask_content_ok file_four_subtasks H).
Defined.

(* ===================================================================== *)
(** * [listRequests] *)
(* ===================================================================== *)

Lemma filter_length_impl {A} (f g : A -> bool) (l : list A) :
  Forall (fun x => f x = true -> g x = true) l ->
  (length (List.filter f l) <= length (List.filter g l) <= length l)%nat.
Proof.
  induction 1 as [|x l Hx _ IH]; [cbn; lia|]. cbn [List.filter].
  destruct (f x) eqn:Ef; [rewrite (Hx eq_refl)|destruct (g x)]; cbn [length]; lia.
Qed.

Lemma filter_length_all {A} (f : A -> bool) (l : list A) :
  Forall (fun x => f x = true) l -> length (List.filter f l) = length l.
Proof.
  induction 1 as [|x l Hx _ IH]; [done|]. cbn [List.filter]. rewrite Hx. cbn. by rewrite IH.
Qed.

(** X16.  In a reachable document [listRequests] changes nothing and
    lists the requests in stored order, each with its identifier, its
    number of tasks, and counts of done and of approved tasks such that
    approved <= done <= total; for a completed request both counts equal
    the number of tasks. *)
Theorem listRequests_counts file :
  reachable file ->
  exists summary,
    listRequests file = (RequestsListed summary, file)
    /\ Forall2
         (fun req '(id, original, total, done, approved) =>
            id = req_requestId req /\ original = req_originalRequest req
            /\ total = length (req_tasks req)
            /\ (approved <= done <= total)%nat
            /\ (req_completed req = true -> done = total /\ approved = total))
         (requests file) summary.
Proof.
  intros Hreach.
  assert (Happ : Forall (fun req => Forall approved_is_done (req_tasks req))
                        (requests file)).
  { clear -Hreach. revert file Hreach. apply reachable_effect_ind; [constructor|].
    intros file file' _ Hinv Heff. by eapply effect_approved_is_done. }
  assert (Hfin : Forall completed_is_final (requests file)).
  { clear -Hreach. revert file Hreach. apply reachable_effect_ind; [constructor|].
    intros file file' _ Hinv Heff. by eapply effect_completed_is_final. }
  eexists. split; [reflexivity|]. change (data (loadTasks file)) with file.
  revert Happ Hfin. generalize (requests file). clear.
  intros l. induction l as [|req reqs IH]; intros Happ Hfin; [constructor|].
  apply Forall_cons_1 in Happ as [Ha Happ]. apply Forall_cons_1 in Hfin as [Hf Hfin].
  cbn [map]. constructor; [|by apply IH].
  split; [done|]. split; [done|]. split; [done|]. split.
  - by apply filter_length_impl.
  - intros Hc. specialize (Hf Hc). split; apply filter_length_all, Forall_forall;
      intros t Ht; by destruct (Hf t Ht).
Qed.

Lemma listRequests_counts_witness :
  reachable file_two_tasks
  /\ exists summary,
       listRequests file_two_tasks = (RequestsListed summary, file_two_tasks)
       /\ Forall2
            (fun req '(id, original, total, done, approved) =>
               id = req_requestId req /\ original = req_originalRequest req
               /\ total = length (req_tasks req)
               /\ (approved <= done <= total)%nat
               /\ (req_completed req = true -> done = total /\ approved = total))
            (requests file_two_tasks) summary.
Proof.
  assert (H : reachable file_two_tasks) by (apply reachable_run; constructor).
  split; [exact H|]. exact (listRequests_counts file_two_tasks H).
Defined.

(* ===================================================================== *)
(** * The completion percentage at its extremes *)
(* ===================================================================== *)

Lemma extremes_up_to_100 :
  forallb extremes_ok (seq 1 100) = true /\ percentage_of 199 200 = 100.
Proof. split; [vm_cast_no_check (@eq_refl bool true)|vm_compute; reflexivity]. Qed.

Lemma percentage_of_extremes c n :
  (1 <= n <= 100)%nat -> (c <= n)%nat ->
  0 <= percentage_of c n <= 100
  /\ (percentage_of c n = 100 <-> c = n)
  /\ (percentage_of c n = 0 <-> c = 0%nat).
Proof.
  intros Hn Hc.
  assert (H : extremes_ok n = true).
  { pose proof (proj1 extremes_up_to_100) as Htable.
    rewrite forallb_forall in Htable. apply Htable, in_seq. lia. }
  unfold extremes_ok in H. rewrite forallb_forall in H.
  specialize (H c ltac:(apply in_seq; lia)).
  apply andb_true_iff in H as [H H0].
  apply andb_true_iff in H as [H H100].
  apply andb_true_iff in H as [Hlo Hhi].
  apply Z.leb_le in Hlo, Hhi. apply Bool.eqb_prop in H0, H100.
  split; [lia|]. split.
  - by rewrite <- Z.eqb_eq, H100, Nat.eqb_eq.
  - by rewrite <- Z.eqb_eq, H0, Nat.eqb_eq.
Qed.

Lemma filter_length_full {A} (f : A -> bool) (l : list A) :
  length (List.filter f l) = length l <-> Forall (fun x => f x = true) l.
Proof.
  split; [|apply filter_length_all].
  induction l as [|x l IH]; [constructor|]. cbn [List.filter].
  pose proof (filter_length_impl f f l) as Hle.
  destruct (f x) eqn:Ef; cbn [length]; intros H.
  - constructor; [done|]. apply IH. lia.
  - assert (Hl : (length (List.filter f l) <= length l)%nat).
    { apply Hle, Forall_forall. auto. }
    lia.
Qed.

Lemma filter_length_zero {A} (f : A -> bool) (l : list A) :
  length (List.filter f l) = 0%nat <-> Forall (fun x => f x = false) l.
Proof.
  induction l as [|x l IH]; [by split; [constructor|]|]. cbn [List.filter].
  destruct (f x) eqn:Ef; cbn [length].
  - split; [done|]. intros H. apply Forall_cons_1 in H as [H _]. congruence.
  - rewrite IH. split; [by constructor|]. intros H. by apply Forall_cons_1 in H as [_ H].
Qed.

(** X17.  For a task with at most 100 subtasks the completion percentage
    lies between 0 and 100, is 100 exactly when there is at least one
    subtask and all are completed, and is 0 exactly when none is
    completed.  Some bound is needed: 199 completed subtasks out of 200
    are reported as 100 percent. *)
Theorem percentage_extremes subtasks :
  (length subtasks <= 100)%nat ->
  let pct := calculateCompletionPercentage subtasks in
  0 <= pct <= 100
  /\ (pct = 100 <-> subtasks <> [] /\ Forall (fun st => sub_status st = completed) subtasks)
  /\ (pct = 0 <-> Forall (fun st => sub_status st <> completed) subtasks)
  /\ percentage_of 199 200 = 100.
Proof.
  intros Hlen. cbv zeta.
  assert (Hall : Forall (fun st => sub_status st = completed) subtasks
                 <-> Forall (fun st => isCompleted st = true) subtasks).
  { apply Forall_iff. intros st. unfold isCompleted. by rewrite bool_decide_eq_true. }
  assert (Hnone : Forall (fun st => sub_status st <> completed) subtasks
                  <-> Forall (fun st => isCompleted st = false) subtasks).
  { apply Forall_iff. intros st. unfold isCompleted. by rewrite bool_decide_eq_false. }
  rewrite Hall, Hnone, <- filter_length_full, <- filter_length_zero.
  clear Hall Hnone.
  destruct subtasks as [|st l] eqn:El.
  { split; [cbn; lia|]. split; [cbn; split; [intros H; discriminate H|by intros [? _]]|].
    split; [by cbn|exact (proj2 extremes_up_to_100)]. }
  rewrite <- El in *.
  assert (Hn : (1 <= length subtasks <= 100)%nat)
    by (split; [rewrite El; cbn; lia|exact Hlen]).
  assert (Hc : (length (List.filter isCompleted subtasks) <= length subtasks)%nat)
    by (apply (filter_length_impl isCompleted isCompleted), Forall_forall; auto).
  assert (Hpct : calculateCompletionPercentage subtasks
                 = percentage_of (length (List.filter isCompleted subtasks))
                                 (length subtasks)) by (rewrite El; reflexivity).
  rewrite Hpct. destruct (percentage_of_extremes _ _ Hn Hc) as (Hb & H100 & H0).
  split; [exact Hb|]. split; [|split; [exact H0|exact (proj2 extremes_up_to_100)]].
  rewrite H100. split; [intros Hq|by intros [_ Hq]]. split; [|done].
  intros Hnil. rewrite Hnil in Hn. cbn in Hn. lia.
Qed.

Lemma percentage_extremes_witness :
  (length four_subtasks <= 100)%nat
  /\ (calculateCompletionPercentage four_subtasks = 100
      <-> four_subtasks <> []
          /\ Forall (fun st => sub_status st = completed) four_subtasks).
Proof.
  assert (H : (length four_subtasks <= 100)%nat) by (cbn; lia).
  split; [exact H|]. exact (proj1 (proj2 (percentage_extremes four_subtasks H))).
Defined.

(* ===================================================================== *)
(** * [getNextTask] and display numbers *)
(* ===================================================================== *)

Lemma find_none_forallb {A} (f : A -> bool) (l : list A) :
  List.find (fun x => negb (f x)) l = None -> forallb f l = true.
Proof.
  induction l as [|x l IH]; [done|]. cbn [List.find forallb].
  destruct (f x); cbn [negb andb]; [exact IH|done].
Qed.

(** X18.  [getNextTask] never answers [no_next_task]: when no task is
    left that is not done, all tasks are done and the request is not
    completed at that point, so the answer is [all_tasks_done]; and it
    never changes the document. *)
Theorem getNextTask_never_no_next_task requestId file :
  fst (getNextTask requestId file) <> NoNextTask
  /\ snd (getNextTask requestId file) = file.
Proof.
  enter getNextTask.
  destruct (find_request requestId file) as [[i req]|]; [|by split].
  destruct (req_completed req) eqn:Hc; [by split|].
  destruct (List.find _ (req_tasks req)) eqn:Ef; [by split|].
  by rewrite (find_none_forallb _ _ Ef).
Qed.

Lemma match_suffix_digits_marker m taskId d :
  JS.truthy d = true -> JS.all_digits d = true ->
  JS.match_suffix_digits (m +:+ "-") (taskId +:+ (m +:+ "-") +:+ d) = Some d.
Proof.
  intros Ht Hd. induction taskId as [|c taskId IH].
  - change (EmptyString +:+ (m +:+ "-") +:+ d) with ((m +:+ "-") +:+ d).
    apply match_suffix_digits_here; [apply strip_prefix_append|by rewrite Ht, Hd].
  - change (String c taskId +:+ (m +:+ "-") +:+ d)
      with (String c (taskId +:+ (m +:+ "-") +:+ d)).
    cbn [JS.match_suffix_digits].
    destruct (JS.strip_prefix (m +:+ "-") (String c (taskId +:+ (m +:+ "-") +:+ d)))
      as [rest|] eqn:E; [|exact IH].
    apply strip_prefix_Some in E.
    assert (Hrest : exists u, rest = u +:+ String "-" d).
    { apply (append_suffix (m +:+ "-") rest (String c taskId +:+ m)).
      - rewrite <- E. change (String c ?s) with (String c EmptyString +:+ s).
        by rewrite !append_assoc.
      - rewrite !string_length_append. cbn. lia. }
    destruct Hrest as [u ->]. rewrite all_digits_dash, andb_false_r. exact IH.
Qed.

Lemma taskDisplayNumber_task_id requestId p :
  taskDisplayNumber (task_id_of requestId (Z.pos p)) = Some (Z.pos p).
Proof.
  unfold taskDisplayNumber, task_id_of.
  pose proof (match_suffix_digits_marker "-task" ("req-" +:+ requestId)
                (JS.Number_toString (Z.pos p))) as H.
  rewrite append_assoc in H.
  change ("-task" +:+ "-") with "-task-" in H. rewrite H.
  - apply parseInt_positive.
  - apply truthy_uint, Unsigned.to_uint_nonnil.
  - apply all_digits_uint.
Qed.

(** X19.  In a reachable document the display number of every task (the
    digits after the last [-task-] of its identifier, as [getNextTask],
    [openTaskDetails] and [addTasksToRequest] report it) is present, is
    positive, and is the task number from which [addTasksToRequest]
    computes the numbers of new tasks. *)
Theorem display_number_is_task_number file i req j t :
  reachable file ->
  requests file !! i = Some req ->
  req_tasks req !! j = Some t ->
  taskDisplayNumber (task_id t) = Some (taskNumber t) /\ 0 < taskNumber t.
Proof.
  intros Hreach Hi Hj.
  pose proof (Forall_lookup_1 _ _ _ _ (reachable_numbered file Hreach) Hi) as Hreq.
  destruct (numbered_task_id req j t Hreq Hj) as (k & Hk & Hid & _).
  destruct Hreq as [[n Hn] _]. unfold taskNumber. rewrite Hid.
  destruct k as [|p|p]; [lia| |lia]. rewrite taskDisplayNumber_task_id.
  rewrite Hn. by rewrite (taskNumberOf_task_id n (Z.pos p) Hk).
Qed.

Lemma display_number_is_task_number_witness :
  reachable file_two_tasks
  /\ requests file_two_tasks !! 0%nat = Some request_two_tasks
  /\ req_tasks request_two_tasks !! 1%nat = Some task_b
  /\ taskDisplayNumber (task_id task_b) = Some (taskNumber task_b)
  /\ 0 < taskNumber task_b.
Proof.
  assert (H0 : reachable file_two_tasks) by (apply reachable_run; constructor).
  assert (H1 : requests file_two_tasks !! 0%nat = Some request_two_tasks)
    by (vm_compute; reflexivity).
  assert (H2 : req_tasks request_two_tasks !! 1%nat = Some task_b) by reflexivity.
  split; [exact H0|]. split; [exact H1|]. split; [exact H2|].
  exact (display_number_is_task_number file_two_tasks 0%nat request_two_tasks 1%nat
           task_b H0 H1 H2).
Defined.

(* ===================================================================== *)
(** * After the approval of a request; clearing; deleting a subtask *)
(* ===================================================================== *)

(** X20.  Once [approveRequestCompletion] has succeeded on a request,
    [getNextTask] answers [already_completed] for it and
    [addTasksToRequest] refuses to add tasks to it, both without changing
    the document. *)
Theorem after_request_approval requestId file i req :
  find_request requestId file = Some (i, req) ->
  all_done_and_approved req ->
  let file' := snd (approveRequestCompletion requestId file) in
  file' = set_request file i (set_completed req true)
  /\ getNextTask requestId file' = (AlreadyCompleted, file')
  /\ forall tasks,
       addTasksToRequest requestId tasks file'
       = (Error "Cannot add tasks to completed request", file').
Proof.
  intros Hr Hall. cbv zeta.
  assert (Hfile : snd (approveRequestCompletion requestId file)
                  = set_request file i (set_completed req true)).
  { apply all_done_and_approved_test in Hall as [H1 H2].
    enter approveRequestCompletion. by rewrite Hr, H1, H2. }
  rewrite Hfile. split; [done|].
  assert (Hr' : find_request requestId (set_request file i (set_completed req true))
                = Some (i, set_completed req true)).
  { apply (find_request_set_request _ _ _ _ _ Hr). cbn. by eapply find_request_id. }
  split; [|intros tasks].
  - enter getNextTask. by rewrite Hr'.
  - enter addTasksToRequest. by rewrite Hr'.
Qed.

Lemma after_request_approval_witness :
  find_request "req-1" file_ready_for_approval = Some (0%nat, request_ready_for_approval)
  /\ all_done_and_approved request_ready_for_approval
  /\ getNextTask "req-1" (snd (approveRequestCompletion "req-1" file_ready_for_approval))
     = (AlreadyCompleted, snd (approveRequestCompletion "req-1" file_ready_for_approval)).
Proof.
  assert (H1 : find_request "req-1" file_ready_for_approval
               = Some (0%nat, request_ready_for_approval)) by (vm_compute; reflexivity).
  assert (H2 : all_done_and_approved request_ready_for_approval).
  { apply all_done_and_approved_test. split; reflexivity. }
  split; [exact H1|]. split; [exact H2|].
  exact (proj1 (proj2 (after_request_approval "req-1" file_ready_for_approval 0%nat
                         request_ready_for_approval H1 H2))).
Defined.

Lemma fold_left_task_count (reqs : list RequestEntry) (n : nat) :
  fold_left (fun sum req => (sum + length (req_tasks req))%nat) reqs n
  = (n + length (flat_map req_tasks reqs))%nat.
Proof.
  revert n. induction reqs as [|req reqs IH]; intros n; cbn [fold_left flat_map].
  - cbn. lia.
  - rewrite IH, length_app. lia.
Qed.

(** X21.  [clearAllTasks] always succeeds: it reports the number of
    requests and the total number of tasks that were stored and leaves an
    empty document; the numbering then starts again, so the next request
    planned is [req-1] again, with tasks numbered from 1. *)
Theorem clearAllTasks_restarts_numbering file :
  clearAllTasks file
  = (AllTasksCleared (length (requests file))
                     (length (flat_map req_tasks (requests file))),
     mkFile [])
  /\ forall originalRequest tasks splitDetails,
       snd (requestPlanning originalRequest tasks splitDetails (snd (clearAllTasks file)))
       = mkFile [mkRequest "req-1" originalRequest
                   (or_string splitDetails originalRequest)
                   (number_tasks "req-1" 1 tasks) false].
Proof.
  split; [|done]. enter clearAllTasks. by rewrite fold_left_task_count.
Qed.

Lemma filter_delete_false {A} (f : A -> bool) (l : list A) k x :
  l !! k = Some x -> f x = false -> List.filter f (delete k l) = List.filter f l.
Proof.
  revert k. induction l as [|y l IH]; intros k Hk Hx; [done|].
  destruct k as [|k]; cbn in Hk.
  - injection Hk as ->. change (delete 0%nat (x :: l)) with l.
    cbn [List.filter]. by rewrite Hx.
  - change (delete (S k) (y :: l)) with (y :: delete k l).
    cbn [List.filter]. by rewrite (IH k Hk Hx).
Qed.

(** X22.  [delete] on a subtask it finds: a completed subtask cannot be
    deleted (CANNOT_DELETE_COMPLETED, nothing changes); any other subtask
    is removed, the others stay in their order, the count reported is one
    less, and the completed subtasks are exactly those that were
    completed before. *)
Theorem delete_subtask_outcomes now taskId subtaskId file ri ti task subtasks k st :
  locate_task taskId 0 (requests file) = Some (ri, ti, task) ->
  task_subtasks task = Some subtasks ->
  JS.truthy subtaskId = true ->
  find_subtask subtaskId subtasks = Some (k, st) ->
  (sub_status st = completed ->
     manageSubtasks now (delete_args taskId subtaskId) file
     = (ErrorCode "CANNOT_DELETE_COMPLETED" [], file))
  /\ (sub_status st <> completed ->
      let subtasks' := delete k subtasks in
      let pct := calculateCompletionPercentage subtasks' in
      manageSubtasks now (delete_args taskId subtaskId) file
      = (SubtaskDeleted st pct (length subtasks - 1),
         set_task file ri ti (set_subtasks task subtasks' pct))
      /\ subtasks' = take k subtasks ++ drop (S k) subtasks
      /\ List.filter isCompleted subtasks' = List.filter isCompleted subtasks).
Proof.
  intros Hloc Hs Hid Hf.
  assert (Hshape : manageSubtasks now (delete_args taskId subtaskId) file
                   = if bool_decide (sub_status st = completed)
                     then (ErrorCode "CANNOT_DELETE_COMPLETED" [], file)
                     else (SubtaskDeleted st
                             (calculateCompletionPercentage (delete k subtasks))
                             (length (delete k subtasks)),
                           set_task file ri ti
                             (set_subtasks task (delete k subtasks)
                                (calculateCompletionPercentage (delete k subtasks))))).
  { unfold manageSubtasks, delete_args. cbv zeta. cbn [p_taskId p_action].
    change (data (loadTasks file)) with file. rewrite Hloc.
    unfold manage_delete. cbn [p_subtaskId option_truthy]. rewrite Hid. cbn [negb].
    change (default EmptyString (Some subtaskId)) with subtaskId.
    rewrite Hs, Hf. cbv zeta. by change (data (loadTasks file)) with file. }
  rewrite Hshape. apply list_find_Some in Hf as (Hk & _).
  split; intros Hst.
  - by rewrite bool_decide_eq_true_2.
  - rewrite bool_decide_eq_false_2 by done. cbv zeta.
    rewrite length_delete by (by eexists). split; [done|]. split.
    + by rewrite delete_take_drop.
    + apply (filter_delete_false _ _ _ st Hk). unfold isCompleted.
      by rewrite bool_decide_eq_false_2.
Qed.

Lemma delete_subtask_outcomes_witness :
  locate_task "req-req-1-task-1" 0 (requests file_four_subtasks)
  = Some (0%nat, 0%nat, task_four_subtasks)
  /\ task_subtasks task_four_subtasks = Some four_subtasks
  /\ JS.truthy "req-req-1-task-1-subtask-1" = true
  /\ find_subtask "req-req-1-task-1-subtask-1" four_subtasks = Some (0%nat, subtask_design)
  /\ sub_status subtask_design = completed
  /\ manageSubtasks "2024-01-02T00:00:00.000Z"
       (delete_args "req-req-1-task-1" "req-req-1-task-1-subtask-1") file_four_subtasks
     = (ErrorCode "CANNOT_DELETE_COMPLETED" [], file_four_subtasks).
Proof.
  assert (H1 : locate_task "req-req-1-task-1" 0 (requests file_four_subtasks)
               = Some (0%nat, 0%nat, task_four_subtasks)) by (vm_compute; reflexivity).
  assert (H2 : task_subtasks task_four_subtasks = Some four_subtasks) by reflexivity.
  assert (H3 : JS.truthy "req-req-1-task-1-subtask-1" = true) by reflexivity.
  assert (H4 : find_subtask "req-req-1-task-1-subtask-1" four_subtasks
               = Some (0%nat, subtask_design)) by (vm_compute; reflexivity).
  split; [exact H1|]. split; [exact H2|]. split; [exact H3|]. split; [exact H4|].
  split; [reflexivity|].
  exact (proj1 (delete_subtask_outcomes "2024-01-02T00:00:00.000Z" "req-req-1-task-1"
                  "req-req-1-task-1-subtask-1" file_four_subtasks 0%nat 0%nat
                  task_four_subtasks four_subtasks 0%nat subtask_design H1 H2 H3 H4)
           eq_refl).
Defined.

(** X23.  A request planned with an empty list of tasks, in a reachable
    document, is stored with no task; [getNextTask] answers
    [all_tasks_done] for it at once, and [approveRequestCompletion]
    completes it although nothing was ever done or approved. *)
Theorem empty_request_is_approvable originalRequest splitDetails file :
  reachable file ->
  let requestId := request_id_of (Z.of_nat (length (requests file)) + 1) in
  let req := mkRequest requestId originalRequest
               (or_string splitDetails originalRequest) [] false in
  let file' := snd (requestPlanning originalRequest [] splitDetails file) in
  file' = mkFile (requests file ++ [req])
  /\ getNextTask requestId file' = (AllTasksDone, file')
  /\ approveRequestCompletion requestId file'
     = (RequestApprovedComplete requestId,
        set_request file' (length (requests file)) (set_completed req true)).
Proof.
  intros Hreach. cbv zeta.
  pose proof (reachable_sequential file Hreach) as Hseq.
  assert (Hfile : snd (requestPlanning originalRequest [] splitDetails file)
                  = mkFile (requests file
                            ++ [mkRequest
                                  (request_id_of (Z.of_nat (length (requests file)) + 1))
                                  originalRequest
                                  (or_string splitDetails originalRequest) [] false])).
  { enter requestPlanning. cbn [snd saveTasks number_tasks].
    by rewrite (sequential_requestCounter file Hseq). }
  assert (Hreach' : reachable (snd (requestPlanning originalRequest [] splitDetails file))).
  { exact (reachable_call (request_planning originalRequest [] splitDetails) file Hreach). }
  rewrite Hfile in *. split; [done|].
  pose proof (sequential_find_request _ (length (requests file))
                (mkRequest (request_id_of (Z.of_nat (length (requests file)) + 1))
                   originalRequest (or_string splitDetails originalRequest) [] false)
                (reachable_sequential _ Hreach')) as Hfind.
  cbn [requests] in Hfind. rewrite lookup_app_r, Nat.sub_diag in Hfind by done.
  specialize (Hfind eq_refl). split.
  - enter getNextTask. by rewrite Hfind.
  - enter approveRequestCompletion. by rewrite Hfind.
Qed.

Lemma empty_request_is_approvable_witness :
  reachable file_two_tasks
  /\ getNextTask (request_id_of 2) (snd (requestPlanning "later" [] None file_two_tasks))
     = (AllTasksDone, snd (requestPlanning "later" [] None file_two_tasks)).
Proof.
  assert (H : reachable file_two_tasks) by (apply reachable_run; constructor).
  split; [exact H|].
  exact (proj1 (proj2 (empty_request_is_approvable "later" None file_two_tasks H))).
Defined.
